(** * thyme-toggl timeline: the store, the row projection and the
      reconciliation of remote responses

    A shallow embedding of [src/thymetogglutil/static/index.js].

    The page keeps a handful of global arrays (sessions, time entries,
    commits, projects, issues), a global identity counter and, per calendar
    day, one vis.js [DataSet] of rows.  Handlers of the page are modelled as
    state transformers over a record of these globals; a JavaScript
    exception aborts the running handler and keeps whatever the handler had
    already written. *)

From Stdlib Require Import ZArith List Lia Sorted Ascii.
From stdpp Require Import base decidable option list strings gmap pretty sorting.

Local Open Scope string_scope.
Local Open Scope list_scope.
Local Open Scope Z_scope.

(** ** Values that cross the wire *)

(** A time as the service sends it: a JSON number (epoch milliseconds) or a
    JSON string. *)
Inductive JsTime : Type :=
| JsNum (n : Z)
| JsStr (s : string).

(** A JavaScript [Date]: a time value in milliseconds, or Invalid Date. *)
Inductive Date : Type :=
| Date_ms (t : Z)
| Invalid_Date.

Global Instance Date_eq_dec : EqDecision Date.
Proof. solve_decision. Defined.

(** [Date.prototype.getTime]: the time value; [None] stands for NaN. *)
Definition getTime (d : Date) : option Z :=
  match d with
  | Date_ms t => Some t
  | Invalid_Date => None
  end.

(** ECMAScript TimeClip: time values beyond 8.64e15 ms are invalid. *)
Definition TimeClip (t : Z) : Date :=
  if decide (Z.abs t ≤ 8640000000000000) then Date_ms t else Invalid_Date.

(** ** Entities *)

Record Window : Type := mkWindow {
  w_time : Z;
  w_name : string
}.

Record ExtraData : Type := mkExtraData {
  category : string;
  windows : list Window
}.

Record Issue : Type := mkIssue {
  key : string;
  summary : string;
  i_project : option Z
}.

Record Project : Type := mkProject {
  p_id : Z;
  p_name : string;
  p_client_name : string
}.

(** Entities as they arrive in JSON, before [parseSession],
    [parseTimeEntry] and [parseCommit] turn their time fields into dates. *)
Record RawSession : Type := mkRawSession {
  rs_start_time : JsTime;
  rs_end_time : JsTime;
  rs_date_group : string;
  rs_extra_data : ExtraData;
  rs_exported : option Z
}.

Record RawTimeEntry : Type := mkRawTimeEntry {
  rt_id : Z;
  rt_start_time : JsTime;
  rt_end_time : JsTime;
  rt_at : JsTime;
  rt_description : option string;
  rt_project : option Z;
  rt_date_group : string
}.

Record RawCommit : Type := mkRawCommit {
  rc_time : JsTime;
  rc_message : string;
  rc_issue : option Issue;
  rc_date_group : string
}.

(** Entities of the store.  [idcounter] is the local identity; the parse
    functions leave it at 0 and every caller overwrites it from
    [idCounter++] before the entity is pushed to its array. *)
Record Session : Type := mkSession {
  s_start_time : Date;
  s_end_time : Date;
  s_date_group : string;
  s_extra_data : ExtraData;
  s_exported : option Z;
  s_idcounter : nat
}.

Record TimeEntry : Type := mkTimeEntry {
  te_id : Z;
  te_start_time : Date;
  te_end_time : Date;
  te_at : Date;
  te_description : option string;
  te_project : option Z;
  te_date_group : string;
  te_idcounter : nat
}.

Record Commit : Type := mkCommit {
  c_time : Date;
  c_message : string;
  c_issue : option Issue;
  c_date_group : string;
  c_idcounter : nat
}.

(** The three kinds of object handed to [makeRow]. *)
Inductive Entity : Type :=
| ESession (s : Session)
| EEntry (e : TimeEntry)
| ECommit (c : Commit).

(** ** Rows of the timeline widget *)

(** The [editable] property of a row: a boolean, or the object with the
    three capabilities. *)
Inductive Editable : Type :=
| Editable_bool (b : bool)
| Editable_caps (updateTime remove overrideItems : bool).

(** A row is a JavaScript object literal; a property that the literal does
    not mention is [None]. *)
Record Row : Type := mkRow {
  row_id : nat;
  content : option string;
  start : option Date;
  end_ : option Date;
  group : option string;
  className : option string;
  title : option string;
  type_ : option string;
  editable : option Editable
}.

(** The argument of [DataSet.update] in [refreshEntry]: the literal names
    exactly these five properties. *)
Record RowUpdate : Type := mkRowUpdate {
  u_id : nat;
  u_title : option string;
  u_content : option string;
  u_start : Date;
  u_end : Date
}.

(** ** vis.DataSet

    The widget library is not part of the repository.  A [DataSet] is
    modelled by its documented contract: an insertion-ordered collection of
    items keyed by [id]; [add] refuses an id that is already present (it
    throws), [update] overwrites the named properties of the item with that
    id and adds the argument as a new item when there is none, [remove]
    drops the item with that id. *)
Abbreviation DataSet := (list Row).

Definition DataSet_has (i : nat) (c : DataSet) : bool :=
  existsb (λ r, Nat.eqb (row_id r) i) c.

Definition DataSet_add (r : Row) (c : DataSet) : option DataSet :=
  if DataSet_has (row_id r) c then None else Some (c ++ [r]).

Definition apply_update (u : RowUpdate) (r : Row) : Row :=
  {| row_id := row_id r;
     content := u_content u;
     start := Some (u_start u);
     end_ := Some (u_end u);
     group := group r;
     className := className r;
     title := u_title u;
     type_ := type_ r;
     editable := editable r |}.

Definition row_of_update (u : RowUpdate) : Row :=
  {| row_id := u_id u;
     content := u_content u;
     start := Some (u_start u);
     end_ := Some (u_end u);
     group := None;
     className := None;
     title := u_title u;
     type_ := None;
     editable := None |}.

Definition DataSet_update (u : RowUpdate) (c : DataSet) : DataSet :=
  if DataSet_has (u_id u) c
  then map (λ r, if Nat.eqb (row_id r) (u_id u) then apply_update u r else r) c
  else c ++ [row_of_update u].

Definition DataSet_remove (i : nat) (c : DataSet) : DataSet :=
  List.filter (λ r, negb (Nat.eqb (row_id r) i)) c.

(** [new vis.DataSet(rows)] adds the rows one by one. *)
Fixpoint DataSet_new_from (c : DataSet) (rows : list Row) : option DataSet :=
  match rows with
  | [] => Some c
  | r :: rows' =>
      match DataSet_add r c with
      | Some c' => DataSet_new_from c' rows'
      | None => None
      end
  end.

Definition DataSet_new (rows : list Row) : option DataSet :=
  DataSet_new_from [] rows.

(** ** Array.prototype.sort

    The sort is stable (ECMAScript 2019); it rearranges the array it is
    called on and returns that same array.  Insertion from the right keeps
    an element in front of the later elements it compares equal to. *)
Fixpoint sort_insert {A : Type} (cmp : A → A → Z) (x : A) (l : list A) : list A :=
  match l with
  | [] => [x]
  | y :: l' => if decide (cmp x y ≤ 0) then x :: l else y :: sort_insert cmp x l'
  end.

Definition Array_sort {A : Type} (cmp : A → A → Z) (l : list A) : list A :=
  foldr (sort_insert cmp) [] l.

(** [wcmp]: longer windows first. *)
Definition wcmp (a b : Window) : Z :=
  if decide (w_time a < w_time b) then 1
  else if decide (w_time a > w_time b) then -1
  else 0.

(** ** makeRow *)

Definition Array_join (sep : string) (l : list string) : string :=
  String.concat sep l.

Definition window_line (w : Window) : string :=
  pretty (w_time w) +:+ "s - " +:+ w_name w.

(** The session case.  [obj.extra_data.windows.sort(wcmp)] sorts the
    session's own array, so the session comes back with its windows
    reordered; [slice] and [map] work on copies. *)
Definition makeRow_session (obj : Session) : Row * Session :=
  let sorted := Array_sort wcmp (windows (s_extra_data obj)) in
  let obj' :=
    {| s_start_time := s_start_time obj;
       s_end_time := s_end_time obj;
       s_date_group := s_date_group obj;
       s_extra_data := {| category := category (s_extra_data obj); windows := sorted |};
       s_exported := s_exported obj;
       s_idcounter := s_idcounter obj |} in
  ({| row_id := s_idcounter obj;
      content := Some "";
      start := Some (s_start_time obj);
      end_ := Some (s_end_time obj);
      group := Some "session";
      className := Some ("session-" +:+ category (s_extra_data obj));
      title := Some (Array_join "<br />" (map window_line (take 10 sorted)));
      type_ := None;
      editable := Some (Editable_bool false) |},
   obj').

Definition makeRow_entry (obj : TimeEntry) : Row :=
  {| row_id := te_idcounter obj;
     content := te_description obj;
     start := Some (te_start_time obj);
     end_ := Some (te_end_time obj);
     group := Some "entry";
     className := Some "entry";
     title := te_description obj;
     type_ := None;
     editable := Some (Editable_caps true true true) |}.

Definition makeRow_commit (obj : Commit) : Row :=
  {| row_id := c_idcounter obj;
     content := Some "";
     start := Some (c_time obj);
     end_ := None;
     group := Some "commit";
     className := Some "commit";
     title := Some (c_message obj +:+
                    match c_issue obj with
                    | Some i => "<br />" +:+ key i +:+ " " +:+ summary i
                    | None => ""
                    end);
     type_ := Some "point";
     editable := Some (Editable_bool false) |}.

(** [makeRow(obj, type)]: the row, and the object as the call leaves it.
    A [type] outside the three cases falls through the [switch] and yields
    no row; the page only ever pairs a kind with its own case. *)
Definition makeRow (obj : Entity) (type : string) : option (Row * Entity) :=
  match obj with
  | ESession s =>
      if decide (type = "session")
      then let '(r, s') := makeRow_session s in Some (r, ESession s')
      else None
  | EEntry e =>
      if decide (type = "entry") then Some (makeRow_entry e, EEntry e) else None
  | ECommit c =>
      if decide (type = "commit") then Some (makeRow_commit c, ECommit c) else None
  end.

(** ** The globals of the page *)

(** [global_selected]: the [type] tag and the [item] it comes with.  The
    item is the object of the store; the handlers read of it only fields
    that nothing rewrites after the object is stored (the remote id, the
    date group, a session's start and end), so the value held here reads as
    the shared object does. *)
Inductive Selected : Type :=
| Sel_session (item : Session)
| Sel_entry (item : TimeEntry).

(** The form controls the handlers read and write, the lists of
    [<option>]s that a load appends, and the [alert]s raised so far.
    [#project] is a drop-down, a [select] that shows one option and takes
    one value: [project_val] is [$('#project > option:selected').val()],
    the value of the selected option, and [None] when no option is
    selected; [project_options] lists the value and the text of its
    options, [issue_options] the values of the options of [#issues]. *)
Record Page : Type := mkPage {
  description_val : string;
  project_val : option Z;
  start_time_val : string;
  end_time_val : string;
  split_time_val : string;
  project_options : list (Z * string);
  issue_options : list string;
  alerts : list string
}.

(** [idCounter] is a JavaScript number that only [idCounter++] writes; it
    is modelled as a natural number, exact below 2^53. *)
Record State : Type := mkState {
  sessions : list Session;
  timeEntries : list TimeEntry;
  idCounter : nat;
  log : list Commit;
  projects : list Project;
  issues : list Issue;
  chartItems : gmap string DataSet;
  global_selected : option Selected;
  global_selected_last : option Session;
  page : Page
}.

Definition empty_page : Page :=
  {| description_val := ""; project_val := None; start_time_val := "";
     end_time_val := ""; split_time_val := ""; project_options := [];
     issue_options := []; alerts := [] |}.

(** The globals as the script declares them (lines 33-42). *)
Definition initial_state : State :=
  {| sessions := []; timeEntries := []; idCounter := 0%nat; log := [];
     projects := []; issues := []; chartItems := ∅;
     global_selected := None; global_selected_last := None;
     page := empty_page |}.

Definition set_sessions (v : list Session) (st : State) : State :=
  {| sessions := v; timeEntries := timeEntries st; idCounter := idCounter st;
     log := log st; projects := projects st; issues := issues st;
     chartItems := chartItems st; global_selected := global_selected st;
     global_selected_last := global_selected_last st; page := page st |}.

Definition set_timeEntries (v : list TimeEntry) (st : State) : State :=
  {| sessions := sessions st; timeEntries := v; idCounter := idCounter st;
     log := log st; projects := projects st; issues := issues st;
     chartItems := chartItems st; global_selected := global_selected st;
     global_selected_last := global_selected_last st; page := page st |}.

Definition set_idCounter (v : nat) (st : State) : State :=
  {| sessions := sessions st; timeEntries := timeEntries st; idCounter := v;
     log := log st; projects := projects st; issues := issues st;
     chartItems := chartItems st; global_selected := global_selected st;
     global_selected_last := global_selected_last st; page := page st |}.

Definition set_log (v : list Commit) (st : State) : State :=
  {| sessions := sessions st; timeEntries := timeEntries st; idCounter := idCounter st;
     log := v; projects := projects st; issues := issues st;
     chartItems := chartItems st; global_selected := global_selected st;
     global_selected_last := global_selected_last st; page := page st |}.

Definition set_projects (v : list Project) (st : State) : State :=
  {| sessions := sessions st; timeEntries := timeEntries st; idCounter := idCounter st;
     log := log st; projects := v; issues := issues st;
     chartItems := chartItems st; global_selected := global_selected st;
     global_selected_last := global_selected_last st; page := page st |}.

Definition set_issues (v : list Issue) (st : State) : State :=
  {| sessions := sessions st; timeEntries := timeEntries st; idCounter := idCounter st;
     log := log st; projects := projects st; issues := v;
     chartItems := chartItems st; global_selected := global_selected st;
     global_selected_last := global_selected_last st; page := page st |}.

Definition set_chartItems (v : gmap string DataSet) (st : State) : State :=
  {| sessions := sessions st; timeEntries := timeEntries st; idCounter := idCounter st;
     log := log st; projects := projects st; issues := issues st;
     chartItems := v; global_selected := global_selected st;
     global_selected_last := global_selected_last st; page := page st |}.

Definition set_page (v : Page) (st : State) : State :=
  {| sessions := sessions st; timeEntries := timeEntries st; idCounter := idCounter st;
     log := log st; projects := projects st; issues := issues st;
     chartItems := chartItems st; global_selected := global_selected st;
     global_selected_last := global_selected_last st; page := v |}.

(** [$('#project').val(v)], jQuery's setter on a [select]: the option
    whose value is [v] becomes the selected one, and when no option has
    that value no option is selected afterwards. *)
Definition set_project_val (v : option Z) (p : Page) : Page :=
  {| description_val := description_val p;
     project_val :=
       match v with
       | Some n => if bool_decide (n ∈ map fst (project_options p)) then Some n else None
       | None => None
       end;
     start_time_val := start_time_val p; end_time_val := end_time_val p;
     split_time_val := split_time_val p; project_options := project_options p;
     issue_options := issue_options p; alerts := alerts p |}.

Definition set_description_val (v : string) (p : Page) : Page :=
  {| description_val := v; project_val := project_val p;
     start_time_val := start_time_val p; end_time_val := end_time_val p;
     split_time_val := split_time_val p; project_options := project_options p;
     issue_options := issue_options p; alerts := alerts p |}.

(** What is selected in a drop-down once its list of options has
    changed: a selected option stays selected, and when none is, the
    browser selects the first option of the list. *)
Definition settled_selection (v : option Z) (options : list (Z * string)) : option Z :=
  match v with
  | Some n => Some n
  | None => fst <$> head options
  end.

(** The characters that the HTML parser takes over as they stand, in the
    text of an element and in a double-quoted attribute value: all but
    NUL (0), carriage return (13), the double quote (34), [&] (38) and
    [<] (60). *)
Definition verbatim_char (c : ascii) : bool :=
  negb (existsb (Nat.eqb (nat_of_ascii c)) [0; 13; 34; 38; 60]%nat).

Fixpoint verbatim (s : string) : bool :=
  match s with
  | EmptyString => true
  | String c s => verbatim_char c && verbatim s
  end.

(** [$('#project').append('<option value=...>...</option>')]: the option
    that the markup stands for when its text is [verbatim] joins the list,
    and the drop-down settles its selection. *)
Definition add_project_option (o : Z * string) (p : Page) : Page :=
  {| description_val := description_val p;
     project_val := settled_selection (project_val p) (project_options p ++ [o]);
     start_time_val := start_time_val p; end_time_val := end_time_val p;
     split_time_val := split_time_val p;
     project_options := project_options p ++ [o];
     issue_options := issue_options p; alerts := alerts p |}.

(** [$('#issues').append('<option value=...></option>')], for a value that
    is [verbatim]. *)
Definition add_issue_option (o : string) (p : Page) : Page :=
  {| description_val := description_val p; project_val := project_val p;
     start_time_val := start_time_val p; end_time_val := end_time_val p;
     split_time_val := split_time_val p; project_options := project_options p;
     issue_options := issue_options p ++ [o]; alerts := alerts p |}.

Definition add_alert (msg : string) (p : Page) : Page :=
  {| description_val := description_val p; project_val := project_val p;
     start_time_val := start_time_val p; end_time_val := end_time_val p;
     split_time_val := split_time_val p; project_options := project_options p;
     issue_options := issue_options p; alerts := alerts p ++ [msg] |}.

(** ** Handlers: state passing with exceptions

    A handler either returns a value and the state it leaves, or throws
    (a [TypeError] on a property of [undefined], the error of
    [DataSet.add]) and leaves the state it had reached. *)
Inductive Res (A : Type) : Type :=
| Done (a : A) (st : State)
| Thrown (st : State).
Arguments Done {A} a st.
Arguments Thrown {A} st.

Definition Handler (A : Type) : Type := State → Res A.

Definition ret {A : Type} (a : A) : Handler A := λ st, Done a st.

Definition throw {A : Type} : Handler A := λ st, Thrown st.

Definition bind {A B : Type} (m : Handler A) (k : A → Handler B) : Handler B :=
  λ st, match m st with
        | Done a st' => k a st'
        | Thrown st' => Thrown st'
        end.

Definition get : Handler State := λ st, Done st st.

Definition modify (f : State → State) : Handler unit := λ st, Done tt (f st).

(** A value that must not be [undefined] where it is dereferenced. *)
Definition defined {A : Type} (o : option A) : Handler A :=
  match o with
  | Some a => ret a
  | None => throw
  end.

Notation "x <- m ;; k" := (bind m (λ x, k))
  (at level 100, m at next level, k at level 200, right associativity,
   format "'[v' x  <-  m  ;; '/' k ']'").
Notation "m ;;; k" := (bind m (λ _, k))
  (at level 100, k at level 200, right associativity,
   format "'[v' m  ;;; '/' k ']'").

Fixpoint forEach {A : Type} (l : list A) (f : A → Handler unit) : Handler unit :=
  match l with
  | [] => ret tt
  | x :: l' => f x ;;; forEach l' f
  end.

(** The state a handler leaves, returned or thrown: the page goes on with
    it either way. *)
Definition state_of {A : Type} (r : Res A) : State :=
  match r with
  | Done _ st => st
  | Thrown st => st
  end.

Definition returned {A : Type} (r : Res A) : bool :=
  match r with
  | Done _ _ => true
  | Thrown _ => false
  end.

(** ** Requests *)

(** What the page posts.  A time field is [getTime()] of a date, [None]
    for NaN. *)
Record ExportPost : Type := mkExportPost {
  ex_id : option Z;
  ex_start_time : option Z;
  ex_end_time : option Z;
  ex_name : string;
  ex_project : option Z
}.

Record SplitPost : Type := mkSplitPost {
  sp_id : Z;
  sp_start_time : option Z;
  sp_end_time : option Z;
  sp_split_time : option Z;
  sp_name : string;
  sp_project : option Z
}.

Record DeletePost : Type := mkDeletePost {
  del_id : Z
}.

(** The body of the answer to [GET sessions]. *)
Record Data : Type := mkData {
  d_sessions : list RawSession;
  d_time_entries : list RawTimeEntry;
  d_log : list RawCommit;
  d_projects : list Project;
  d_issues : list Issue
}.

(** ** A JavaScript [Set] of strings, in insertion order *)
Definition Set_add (x : string) (s : list string) : list string :=
  if decide (x ∈ s) then s else s ++ [x].

(** [s.indexOf(sub)], -1 when [sub] does not occur. *)
Definition String_indexOf (s sub : string) : Z :=
  match String.index 0 sub s with
  | Some n => Z.of_nat n
  | None => -1
  end.

(** The positions of the elements [filter] keeps: the filtered array holds
    the very objects of the array it was taken from. *)
Fixpoint indices_from {A : Type} (p : A → bool) (i : nat) (l : list A) : list nat :=
  match l with
  | [] => []
  | x :: l' => (if p x then [i] else []) ++ indices_from p (S i) l'
  end.

Fixpoint mapM {A B : Type} (f : A → Handler B) (l : list A) : Handler (list B) :=
  match l with
  | [] => ret []
  | x :: l' => y <- f x ;; ys <- mapM f l' ;; ret (y :: ys)
  end.

Definition with_s_idcounter (n : nat) (s : Session) : Session :=
  {| s_start_time := s_start_time s; s_end_time := s_end_time s;
     s_date_group := s_date_group s; s_extra_data := s_extra_data s;
     s_exported := s_exported s; s_idcounter := n |}.

Definition with_te_idcounter (n : nat) (e : TimeEntry) : TimeEntry :=
  {| te_id := te_id e; te_start_time := te_start_time e;
     te_end_time := te_end_time e; te_at := te_at e;
     te_description := te_description e; te_project := te_project e;
     te_date_group := te_date_group e; te_idcounter := n |}.

Definition with_te_date_group (g : string) (e : TimeEntry) : TimeEntry :=
  {| te_id := te_id e; te_start_time := te_start_time e;
     te_end_time := te_end_time e; te_at := te_at e;
     te_description := te_description e; te_project := te_project e;
     te_date_group := g; te_idcounter := te_idcounter e |}.

Definition with_c_idcounter (n : nat) (c : Commit) : Commit :=
  {| c_time := c_time c; c_message := c_message c; c_issue := c_issue c;
     c_date_group := c_date_group c; c_idcounter := n |}.

(** [idCounter++] *)
Definition next_idCounter : Handler nat :=
  λ st, Done (idCounter st) (set_idCounter (S (idCounter st)) st).

(** ** The time of day of a date

    [format_two_digits] returns the string ['0' + n] or the number [n]
    itself; [dateToTimestr] turns either into text when it appends the
    colons.  (The function also leaves its three parts in the undeclared
    globals [hours], [minutes] and [seconds], which nothing reads.) *)
Inductive JsVal : Type :=
| JsString (s : string)
| JsNumber (n : option Z).

(** ToString of a string or of an integral number; [None] is NaN. *)
Definition ToString (v : JsVal) : string :=
  match v with
  | JsString s => s
  | JsNumber (Some n) => pretty n
  | JsNumber None => "NaN"
  end.

Definition format_two_digits (n : option Z) : JsVal :=
  match n with
  | Some z => if decide (z < 10) then JsString ("0" +:+ pretty z) else JsNumber (Some z)
  | None => JsNumber None
  end.

Section LocalTime.

(** The offset of local time from UTC, in milliseconds, at a given time
    value: the time zone of the browser. *)
Variable LocalTZA : Z → Z.

Definition LocalTime (t : Z) : Z := t + LocalTZA t.

(** ECMAScript HourFromTime, MinFromTime and SecFromTime. *)
Definition HourFromTime (t : Z) : Z := (t / 3600000) mod 24.
Definition MinFromTime (t : Z) : Z := (t / 60000) mod 60.
Definition SecFromTime (t : Z) : Z := (t / 1000) mod 60.

Definition getHours (d : Date) : option Z :=
  match d with
  | Date_ms t => Some (HourFromTime (LocalTime t))
  | Invalid_Date => None
  end.

Definition getMinutes (d : Date) : option Z :=
  match d with
  | Date_ms t => Some (MinFromTime (LocalTime t))
  | Invalid_Date => None
  end.

Definition getSeconds (d : Date) : option Z :=
  match d with
  | Date_ms t => Some (SecFromTime (LocalTime t))
  | Invalid_Date => None
  end.

Definition dateToTimestr (d : Date) : string :=
  let hours := format_two_digits (getHours d) in
  let minutes := format_two_digits (getMinutes d) in
  let seconds := format_two_digits (getSeconds d) in
  ToString hours +:+ ":" +:+ ToString minutes +:+ ":" +:+ ToString seconds.

(** The second of the local day at which a time value falls. *)
Definition second_of_day (t : Z) : Z := (LocalTime t / 1000) mod 86400.

End LocalTime.

(** A browser whose [Date.parse] accepts nothing; the sample data never
    asks it. *)
Definition no_parse (s : string) : Date := Invalid_Date.

Section WithDateParse.

(** [Date.parse] on a string is left to the browser. *)
Variable Date_parse : string → Date.

Definition new_Date (v : JsTime) : Date :=
  match v with
  | JsNum n => TimeClip n
  | JsStr s => Date_parse s
  end.

Definition parseTime (time_str : JsTime) : Date := new_Date time_str.

Definition parseTimeEntry (timeEntry : RawTimeEntry) : TimeEntry :=
  {| te_id := rt_id timeEntry;
     te_start_time := parseTime (rt_start_time timeEntry);
     te_end_time := parseTime (rt_end_time timeEntry);
     te_at := parseTime (rt_at timeEntry);
     te_description := rt_description timeEntry;
     te_project := rt_project timeEntry;
     te_date_group := rt_date_group timeEntry;
     te_idcounter := 0%nat |}.

Definition parseSession (session : RawSession) : Session :=
  {| s_start_time := parseTime (rs_start_time session);
     s_end_time := parseTime (rs_end_time session);
     s_date_group := rs_date_group session;
     s_extra_data := rs_extra_data session;
     s_exported := rs_exported session;
     s_idcounter := 0%nat |}.

Definition parseCommit (commit : RawCommit) : Commit :=
  {| c_time := parseTime (rc_time commit);
     c_message := rc_message commit;
     c_issue := rc_issue commit;
     c_date_group := rc_date_group commit;
     c_idcounter := 0%nat |}.

(** *** updateTable and drawDayChart *)

(** [rows.push(makeRow(session, 'session'))] for the session at position
    [i] of the global array: the call sorts that session's windows. *)
Definition session_row (i : nat) : Handler Row :=
  λ st, match sessions st !! i with
        | Some s =>
            let '(r, s') := makeRow_session s in
            Done r (set_sessions (<[i:=s']> (sessions st)) st)
        | None => Thrown st
        end.

Definition drawDayChart (day_sessions : list nat) (day_entries : list TimeEntry)
    (day_log : list Commit) : Handler unit :=
  rows_s <- mapM session_row day_sessions ;;
  let rows := rows_s ++ map makeRow_entry day_entries ++ map makeRow_commit day_log in
  items <- defined (DataSet_new rows) ;;
  st <- get ;;
  first <- defined (head day_sessions ≫= λ i, sessions st !! i) ;;
  modify (λ st, set_chartItems (<[s_date_group first := items]> (chartItems st)) st).

Definition same_group (dateGroup : string) (g : string) : bool :=
  bool_decide (g = dateGroup).

Definition updateTable : Handler unit :=
  st0 <- get ;;
  let dateGroups := foldl (λ acc session, Set_add (s_date_group session) acc) [] (sessions st0) in
  forEach dateGroups (λ dateGroup,
    st <- get ;;
    drawDayChart
      (indices_from (λ s, same_group dateGroup (s_date_group s)) 0 (sessions st))
      (List.filter (λ s, same_group dateGroup (te_date_group s)) (timeEntries st))
      (List.filter (λ s, same_group dateGroup (c_date_group s)) (log st))).

(** *** getSessions: the [done] callback *)
Definition getSessions_done (data : Data) : Handler unit :=
  modify (set_sessions []) ;;;
  modify (set_timeEntries []) ;;;
  modify (set_log []) ;;;
  modify (set_projects []) ;;;
  modify (set_chartItems ∅) ;;;
  forEach (d_sessions data) (λ raw,
    let session := parseSession raw in
    n <- next_idCounter ;;
    modify (λ st, set_sessions (sessions st ++ [with_s_idcounter n session]) st)) ;;;
  forEach (d_time_entries data) (λ raw,
    let time_entry := parseTimeEntry raw in
    n <- next_idCounter ;;
    modify (λ st, set_timeEntries (timeEntries st ++ [with_te_idcounter n time_entry]) st)) ;;;
  forEach (d_log data) (λ raw,
    let commit := parseCommit raw in
    n <- next_idCounter ;;
    modify (λ st, set_log (log st ++ [with_c_idcounter n commit]) st)) ;;;
  forEach (d_projects data) (λ project,
    modify (λ st, set_projects (projects st ++ [project]) st)) ;;;
  forEach (d_projects data) (λ project,
    modify (λ st, set_page
      (add_project_option (p_id project, p_client_name project +:+ " - " +:+ p_name project)
         (page st)) st)) ;;;
  forEach (d_issues data) (λ issue,
    modify (λ st, set_issues (issues st ++ [issue]) st) ;;;
    modify (λ st, set_page (add_issue_option (key issue +:+ " " +:+ summary issue) (page st)) st)) ;;;
  updateTable.

(** *** refreshEntry *)

Definition refreshed (newEntry : RawTimeEntry) (entry : TimeEntry) : TimeEntry :=
  {| te_id := te_id entry;
     te_start_time := parseTime (rt_start_time newEntry);
     te_end_time := parseTime (rt_end_time newEntry);
     te_at := te_at entry;
     te_description := rt_description newEntry;
     te_project := te_project entry;
     te_date_group := te_date_group entry;
     te_idcounter := te_idcounter entry |}.

Definition update_of (entry : TimeEntry) : RowUpdate :=
  {| u_id := te_idcounter entry;
     u_title := te_description entry;
     u_content := te_description entry;
     u_start := te_start_time entry;
     u_end := te_end_time entry |}.

Definition refreshEntry_at (newEntry : RawTimeEntry) (i : nat) : Handler unit :=
  st <- get ;;
  entry <- defined (timeEntries st !! i) ;;
  if decide (te_id entry = rt_id newEntry) then
    let entry := refreshed newEntry entry in
    modify (λ st, set_timeEntries (<[i:=entry]> (timeEntries st)) st) ;;;
    st <- get ;;
    c <- defined (chartItems st !! te_date_group entry) ;;
    modify (λ st, set_chartItems
      (<[te_date_group entry := DataSet_update (update_of entry) c]> (chartItems st)) st)
  else ret tt.

Definition refreshEntry (newEntry : RawTimeEntry) : Handler unit :=
  st0 <- get ;;
  forEach (seq 0 (length (timeEntries st0))) (refreshEntry_at newEntry).

(** *** createEntry

    [session] is a session of the store or the literal
    [{date_group: date_str}]; only its [date_group] is read. *)
Definition createEntry (session_date_group : string) (entry : RawTimeEntry) : Handler unit :=
  let entry := parseTimeEntry entry in
  let entry := with_te_date_group session_date_group entry in
  n <- next_idCounter ;;
  let entry := with_te_idcounter n entry in
  modify (λ st, set_timeEntries (timeEntries st ++ [entry]) st) ;;;
  st <- get ;;
  c <- defined (chartItems st !! te_date_group entry) ;;
  c' <- defined (DataSet_add (makeRow_entry entry) c) ;;
  modify (λ st, set_chartItems (<[te_date_group entry := c']> (chartItems st)) st).

(** *** The remote calls: the request, and the success callback *)

Definition exportSession (session : Session) (end_time : Date) (st : State) : ExportPost :=
  {| ex_id := None;
     ex_start_time := getTime (s_start_time session);
     ex_end_time := getTime end_time;
     ex_name := description_val (page st);
     ex_project := project_val (page st) |}.

Definition exportSession_done (session : Session) (data : RawTimeEntry) : Handler unit :=
  createEntry (s_date_group session) data.

Definition updateEntry (entryId : Z) (date_str : string) (st : State) : ExportPost :=
  {| ex_id := Some entryId;
     ex_start_time := getTime (new_Date (JsStr (date_str +:+ " " +:+ start_time_val (page st))));
     ex_end_time := getTime (new_Date (JsStr (date_str +:+ " " +:+ end_time_val (page st))));
     ex_name := description_val (page st);
     ex_project := project_val (page st) |}.

Definition updateEntry_done (data : RawTimeEntry) : Handler unit :=
  refreshEntry data.

Definition deleteEntry (entryId : Z) : DeletePost := {| del_id := entryId |}.

Definition deleteEntry_done (entryId : Z) (data : string) : Handler unit :=
  modify (λ st, set_page
    (add_alert ("deleted entry " +:+ pretty entryId +:+ ": " +:+ data) (page st)) st).


Definition splitEntry_done (date_str : string) (entry1 entry2 : RawTimeEntry) : Handler unit :=
  refreshEntry entry1 ;;;
  createEntry date_str entry2.

(** A request in flight, with what its success callback closes over. *)
Inductive Request : Type :=
| Req_export (session : Session) (post : ExportPost)
| Req_update (post : ExportPost)
| Req_split (date_str : string) (post : SplitPost)
| Req_delete (post : DeletePost).

(** *** The buttons and the description field *)

Definition btn_export_click : Handler (option Request) :=
  st <- get ;;
  match global_selected st with
  | None => ret None
  | Some (Sel_session item) =>
      last <- defined (global_selected_last st) ;;
      ret (Some (Req_export item (exportSession item (s_end_time last) st)))
  | Some (Sel_entry item) =>
      ret (Some (Req_update (updateEntry (te_id item) (te_date_group item) st)))
  end.


(** Truthiness of [issue.project]: absent, [null] and 0 are falsy. *)
Definition truthy (p : option Z) : bool :=
  match p with
  | Some n => negb (Z.eqb n 0)
  | None => false
  end.

(** The [change] handler of the description field (lines 20-28).  The guard
    reads the length of [issues], the array of all known issues, and then
    dereferences [issue[0]], the first element of the filtered array.  (The
    filtered array is also left in the undeclared global [issue], which
    nothing else reads.) *)
Definition description_change : Handler unit :=
  st <- get ;;
  let issue := List.filter
    (λ issue, bool_decide (String_indexOf (description_val (page st)) (key issue) > -1))
    (issues st) in
  if Nat.ltb 0 (length (issues st)) then
    first <- defined (head issue) ;;
    if truthy (i_project first)
    then modify (λ st, set_page (set_project_val (i_project first) (page st)) st)
    else ret tt
  else ret tt.

(** *** The timeline's move and remove intents *)

Definition is_entry_row (item : Row) : bool :=
  bool_decide (group item = Some "entry").

Definition entry_of_row (item : Row) (st : State) : option TimeEntry :=
  head (List.filter (λ entry, Nat.eqb (te_idcounter entry) (row_id item)) (timeEntries st)).

(** [onMove(item, callback)] up to [callback(item)]. *)
Definition onMove (item : Row) : Handler (option Request) :=
  if is_entry_row item then
    st <- get ;;
    entry <- defined (entry_of_row item st) ;;
    item_start <- defined (start item) ;;
    item_end <- defined (end_ item) ;;
    ret (Some (Req_update
      {| ex_id := Some (te_id entry);
         ex_start_time := getTime item_start;
         ex_end_time := getTime item_end;
         ex_name := description_val (page st);
         ex_project := None |}))
  else ret None.

(** [onRemove(item, callback)] up to [callback(item)]. *)
Definition onRemove (item : Row) : Handler (option Request) :=
  if is_entry_row item then
    st <- get ;;
    entry <- defined (entry_of_row item st) ;;
    ret (Some (Req_delete (deleteEntry (te_id entry))))
  else ret None.

(** The widget's side of the two intents (vis.js contract): the item it
    hands over is the row of its own [DataSet], with the dragged span for a
    move; [callback(item)] confirms, and the widget then writes the item
    back, or drops it. *)
Definition find_row (dg : string) (i : nat) (st : State) : option Row :=
  chartItems st !! dg ≫= λ c, head (List.filter (λ r, Nat.eqb (row_id r) i) c).

Definition moved (new_start new_end : Date) (r : Row) : Row :=
  {| row_id := row_id r; content := content r; start := Some new_start;
     end_ := match end_ r with Some _ => Some new_end | None => None end;
     group := group r; className := className r;
     title := title r; type_ := type_ r; editable := editable r |}.

Definition DataSet_put (item : Row) (c : DataSet) : DataSet :=
  map (λ r, if Nat.eqb (row_id r) (row_id item) then item else r) c.

Definition Timeline_move (dg : string) (i : nat) (new_start new_end : Date)
    : Handler (option Request) :=
  st <- get ;;
  match find_row dg i st, chartItems st !! dg with
  | Some r, Some c =>
      let item := moved new_start new_end r in
      rq <- onMove item ;;
      modify (λ st, set_chartItems (<[dg := DataSet_put item c]> (chartItems st)) st) ;;;
      ret rq
  | _, _ => ret None
  end.

Definition Timeline_remove (dg : string) (i : nat) : Handler (option Request) :=
  st <- get ;;
  match find_row dg i st, chartItems st !! dg with
  | Some item, Some c =>
      rq <- onRemove item ;;
      modify (λ st, set_chartItems (<[dg := DataSet_remove (row_id item) c]> (chartItems st)) st) ;;;
      ret rq
  | _, _ => ret None
  end.

(** ** Runs of the page *)

(** What can happen to the store: an answer of the service arrives, or the
    user acts on the timeline or the description field.  Selecting a row
    writes only the two selection globals and the form controls; the
    statements below take the selection as given. *)
Inductive Event : Type :=
| Loaded (data : Data)
| Export_done (session : Session) (data : RawTimeEntry)
| Update_done (data : RawTimeEntry)
| Split_done (date_str : string) (entry1 entry2 : RawTimeEntry)
| Delete_done (entryId : Z) (data : string)
| Description_typed (text : string)
| Row_moved (dg : string) (i : nat) (new_start new_end : Date)
| Row_removed (dg : string) (i : nat).

Definition handle (ev : Event) : Handler unit :=
  match ev with
  | Loaded data => getSessions_done data
  | Export_done session data => exportSession_done session data
  | Update_done data => updateEntry_done data
  | Split_done date_str entry1 entry2 => splitEntry_done date_str entry1 entry2
  | Delete_done entryId data => deleteEntry_done entryId data
  | Description_typed text =>
      modify (λ st, set_page (set_description_val text (page st)) st) ;;;
      description_change
  | Row_moved dg i new_start new_end => Timeline_move dg i new_start new_end ;;; ret tt
  | Row_removed dg i => Timeline_remove dg i ;;; ret tt
  end.

(** An exception ends the handler, not the page: the next event finds the
    state the failed handler left. *)
Definition step (st : State) (ev : Event) : State := state_of (handle ev st).

Definition run (evs : list Event) (st : State) : State := foldl step st evs.

(** ** Views of the store used in the statements *)

(** The local identities of everything in the store, kind by kind. *)
Definition session_ids (st : State) : list nat := map s_idcounter (sessions st).
Definition entry_ids (st : State) : list nat := map te_idcounter (timeEntries st).
Definition commit_ids (st : State) : list nat := map c_idcounter (log st).

Definition all_ids (st : State) : list nat :=
  session_ids st ++ entry_ids st ++ commit_ids st.

(** How many rows of a collection carry the identity [i]. *)
Definition rows_with (i : nat) (c : DataSet) : nat :=
  length (List.filter (λ r, Nat.eqb (row_id r) i) c).

(** The rows [drawDayChart] builds for a day. *)
Definition day_rows (dg : string) (ss : list Session) (es : list TimeEntry)
    (cs : list Commit) : list Row :=
  map (λ s, fst (makeRow_session s)) (List.filter (λ s, same_group dg (s_date_group s)) ss)
  ++ map makeRow_entry (List.filter (λ s, same_group dg (te_date_group s)) es)
  ++ map makeRow_commit (List.filter (λ s, same_group dg (c_date_group s)) cs).

(** ** The loop of [refreshEntry], by recursion on the array

    What the loop leaves of the entries it has still to visit and of the
    row collections, and whether it got to the end. *)
Definition response_update (newEntry : RawTimeEntry) (i : nat) : RowUpdate :=
  {| u_id := i;
     u_title := rt_description newEntry;
     u_content := rt_description newEntry;
     u_start := parseTime (rt_start_time newEntry);
     u_end := parseTime (rt_end_time newEntry) |}.

Definition refresh_if (newEntry : RawTimeEntry) (e : TimeEntry) : TimeEntry :=
  if decide (te_id e = rt_id newEntry) then refreshed newEntry e else e.

Fixpoint refresh_rest (newEntry : RawTimeEntry) (charts : gmap string DataSet)
    (l : list TimeEntry) : list TimeEntry * gmap string DataSet * bool :=
  match l with
  | [] => ([], charts, true)
  | e :: l' =>
      if decide (te_id e = rt_id newEntry) then
        match charts !! te_date_group e with
        | Some c =>
            let '(l'', charts', ok) :=
              refresh_rest newEntry
                (<[te_date_group e :=
                     DataSet_update (response_update newEntry (te_idcounter e)) c]> charts) l' in
            (refreshed newEntry e :: l'', charts', ok)
        | None => (refreshed newEntry e :: l', charts, false)
        end
      else
        let '(l'', charts', ok) := refresh_rest newEntry charts l' in
        (e :: l'', charts', ok)
  end.

(** The identities of the entries of day [g] that carry the remote id of
    the response. *)
Definition matching_ids (newEntry : RawTimeEntry) (g : string) (l : list TimeEntry) : list nat :=
  map te_idcounter
    (List.filter (λ e, bool_decide (te_id e = rt_id newEntry) && same_group g (te_date_group e)) l).

Definition apply_updates (newEntry : RawTimeEntry) (ids : list nat) (c : DataSet) : DataSet :=
  foldl (λ c i, DataSet_update (response_update newEntry i) c) c ids.

(** The row [refreshEntry] leaves in place of [r]: [update] overwrites
    title, content, start and end and keeps the rest. *)
Definition refreshed_row (newEntry : RawTimeEntry) (r : Row) : Row :=
  apply_update (response_update newEntry (row_id r)) r.

(** ** What a load puts in the store *)

(** The entry [createEntry] pushes when the counter stands at [n]. *)
Definition created (session_date_group : string) (entry : RawTimeEntry) (n : nat) : TimeEntry :=
  with_te_idcounter n (with_te_date_group session_date_group (parseTimeEntry entry)).

(** [f n x0; f (n+1) x1; ...]: the elements of an array, each with the
    value of the counter at its turn. *)
Fixpoint number_from {A B : Type} (f : nat → A → B) (n : nat) (l : list A) : list B :=
  match l with
  | [] => []
  | x :: l' => f n x :: number_from f (S n) l'
  end.

Definition loaded_sessions (n : nat) (data : Data) : list Session :=
  number_from (λ k raw, with_s_idcounter k (parseSession raw)) n (d_sessions data).

Definition loaded_entries (n : nat) (data : Data) : list TimeEntry :=
  number_from (λ k raw, with_te_idcounter k (parseTimeEntry raw))
    (n + length (d_sessions data)) (d_time_entries data).

Definition loaded_log (n : nat) (data : Data) : list Commit :=
  number_from (λ k raw, with_c_idcounter k (parseCommit raw))
    (n + length (d_sessions data) + length (d_time_entries data)) (d_log data).

Definition loaded_page (data : Data) (p : Page) : Page :=
  {| description_val := description_val p;
     project_val :=
       match d_projects data with
       | [] => project_val p
       | _ :: _ =>
           settled_selection (project_val p)
             (project_options p ++
              map (λ project,
                     (p_id project, p_client_name project +:+ " - " +:+ p_name project))
                (d_projects data))
       end;
     start_time_val := start_time_val p; end_time_val := end_time_val p;
     split_time_val := split_time_val p;
     project_options := project_options p ++
       map (λ project, (p_id project, p_client_name project +:+ " - " +:+ p_name project))
         (d_projects data);
     issue_options := issue_options p ++
       map (λ issue, key issue +:+ " " +:+ summary issue) (d_issues data);
     alerts := alerts p |}.

(** The store when the [done] callback reaches [updateTable()]. *)
Definition loaded_store (data : Data) (st : State) : State :=
  {| sessions := loaded_sessions (idCounter st) data;
     timeEntries := loaded_entries (idCounter st) data;
     idCounter := idCounter st + length (d_sessions data)
                  + length (d_time_entries data) + length (d_log data);
     log := loaded_log (idCounter st) data;
     projects := d_projects data;
     issues := issues st ++ d_issues data;
     chartItems := ∅;
     global_selected := global_selected st;
     global_selected_last := global_selected_last st;
     page := loaded_page data (page st) |}.

(** A session as [makeRow] leaves it. *)
Definition sorted_windows (s : Session) : Session := snd (makeRow_session s).

(** The sessions once the days in [done] have been drawn. *)
Definition drawn (done : list string) (s : Session) : Session :=
  if bool_decide (s_date_group s ∈ done) then sorted_windows s else s.

(** ** Invariants of the store *)

(** Identities are pairwise distinct and below the counter. *)
Definition IdsInv (st : State) : Prop :=
  NoDup (all_ids st) ∧ Forall (λ i, i < idCounter st)%nat (all_ids st).

(** Every row carries an identity below the counter, and the day of every
    session has a row collection. *)
Definition ChartsInv (st : State) : Prop :=
  (∀ g c, chartItems st !! g = Some c → Forall (λ r, row_id r < idCounter st)%nat c) ∧
  (∀ s, s ∈ sessions st → is_Some (chartItems st !! s_date_group s)).

Definition Inv (st : State) : Prop := IdsInv st ∧ ChartsInv st.

(** How an event moves the identities: a load hands fresh ones to
    everything it stores; any other event leaves every entity the identity
    it has and hands fresh ones to the entries it adds.  Fresh identities
    are the values of the counter, in order. *)
Definition ids_kept (st st' : State) : Prop :=
  (idCounter st ≤ idCounter st')%nat ∧
  session_ids st' = session_ids st ∧
  commit_ids st' = commit_ids st ∧
  entry_ids st' = entry_ids st ++ seq (idCounter st) (idCounter st' - idCounter st).

Definition ids_step (ev : Event) (st st' : State) : Prop :=
  match ev with
  | Loaded _ =>
      (idCounter st ≤ idCounter st')%nat ∧
      all_ids st' = seq (idCounter st) (idCounter st' - idCounter st)
  | _ => ids_kept st st'
  end.

(** How many rows of day [g] carry the identity [i]; none when the day has
    no row collection. *)
Definition rows_in_day (st : State) (g : string) (i : nat) : nat :=
  match chartItems st !! g with
  | Some c => rows_with i c
  | None => 0%nat
  end.

(** ** Sample data

    A day with one session, one entry and one commit, and an entry on the
    following day, for which no session was recorded.  All times are
    numbers, so no string is ever parsed. *)
Definition sample_session : RawSession :=
  {| rs_start_time := JsNum 1525248000000;
     rs_end_time := JsNum 1525251600000;
     rs_date_group := "2018-05-02";
     rs_extra_data :=
       {| category := "work";
          windows := [ {| w_time := 60; w_name := "editor" |};
                       {| w_time := 300; w_name := "terminal" |};
                       {| w_time := 120; w_name := "browser" |} ] |};
     rs_exported := None |}.

Definition sample_entry : RawTimeEntry :=
  {| rt_id := 7;
     rt_start_time := JsNum 1525248000000;
     rt_end_time := JsNum 1525255200000;
     rt_at := JsNum 1525255200000;
     rt_description := Some "standup";
     rt_project := None;
     rt_date_group := "2018-05-02" |}.

Definition sample_entry_next_day : RawTimeEntry :=
  {| rt_id := 8;
     rt_start_time := JsNum 1525334400000;
     rt_end_time := JsNum 1525338000000;
     rt_at := JsNum 1525338000000;
     rt_description := Some "review";
     rt_project := None;
     rt_date_group := "2018-05-03" |}.

Definition sample_issue : Issue :=
  {| key := "TT-1"; summary := "timeline"; i_project := Some 5 |}.

Definition sample_commit : RawCommit :=
  {| rc_time := JsNum 1525250000000;
     rc_message := "fix parser";
     rc_issue := Some sample_issue;
     rc_date_group := "2018-05-02" |}.

Definition sample_data : Data :=
  {| d_sessions := [sample_session];
     d_time_entries := [sample_entry; sample_entry_next_day];
     d_log := [sample_commit];
     d_projects := [];
     d_issues := [sample_issue] |}.

(** The sample data with two projects of one client; the sample issue
    belongs to the second. *)
Definition sample_projects : list Project :=
  [ {| p_id := 3; p_name := "intranet"; p_client_name := "Acme" |};
    {| p_id := 5; p_name := "timeline"; p_client_name := "Acme" |} ].

Definition sample_data_projects : Data :=
  {| d_sessions := [sample_session];
     d_time_entries := [sample_entry; sample_entry_next_day];
     d_log := [sample_commit];
     d_projects := sample_projects;
     d_issues := [sample_issue] |}.

(** The same day, with two entries that carry the remote id 7: the first
    on the day without a session, the second on the session's day. *)
Definition sample_entry_twin : RawTimeEntry :=
  {| rt_id := 7;
     rt_start_time := JsNum 1525334400000;
     rt_end_time := JsNum 1525338000000;
     rt_at := JsNum 1525338000000;
     rt_description := Some "review";
     rt_project := None;
     rt_date_group := "2018-05-03" |}.

Definition sample_data_twins : Data :=
  {| d_sessions := [sample_session];
     d_time_entries := [sample_entry_twin; sample_entry];
     d_log := [];
     d_projects := [];
     d_issues := [] |}.

(** An answer of the service for the entry with remote id 7. *)
Definition sample_response : RawTimeEntry :=
  {| rt_id := 7;
     rt_start_time := JsNum 1525248000000;
     rt_end_time := JsNum 1525251600000;
     rt_at := JsNum 1525255200000;
     rt_description := Some "retro";
     rt_project := None;
     rt_date_group := "" |}.

(** An answer of the service for a new entry. *)
Definition sample_created : RawTimeEntry :=
  {| rt_id := 9;
     rt_start_time := JsNum 1525251600000;
     rt_end_time := JsNum 1525255200000;
     rt_at := JsNum 1525255200000;
     rt_description := Some "standup";
     rt_project := None;
     rt_date_group := "" |}.

(** The sample session and the sample entry as a load stores them. *)
Definition stored_session : Session :=
  {| s_start_time := Date_ms 1525248000000;
     s_end_time := Date_ms 1525251600000;
     s_date_group := "2018-05-02";
     s_extra_data :=
       {| category := "work";
          windows := [ {| w_time := 300; w_name := "terminal" |};
                       {| w_time := 120; w_name := "browser" |};
                       {| w_time := 60; w_name := "editor" |} ] |};
     s_exported := None;
     s_idcounter := 0 |}.

Definition stored_entry : TimeEntry :=
  {| te_id := 7;
     te_start_time := Date_ms 1525248000000;
     te_end_time := Date_ms 1525255200000;
     te_at := Date_ms 1525255200000;
     te_description := Some "standup";
     te_project := None;
     te_date_group := "2018-05-02";
     te_idcounter := 1 |}.

(** A session as it arrives, before any row is made of it. *)
Definition unsorted_session : Session :=
  {| s_start_time := Date_ms 1525248000000;
     s_end_time := Date_ms 1525251600000;
     s_date_group := "2018-05-02";
     s_extra_data := rs_extra_data sample_session;
     s_exported := None;
     s_idcounter := 0 |}.

(** ** Rows and the entities they stand for *)

(** The identity [i] belongs to a session, an entry or a commit of the
    store whose date group is [g]. *)
Definition owner_on_day (st : State) (g : string) (i : nat) : Prop :=
  i ∈ map row_id (day_rows g (sessions st) (timeEntries st) (log st)).

(** In each day's collection the rows have pairwise distinct identities,
    each the identity of an entity of that day. *)
Definition RowsInv (st : State) : Prop :=
  ∀ g c, chartItems st !! g = Some c →
    NoDup (map row_id c) ∧ ∀ r, r ∈ c → owner_on_day st g (row_id r).

(** The row [update] adds for an identity that has none: the five
    properties of the argument and nothing else. *)
Definition bare_row (newEntry : RawTimeEntry) (i : nat) : Row :=
  row_of_update (response_update newEntry i).

(** What the updates for [ids] make of a row that was there before. *)
Definition refreshed_if_in (newEntry : RawTimeEntry) (ids : list nat) (r : Row) : Row :=
  if bool_decide (row_id r ∈ ids) then refreshed_row newEntry r else r.

(** The texts that a load writes into markup are all [verbatim]: the
    names of the projects and of their clients, and the keys and summaries
    of the issues. *)
Definition verbatim_options (data : Data) : bool :=
  forallb (λ project, verbatim (p_client_name project) && verbatim (p_name project))
    (d_projects data)
  && forallb (λ issue, verbatim (key issue) && verbatim (summary issue)) (d_issues data).

(** [global_selected = ...; global_selected_last = ...], the two
    assignments of the [select] handler. *)
Definition set_selection (v : option Selected) (l : option Session) (st : State) : State :=
  {| sessions := sessions st; timeEntries := timeEntries st; idCounter := idCounter st;
     log := log st; projects := projects st; issues := issues st;
     chartItems := chartItems st; global_selected := v;
     global_selected_last := l; page := page st |}.

(** * Properties *)

(** ** Records and the handler monad *)

Lemma State_eta (st : State) :
  {| sessions := sessions st; timeEntries := timeEntries st; idCounter := idCounter st;
     log := log st; projects := projects st; issues := issues st;
     chartItems := chartItems st; global_selected := global_selected st;
     global_selected_last := global_selected_last st; page := page st |} = st.
Proof. by destruct st. Qed.

Lemma set_timeEntries_id (st : State) : set_timeEntries (timeEntries st) st = st.
Proof. by destruct st. Qed.

Lemma set_chartItems_id (st : State) : set_chartItems (chartItems st) st = st.
Proof. by destruct st. Qed.

Lemma set_chartItems_id' (st : State) (l : list TimeEntry) (n : nat) :
  set_chartItems (chartItems st) (set_timeEntries l (set_idCounter n st))
  = set_timeEntries l (set_idCounter n st).
Proof. by destruct st. Qed.

Lemma set_sessions_id (st : State) : set_sessions (sessions st) st = st.
Proof. by destruct st. Qed.

Lemma list_insert_middle {A : Type} (l1 l2 : list A) (x y : A) :
  <[length l1:=y]> (l1 ++ x :: l2) = l1 ++ y :: l2.
Proof. by rewrite insert_app_r_alt, Nat.sub_diag by lia. Qed.

Ltac unfold_handler :=
  repeat progress
    (unfold bind, ret, get, modify, defined, throw, next_idCounter; cbn beta iota).

(** ** DataSet *)

Lemma DataSet_has_true (i : nat) (c : DataSet) :
  DataSet_has i c = true ↔ i ∈ map row_id c.
Proof.
  unfold DataSet_has. rewrite existsb_exists, list_elem_of_fmap.
  split.
  - intros (r & Hin & Heq). apply Nat.eqb_eq in Heq.
    exists r. split; [done | by apply list_elem_of_In].
  - intros (r & -> & Hin). exists r. split; [by apply list_elem_of_In | apply Nat.eqb_refl].
Qed.

Lemma DataSet_has_false (i : nat) (c : DataSet) :
  DataSet_has i c = false ↔ i ∉ map row_id c.
Proof.
  rewrite <- DataSet_has_true. destruct (DataSet_has i c); split; try done.
  all: intros H; try congruence; by destruct H.
Qed.

Lemma DataSet_new_from_NoDup (rows c : DataSet) :
  NoDup (map row_id (c ++ rows)) → DataSet_new_from c rows = Some (c ++ rows).
Proof.
  revert c. induction rows as [|r rows IH]; intros c Hnd; simpl.
  - by rewrite app_nil_r.
  - unfold DataSet_add.
    assert (DataSet_has (row_id r) c = false) as ->.
    { apply DataSet_has_false. rewrite map_app in Hnd. simpl in Hnd.
      apply NoDup_app in Hnd as (_ & Hdisj & _). intros Hin.
      apply (Hdisj _ Hin). left. }
    rewrite (IH (c ++ [r])); rewrite <- app_assoc; done.
Qed.

Lemma DataSet_new_NoDup (rows : DataSet) :
  NoDup (map row_id rows) → DataSet_new rows = Some rows.
Proof. intros H. unfold DataSet_new. by rewrite DataSet_new_from_NoDup. Qed.

(** [update] as one pass over the rows, plus the row it may add. *)
Lemma DataSet_update_map (u : RowUpdate) (c : DataSet) :
  DataSet_update u c =
  map (λ r, if Nat.eqb (row_id r) (u_id u) then apply_update u r else r) c
  ++ (if DataSet_has (u_id u) c then [] else [row_of_update u]).
Proof.
  unfold DataSet_update. destruct (DataSet_has (u_id u) c) eqn:Hhas.
  - by rewrite app_nil_r.
  - f_equal. symmetry. apply DataSet_has_false in Hhas.
    induction c as [|r c IH]; [done|]. simpl in *.
    destruct (Nat.eqb_spec (row_id r) (u_id u)) as [Heq|Hne].
    + exfalso. apply Hhas. rewrite Heq. left.
    + f_equal. apply IH. intros Hin. apply Hhas. by right.
Qed.

Lemma apply_update_id (u : RowUpdate) (r : Row) : row_id (apply_update u r) = row_id r.
Proof. done. Qed.

Lemma DataSet_update_ids (u : RowUpdate) (c : DataSet) :
  ∀ i, i ∈ map row_id (DataSet_update u c) → i ∈ map row_id c ∨ i = u_id u.
Proof.
  intros i. rewrite DataSet_update_map, map_app, elem_of_app, map_map.
  intros [Hin|Hin].
  - left. apply list_elem_of_fmap in Hin as (r & -> & Hr).
    apply list_elem_of_fmap. exists r. split; [|done].
    by destruct (Nat.eqb (row_id r) (u_id u)).
  - right. destruct (DataSet_has (u_id u) c); simpl in Hin.
    + by apply elem_of_nil in Hin.
    + by apply list_elem_of_singleton in Hin.
Qed.

(** ** refreshEntry *)

Lemma update_of_refreshed (newEntry : RawTimeEntry) (e : TimeEntry) :
  update_of (refreshed newEntry e) = response_update newEntry (te_idcounter e).
Proof. done. Qed.

Lemma refreshEntry_loop (newEntry : RawTimeEntry) (l pre : list TimeEntry) (st : State) :
  timeEntries st = pre ++ l →
  forEach (seq (length pre) (length l)) (refreshEntry_at newEntry) st =
  let '(l', charts', ok) := refresh_rest newEntry (chartItems st) l in
  (if ok then Done tt else Thrown)
    (set_chartItems charts' (set_timeEntries (pre ++ l') st)).
Proof.
  revert pre st. induction l as [|e l IH]; intros pre st Hst.
  - simpl. unfold ret. rewrite <- Hst. by destruct st.
  - cbn [length seq forEach refresh_rest].
    unfold bind at 1. unfold refreshEntry_at at 1. unfold_handler.
    rewrite Hst, list_lookup_middle by done. unfold_handler.
    destruct (decide (te_id e = rt_id newEntry)) as [Hid|Hid].
    + cbn. destruct (chartItems st !! te_date_group e) as [c|] eqn:Hc.
      * set (st2 := set_chartItems _ _).
        specialize (IH (pre ++ [refreshed newEntry e]) st2).
        rewrite length_app in IH. cbn [length] in IH.
        replace (length pre + 1)%nat with (S (length pre)) in IH by lia.
        rewrite IH.
        2:{ subst st2. cbn. rewrite Hst, list_insert_middle.
            by rewrite <- app_assoc. }
        subst st2. cbn [chartItems set_chartItems set_timeEntries].
        rewrite update_of_refreshed.
        destruct (refresh_rest _ _ l) as [[l'' charts'] ok].
        rewrite <- app_assoc. cbn. by destruct ok.
      * rewrite Hst, list_insert_middle. by destruct st.
    + specialize (IH (pre ++ [e]) st).
      rewrite length_app in IH. cbn [length] in IH.
      replace (length pre + 1)%nat with (S (length pre)) in IH by lia.
      rewrite IH by (by rewrite Hst, <- app_assoc).
      destruct (refresh_rest _ _ l) as [[l'' charts'] ok].
      rewrite <- app_assoc. done.
Qed.

(** The loop over the indices of [timeEntries] is the recursion over the
    array. *)
Lemma refreshEntry_eq (newEntry : RawTimeEntry) (st : State) :
  refreshEntry newEntry st =
  let '(l', charts', ok) := refresh_rest newEntry (chartItems st) (timeEntries st) in
  (if ok then Done tt else Thrown) (set_chartItems charts' (set_timeEntries l' st)).
Proof.
  unfold refreshEntry. unfold bind, get.
  exact (refreshEntry_loop newEntry (timeEntries st) [] st eq_refl).
Qed.

Lemma refresh_rest_no_match (newEntry : RawTimeEntry) (charts : gmap string DataSet)
    (l : list TimeEntry) :
  (∀ e, e ∈ l → te_id e ≠ rt_id newEntry) →
  refresh_rest newEntry charts l = (l, charts, true).
Proof.
  induction l as [|e l IH]; intros Hno; [done|]. simpl.
  rewrite decide_False by (apply Hno; left).
  rewrite IH; [done|]. intros e' He'. apply Hno. by right.
Qed.

Lemma matching_ids_cons (newEntry : RawTimeEntry) (g : string) (e : TimeEntry)
    (l : list TimeEntry) :
  matching_ids newEntry g (e :: l) =
  (if bool_decide (te_id e = rt_id newEntry) && same_group g (te_date_group e)
   then [te_idcounter e] else []) ++ matching_ids newEntry g l.
Proof.
  unfold matching_ids. simpl.
  by destruct (bool_decide (te_id e = rt_id newEntry) && same_group g (te_date_group e)).
Qed.

Lemma same_group_true (g g' : string) : same_group g g' = true ↔ g' = g.
Proof. unfold same_group. apply bool_decide_eq_true. Qed.

Lemma same_group_refl (g : string) : same_group g g = true.
Proof. by apply same_group_true. Qed.

Lemma same_group_refl' (g g' : string) : g' = g → same_group g g' = true.
Proof. intros ->. apply same_group_refl. Qed.

Lemma same_group_ne (g g' : string) : g' ≠ g → same_group g g' = false.
Proof. intros H. unfold same_group. by apply bool_decide_eq_false. Qed.

(** The loop refreshes a prefix of the array, the whole of it unless it
    throws, and every day's rows receive one [update] per refreshed entry
    of that day. *)
Lemma refresh_rest_spec (newEntry : RawTimeEntry) (l : list TimeEntry)
    (charts : gmap string DataSet) :
  ∃ n, (n ≤ length l)%nat ∧
    let '(l', charts', ok) := refresh_rest newEntry charts l in
    l' = map (refresh_if newEntry) (take n l) ++ drop n l ∧
    (∀ g, charts' !! g =
          apply_updates newEntry (matching_ids newEntry g (take n l)) <$> (charts !! g)) ∧
    (ok = true → n = length l).
Proof.
  revert charts. induction l as [|e l IH]; intros charts.
  - exists 0%nat. simpl. split; [lia|]. split; [done|]. split; [|done].
    intros g. by destruct (charts !! g).
  - simpl. destruct (decide (te_id e = rt_id newEntry)) as [Hid|Hid].
    + destruct (charts !! te_date_group e) as [c|] eqn:Hc.
      * destruct (IH (<[te_date_group e :=
          DataSet_update (response_update newEntry (te_idcounter e)) c]> charts))
          as (n & Hn & Hspec).
        destruct (refresh_rest _ _ l) as [[l'' charts'] ok].
        destruct Hspec as (Hl & Hch & Hok).
        exists (S n). split; [lia|]. simpl. split; [|split].
        -- unfold refresh_if at 1. rewrite decide_True by done. by rewrite Hl.
        -- intros g. rewrite Hch, matching_ids_cons.
           rewrite bool_decide_eq_true_2 by done. simpl.
           destruct (decide (g = te_date_group e)) as [->|Hg].
           ++ by rewrite same_group_refl, lookup_insert_eq, Hc.
           ++ rewrite same_group_ne by done.
              by rewrite lookup_insert_ne.
        -- intros H. by rewrite Hok.
      * exists 1%nat. split; [lia|]. simpl. rewrite take_0, drop_0. simpl.
        split; [|split; [|done]].
        -- unfold refresh_if. by rewrite decide_True.
        -- intros g. rewrite matching_ids_cons.
           rewrite bool_decide_eq_true_2 by done. simpl.
           destruct (decide (g = te_date_group e)) as [->|Hg].
           ++ by rewrite Hc.
           ++ rewrite same_group_ne by done. simpl. by destruct (charts !! g).
    + destruct (IH charts) as (n & Hn & Hspec).
      destruct (refresh_rest _ _ l) as [[l'' charts'] ok].
      destruct Hspec as (Hl & Hch & Hok).
      exists (S n). split; [lia|]. simpl. split; [|split].
      * unfold refresh_if at 1. rewrite decide_False by done. by rewrite Hl.
      * intros g. rewrite Hch, matching_ids_cons.
        by rewrite bool_decide_eq_false_2.
      * intros H. by rewrite Hok.
Qed.

(** With a row collection for the day of every entry that carries the
    remote id, the loop reaches the end. *)
Lemma refresh_rest_ok (newEntry : RawTimeEntry) (l : list TimeEntry)
    (charts : gmap string DataSet) :
  (∀ e, e ∈ l → te_id e = rt_id newEntry → is_Some (charts !! te_date_group e)) →
  snd (refresh_rest newEntry charts l) = true.
Proof.
  revert charts. induction l as [|e l IH]; intros charts Hcharts; [done|].
  simpl. destruct (decide (te_id e = rt_id newEntry)) as [Hid|Hid].
  - destruct (Hcharts e) as [c Hc]; [left | done |]. rewrite Hc.
    specialize (IH (<[te_date_group e :=
      DataSet_update (response_update newEntry (te_idcounter e)) c]> charts)).
    destruct (refresh_rest _ _ l) as [[l'' charts'] ok]. simpl in *.
    apply IH. intros e' He' Hid'.
    destruct (decide (te_date_group e' = te_date_group e)) as [->|Hne].
    + rewrite lookup_insert_eq. by eexists.
    + rewrite lookup_insert_ne by done. apply Hcharts; [by right | done].
  - specialize (IH charts).
    destruct (refresh_rest _ _ l) as [[l'' charts'] ok]. simpl in *.
    apply IH. intros e' He'. apply Hcharts. by right.
Qed.

Lemma refreshed_row_idemp (newEntry : RawTimeEntry) (r : Row) :
  refreshed_row newEntry (refreshed_row newEntry r) = refreshed_row newEntry r.
Proof. done. Qed.

Lemma DataSet_update_lookup (u : RowUpdate) (c : DataSet) (k : nat) (r : Row) :
  c !! k = Some r →
  DataSet_update u c !! k =
  Some (if Nat.eqb (row_id r) (u_id u) then apply_update u r else r).
Proof.
  intros Hk. rewrite DataSet_update_map.
  rewrite lookup_app_l by (rewrite length_map; by eapply lookup_lt_Some).
  change (map ?f c) with (f <$> c). by rewrite list_lookup_fmap, Hk.
Qed.

(** Rows keep their place; a row is overwritten when its identity is among
    the updates, and stays as it was otherwise. *)
Lemma apply_updates_lookup (newEntry : RawTimeEntry) (ids : list nat) (c : DataSet)
    (k : nat) (r : Row) :
  c !! k = Some r →
  apply_updates newEntry ids c !! k =
  Some (if bool_decide (row_id r ∈ ids) then refreshed_row newEntry r else r).
Proof.
  revert c r. induction ids as [|i ids IH]; intros c r Hk.
  - cbn [apply_updates foldl]. rewrite bool_decide_eq_false_2; [done | apply not_elem_of_nil].
  - unfold apply_updates in *. cbn [foldl].
    pose proof (DataSet_update_lookup (response_update newEntry i) c k r Hk) as H1.
    rewrite (IH _ _ H1). f_equal.
    destruct (Nat.eqb_spec (row_id r) (u_id (response_update newEntry i))) as [Heq|Hne];
      simpl in *.
    + rewrite (bool_decide_eq_true_2 (row_id r ∈ i :: ids)) by (rewrite Heq; left).
      by destruct (bool_decide (row_id r ∈ ids)).
    + destruct (decide (row_id r ∈ ids)) as [Hin|Hin].
      * rewrite !bool_decide_eq_true_2; [done | by right | done].
      * rewrite !bool_decide_eq_false_2; [done | | done].
        intros [?|?]%elem_of_cons; done.
Qed.

Lemma matching_ids_take (newEntry : RawTimeEntry) (g : string) (n : nat)
    (l : list TimeEntry) (i : nat) :
  i ∈ matching_ids newEntry g (take n l) → i ∈ matching_ids newEntry g l.
Proof.
  rewrite <- (take_drop n l) at 2. unfold matching_ids.
  rewrite List.filter_app, map_app, elem_of_app. by left.
Qed.

Lemma elem_of_matching_ids (newEntry : RawTimeEntry) (g : string)
    (l : list TimeEntry) (i : nat) :
  i ∈ matching_ids newEntry g l ↔
  ∃ e, e ∈ l ∧ te_id e = rt_id newEntry ∧ te_date_group e = g ∧ te_idcounter e = i.
Proof.
  unfold matching_ids. change (map ?f ?x) with (f <$> x).
  rewrite list_elem_of_fmap. split.
  - intros (e & -> & He). apply list_elem_of_In, filter_In in He as (He & Hp).
    apply andb_true_iff in Hp as (H1 & H2).
    exists e. split; [by apply list_elem_of_In|].
    split; [by apply bool_decide_eq_true in H1|].
    split; [by apply same_group_true in H2 | done].
  - intros (e & He & Hid & Hg & Hi). exists e. split; [done|].
    apply list_elem_of_In, filter_In. split; [by apply list_elem_of_In|].
    apply andb_true_iff. split; [by apply bool_decide_eq_true | by apply same_group_true].
Qed.

(** What a call of [refreshEntry] leaves, returned or thrown. *)
Lemma refreshEntry_spec (newEntry : RawTimeEntry) (st : State) :
  ∃ n, (n ≤ length (timeEntries st))%nat ∧
    let r := refreshEntry newEntry st in
    state_of r =
      set_chartItems (chartItems (state_of r)) (set_timeEntries (timeEntries (state_of r)) st) ∧
    timeEntries (state_of r) =
      map (refresh_if newEntry) (take n (timeEntries st)) ++ drop n (timeEntries st) ∧
    (∀ g, chartItems (state_of r) !! g =
          apply_updates newEntry (matching_ids newEntry g (take n (timeEntries st)))
            <$> (chartItems st !! g)) ∧
    (returned r = true → n = length (timeEntries st)).
Proof.
  destruct (refresh_rest_spec newEntry (timeEntries st) (chartItems st)) as (n & Hn & Hspec).
  exists n. split; [done|]. cbn zeta. rewrite refreshEntry_eq.
  destruct (refresh_rest _ _ _) as [[l' charts'] ok].
  destruct Hspec as (Hl & Hch & Hok).
  destruct ok; cbn; (split; [by destruct st|]); (split; [done|]); (split; [done|]);
    intros H; auto; done.
Qed.

Lemma refreshEntry_returns (newEntry : RawTimeEntry) (st : State) :
  (∀ e, e ∈ timeEntries st → te_id e = rt_id newEntry →
        is_Some (chartItems st !! te_date_group e)) →
  returned (refreshEntry newEntry st) = true.
Proof.
  intros H. rewrite refreshEntry_eq.
  pose proof (refresh_rest_ok newEntry (timeEntries st) (chartItems st) H) as Hok.
  destruct (refresh_rest _ _ _) as [[l' charts'] ok]. simpl in Hok. by subst ok.
Qed.

Lemma refreshEntry_keeps (newEntry : RawTimeEntry) (st : State) :
  let st' := state_of (refreshEntry newEntry st) in
  sessions st' = sessions st ∧ log st' = log st ∧ idCounter st' = idCounter st ∧
  projects st' = projects st ∧ issues st' = issues st ∧ page st' = page st ∧
  map te_idcounter (timeEntries st') = map te_idcounter (timeEntries st) ∧
  map te_date_group (timeEntries st') = map te_date_group (timeEntries st).
Proof.
  destruct (refreshEntry_spec newEntry st) as (n & Hn & Hst & Hl & _).
  intros st'. subst st'. cbn zeta in *. rewrite Hl. rewrite Hst. cbn.
  repeat (split; [done|]).
  assert (∀ (f : TimeEntry → nat), (∀ e, f (refresh_if newEntry e) = f e) →
    map f (map (refresh_if newEntry) (take n (timeEntries st)) ++ drop n (timeEntries st))
    = map f (timeEntries st)) as Hn'.
  { intros f Hf. rewrite map_app, map_map.
    rewrite (map_ext _ f) by done. by rewrite <- map_app, take_drop. }
  assert (∀ (f : TimeEntry → string), (∀ e, f (refresh_if newEntry e) = f e) →
    map f (map (refresh_if newEntry) (take n (timeEntries st)) ++ drop n (timeEntries st))
    = map f (timeEntries st)) as Hs'.
  { intros f Hf. rewrite map_app, map_map.
    rewrite (map_ext _ f) by done. by rewrite <- map_app, take_drop. }
  split; [apply Hn' | apply Hs']; intros e; unfold refresh_if; by case_decide.
Qed.

(** ** createEntry *)

Lemma createEntry_eq (dg : string) (raw : RawTimeEntry) (st : State) :
  createEntry dg raw st =
  let e := created dg raw (idCounter st) in
  let st1 := set_timeEntries (timeEntries st ++ [e]) (set_idCounter (S (idCounter st)) st) in
  match chartItems st !! dg with
  | Some c =>
      if DataSet_has (idCounter st) c then Thrown st1
      else Done tt (set_chartItems (<[dg := c ++ [makeRow_entry e]]> (chartItems st)) st1)
  | None => Thrown st1
  end.
Proof.
  unfold createEntry. unfold_handler. cbn.
  destruct (chartItems st !! dg) as [c|]; [|done].
  unfold DataSet_add. cbn. by destruct (DataSet_has (idCounter st) c).
Qed.

(** ** getSessions *)

Lemma number_from_ids {A B : Type} (f : nat → A → B) (idc : B → nat) (n : nat) (l : list A) :
  (∀ k x, idc (f k x) = k) → map idc (number_from f n l) = seq n (length l).
Proof.
  intros Hf. revert n. induction l as [|x l IH]; intros n; [done|].
  simpl. by rewrite Hf, IH.
Qed.

Lemma number_from_length {A B : Type} (f : nat → A → B) (n : nat) (l : list A) :
  length (number_from f n l) = length l.
Proof. revert n. induction l as [|x l IH]; intros n; [done|]. simpl. by rewrite IH. Qed.

Lemma number_from_map {A B C : Type} (f : nat → A → B) (g : B → C) (h : A → C)
    (n : nat) (l : list A) :
  (∀ k x, g (f k x) = h x) → map g (number_from f n l) = map h l.
Proof.
  intros Hf. revert n. induction l as [|x l IH]; intros n; [done|].
  simpl. by rewrite Hf, IH.
Qed.

Lemma load_sessions_loop (l : list RawSession) (st : State) :
  forEach l (λ raw,
    let session := parseSession raw in
    n <- next_idCounter ;;
    modify (λ st, set_sessions (sessions st ++ [with_s_idcounter n session]) st)) st =
  Done tt (set_sessions
    (sessions st ++ number_from (λ k raw, with_s_idcounter k (parseSession raw)) (idCounter st) l)
    (set_idCounter (idCounter st + length l) st)).
Proof.
  revert st. induction l as [|raw l IH]; intros st.
  - simpl. unfold ret. rewrite app_nil_r, Nat.add_0_r. by destruct st.
  - cbn [forEach]. unfold bind at 1. unfold_handler. rewrite IH. cbn.
    rewrite <- app_assoc. cbn. by replace (S (idCounter st + length l))
      with (idCounter st + S (length l))%nat by lia.
Qed.

Lemma load_entries_loop (l : list RawTimeEntry) (st : State) :
  forEach l (λ raw,
    let time_entry := parseTimeEntry raw in
    n <- next_idCounter ;;
    modify (λ st, set_timeEntries (timeEntries st ++ [with_te_idcounter n time_entry]) st)) st =
  Done tt (set_timeEntries
    (timeEntries st ++
       number_from (λ k raw, with_te_idcounter k (parseTimeEntry raw)) (idCounter st) l)
    (set_idCounter (idCounter st + length l) st)).
Proof.
  revert st. induction l as [|raw l IH]; intros st.
  - simpl. unfold ret. rewrite app_nil_r, Nat.add_0_r. by destruct st.
  - cbn [forEach]. unfold bind at 1. unfold_handler. rewrite IH. cbn.
    rewrite <- app_assoc. cbn. by replace (S (idCounter st + length l))
      with (idCounter st + S (length l))%nat by lia.
Qed.

Lemma load_log_loop (l : list RawCommit) (st : State) :
  forEach l (λ raw,
    let commit := parseCommit raw in
    n <- next_idCounter ;;
    modify (λ st, set_log (log st ++ [with_c_idcounter n commit]) st)) st =
  Done tt (set_log
    (log st ++ number_from (λ k raw, with_c_idcounter k (parseCommit raw)) (idCounter st) l)
    (set_idCounter (idCounter st + length l) st)).
Proof.
  revert st. induction l as [|raw l IH]; intros st.
  - simpl. unfold ret. rewrite app_nil_r, Nat.add_0_r. by destruct st.
  - cbn [forEach]. unfold bind at 1. unfold_handler. rewrite IH. cbn.
    rewrite <- app_assoc. cbn. by replace (S (idCounter st + length l))
      with (idCounter st + S (length l))%nat by lia.
Qed.

Lemma load_projects_loop (l : list Project) (st : State) :
  forEach l (λ project, modify (λ st, set_projects (projects st ++ [project]) st)) st =
  Done tt (set_projects (projects st ++ l) st).
Proof.
  revert st. induction l as [|x l IH]; intros st.
  - simpl. unfold ret. rewrite app_nil_r. by destruct st.
  - cbn [forEach]. unfold bind at 1. unfold_handler. rewrite IH. cbn.
    by rewrite <- app_assoc.
Qed.

Lemma loaded_page_cons (x : Project) (l : list Project) (p : Page) :
  loaded_page (mkData [] [] [] l [])
    (add_project_option (p_id x, p_client_name x +:+ " - " +:+ p_name x) p) =
  loaded_page (mkData [] [] [] (x :: l) []) p.
Proof.
  unfold loaded_page, add_project_option.
  cbn [d_projects d_issues description_val project_val start_time_val
       end_time_val split_time_val project_options issue_options alerts map].
  rewrite <- !app_assoc. cbn [app]. f_equal.
  destruct (project_val p) as [v|]; [by destruct l|].
  destruct l as [|y l]; [done|]. cbn [settled_selection].
  by destruct (project_options p).
Qed.

Lemma load_project_options_loop (l : list Project) (st : State) :
  forEach l (λ project,
    modify (λ st, set_page
      (add_project_option (p_id project, p_client_name project +:+ " - " +:+ p_name project)
         (page st)) st)) st =
  Done tt (set_page (loaded_page (mkData [] [] [] l []) (page st)) st).
Proof.
  revert st. induction l as [|x l IH]; intros st.
  - simpl. unfold ret, loaded_page. cbn. rewrite !app_nil_r. by destruct st as [? ? ? ? ? ? ? ? ? []].
  - cbn [forEach]. unfold bind at 1. unfold_handler. rewrite IH.
    change (page (set_page ?a ?b)) with a.
    change (set_page ?a (set_page ?b ?c)) with (set_page a c).
    by rewrite loaded_page_cons.
Qed.

Lemma load_issues_loop (l : list Issue) (st : State) :
  forEach l (λ issue,
    modify (λ st, set_issues (issues st ++ [issue]) st) ;;;
    modify (λ st, set_page (add_issue_option (key issue +:+ " " +:+ summary issue) (page st)) st))
    st =
  Done tt (set_page (loaded_page (mkData [] [] [] [] l) (page st))
             (set_issues (issues st ++ l) st)).
Proof.
  revert st. induction l as [|x l IH]; intros st.
  - simpl. unfold ret, loaded_page. cbn. rewrite !app_nil_r. by destruct st as [? ? ? ? ? ? ? ? ? []].
  - cbn [forEach]. unfold bind at 1. unfold_handler. rewrite IH. cbn.
    unfold loaded_page. cbn. by rewrite <- !app_assoc, !app_nil_r.
Qed.

(** The callback up to its last statement. *)
Lemma getSessions_done_eq (data : Data) (st : State) :
  getSessions_done data st = updateTable (loaded_store data st).
Proof.
  unfold getSessions_done.
  unfold bind at 1. unfold modify at 1.
  unfold bind at 1. unfold modify at 1.
  unfold bind at 1. unfold modify at 1.
  unfold bind at 1. unfold modify at 1.
  unfold bind at 1. unfold modify at 1.
  unfold bind at 1. rewrite load_sessions_loop.
  unfold bind at 1. rewrite load_entries_loop.
  unfold bind at 1. rewrite load_log_loop.
  unfold bind at 1. rewrite load_projects_loop.
  unfold bind at 1. rewrite load_project_options_loop.
  unfold bind at 1. rewrite load_issues_loop.
  f_equal. unfold loaded_store, loaded_sessions, loaded_entries, loaded_log, loaded_page.
  destruct st as [? ? ? ? ? ? ? ? ? []], data. cbn.
  rewrite !app_nil_r. done.
Qed.

(** ** updateTable *)

Lemma sorted_windows_fields (s : Session) :
  s_date_group (sorted_windows s) = s_date_group s ∧
  s_idcounter (sorted_windows s) = s_idcounter s ∧
  s_start_time (sorted_windows s) = s_start_time s ∧
  s_end_time (sorted_windows s) = s_end_time s ∧
  s_exported (sorted_windows s) = s_exported s ∧
  category (s_extra_data (sorted_windows s)) = category (s_extra_data s) ∧
  windows (s_extra_data (sorted_windows s)) = Array_sort wcmp (windows (s_extra_data s)).
Proof. done. Qed.

Lemma session_row_eq (i : nat) (s : Session) (st : State) :
  sessions st !! i = Some s →
  session_row i st =
  Done (fst (makeRow_session s)) (set_sessions (<[i:=sorted_windows s]> (sessions st)) st).
Proof. intros H. unfold session_row. by rewrite H. Qed.

(** Building the session rows of a day sorts the windows of exactly that
    day's sessions, in the global array. *)
Lemma mapM_session_row (p : Session → bool) (l pre : list Session) (st : State) :
  sessions st = pre ++ l →
  mapM session_row (indices_from p (length pre) l) st =
  Done (map (λ s, fst (makeRow_session s)) (List.filter p l))
       (set_sessions (pre ++ map (λ s, if p s then sorted_windows s else s) l) st).
Proof.
  revert pre st. induction l as [|x l IH]; intros pre st Hst.
  - simpl. unfold ret. rewrite <- Hst. by destruct st.
  - cbn [indices_from List.filter map]. destruct (p x) eqn:Hp.
    + cbn [app mapM]. unfold bind at 1.
      rewrite (session_row_eq _ x) by (by rewrite Hst, list_lookup_middle).
      rewrite Hst, list_insert_middle.
      set (st1 := set_sessions _ st).
      specialize (IH (pre ++ [sorted_windows x]) st1).
      rewrite length_app in IH. cbn [length] in IH.
      replace (length pre + 1)%nat with (S (length pre)) in IH by lia.
      unfold bind. rewrite IH by (subst st1; cbn; by rewrite <- app_assoc).
      unfold ret. subst st1. cbn. by rewrite <- app_assoc.
    + cbn [app]. specialize (IH (pre ++ [x]) st).
      rewrite length_app in IH. cbn [length] in IH.
      replace (length pre + 1)%nat with (S (length pre)) in IH by lia.
      rewrite IH by (by rewrite Hst, <- app_assoc).
      by rewrite <- app_assoc.
Qed.

Lemma head_indices_from {A : Type} (p : A → bool) (l : list A) (k : nat) :
  (∃ x, x ∈ l ∧ p x = true) →
  ∃ i x, head (indices_from p k l) = Some (k + i)%nat ∧ l !! i = Some x ∧ p x = true.
Proof.
  revert k. induction l as [|y l IH]; intros k (x & Hx & Hp).
  - by apply elem_of_nil in Hx.
  - simpl. destruct (p y) eqn:Hy.
    + exists 0%nat, y. simpl. by rewrite Nat.add_0_r.
    + apply elem_of_cons in Hx as [->|Hx]; [congruence|].
      destruct (IH (S k)) as (i & z & Hh & Hl & Hz); [by exists x|].
      exists (S i), z. simpl. rewrite Hh. split; [f_equal; lia | done].
Qed.

Lemma map_row_id_day_rows (dg : string) (ss : list Session) (es : list TimeEntry)
    (cs : list Commit) :
  map row_id (day_rows dg ss es cs) =
  map s_idcounter (List.filter (λ s, same_group dg (s_date_group s)) ss)
  ++ map te_idcounter (List.filter (λ s, same_group dg (te_date_group s)) es)
  ++ map c_idcounter (List.filter (λ s, same_group dg (c_date_group s)) cs).
Proof. unfold day_rows. by rewrite !map_app, !map_map. Qed.

Lemma drawDayChart_eq (dg : string) (st : State) :
  (∃ s, s ∈ sessions st ∧ s_date_group s = dg) →
  NoDup (map row_id (day_rows dg (sessions st) (timeEntries st) (log st))) →
  drawDayChart
    (indices_from (λ s, same_group dg (s_date_group s)) 0 (sessions st))
    (List.filter (λ s, same_group dg (te_date_group s)) (timeEntries st))
    (List.filter (λ s, same_group dg (c_date_group s)) (log st)) st =
  Done tt
    (set_chartItems
       (<[dg := day_rows dg (sessions st) (timeEntries st) (log st)]> (chartItems st))
       (set_sessions
          (map (λ s, if same_group dg (s_date_group s) then sorted_windows s else s)
             (sessions st)) st)).
Proof.
  intros (s0 & Hs0 & Hdg) Hnd. unfold drawDayChart.
  unfold bind at 1.
  rewrite (mapM_session_row _ (sessions st) [] st eq_refl).
  cbn [app]. unfold bind at 1.
  fold (day_rows dg (sessions st) (timeEntries st) (log st)).
  rewrite (DataSet_new_NoDup _ Hnd). unfold_handler.
  destruct (head_indices_from (λ s, same_group dg (s_date_group s)) (sessions st) 0)
    as (i & x & Hh & Hi & Hx).
  { exists s0. split; [done|]. by apply same_group_true. }
  rewrite Hh. cbn.
  change (map ?f (sessions st)) with (f <$> sessions st).
  rewrite list_lookup_fmap, Hi. cbn. rewrite Hx.
  apply same_group_true in Hx. unfold sorted_windows. cbn. by rewrite Hx.
Qed.

Lemma Set_add_fold (ss : list Session) (acc : list string) :
  NoDup acc →
  NoDup (foldl (λ acc session, Set_add (s_date_group session) acc) acc ss) ∧
  ∀ g, g ∈ foldl (λ acc session, Set_add (s_date_group session) acc) acc ss ↔
       g ∈ acc ∨ g ∈ map s_date_group ss.
Proof.
  revert acc. induction ss as [|s ss IH]; intros acc Hnd.
  - simpl. split; [done|]. intros g. split; [by left|].
    intros [H|H]; [done | by apply elem_of_nil in H].
  - simpl. unfold Set_add at 2 4. destruct (decide (s_date_group s ∈ acc)) as [Hin|Hin].
    + destruct (IH acc Hnd) as [H1 H2]. split; [done|].
      intros g. rewrite H2, elem_of_cons. split; [intros [?|?]; auto|].
      intros [?|[->|?]]; auto.
    + destruct (IH (acc ++ [s_date_group s])) as [H1 H2].
      { apply NoDup_app. split; [done|]. split; [|apply NoDup_singleton].
        intros x Hx ->%list_elem_of_singleton. done. }
      split; [done|]. intros g. rewrite H2, elem_of_app, list_elem_of_singleton, elem_of_cons.
      tauto.
Qed.

Lemma filter_map_fixed {A : Type} (p : A → bool) (f : A → A) (l : list A) :
  (∀ x, p (f x) = p x) → (∀ x, p x = true → f x = x) →
  List.filter p (map f l) = List.filter p l.
Proof.
  intros H1 H2. induction l as [|x l IH]; [done|]. simpl.
  rewrite H1. destruct (p x) eqn:Hp; [|done]. by rewrite H2, IH.
Qed.

Lemma drawn_fields (done : list string) (s : Session) :
  s_date_group (drawn done s) = s_date_group s ∧
  s_idcounter (drawn done s) = s_idcounter s.
Proof. unfold drawn. by case_bool_decide. Qed.

Lemma day_rows_drawn (g : string) (done : list string) (ss : list Session)
    (es : list TimeEntry) (cs : list Commit) :
  g ∉ done → day_rows g (map (drawn done) ss) es cs = day_rows g ss es cs.
Proof.
  intros Hg. unfold day_rows. f_equal. f_equal.
  apply filter_map_fixed.
  - intros s. by destruct (drawn_fields done s) as [-> _].
  - intros s Hs%same_group_true. unfold drawn.
    rewrite bool_decide_eq_false_2; [done | by rewrite Hs].
Qed.

Lemma map_filter_sublist {A B : Type} (f : A → B) (p : A → bool) (l : list A) :
  map f (List.filter p l) `sublist_of` map f l.
Proof.
  induction l as [|x l IH]; [done|]. simpl.
  destruct (p x); simpl; [by apply sublist_skip | by apply sublist_cons].
Qed.

Lemma day_rows_NoDup (g : string) (ss : list Session) (es : list TimeEntry)
    (cs : list Commit) :
  NoDup (map s_idcounter ss ++ map te_idcounter es ++ map c_idcounter cs) →
  NoDup (map row_id (day_rows g ss es cs)).
Proof.
  intros Hnd. rewrite map_row_id_day_rows.
  eapply sublist_NoDup; [exact Hnd|].
  repeat apply sublist_app; apply map_filter_sublist.
Qed.

Lemma updateTable_loop (ss0 : list Session) (es : list TimeEntry) (cs : list Commit) :
  NoDup (map s_idcounter ss0 ++ map te_idcounter es ++ map c_idcounter cs) →
  ∀ (todo done : list string) (st : State),
    sessions st = map (drawn done) ss0 → timeEntries st = es → log st = cs →
    NoDup todo → (∀ g, g ∈ todo → g ∉ done) →
    (∀ g, g ∈ todo → g ∈ map s_date_group ss0) →
    ∃ charts',
      forEach todo (λ dateGroup,
        st <- get ;;
        drawDayChart
          (indices_from (λ s, same_group dateGroup (s_date_group s)) 0 (sessions st))
          (List.filter (λ s, same_group dateGroup (te_date_group s)) (timeEntries st))
          (List.filter (λ s, same_group dateGroup (c_date_group s)) (log st))) st =
      Done tt (set_chartItems charts' (set_sessions (map (drawn (done ++ todo)) ss0) st)) ∧
      ∀ g, charts' !! g =
           if bool_decide (g ∈ todo) then Some (day_rows g ss0 es cs) else chartItems st !! g.
Proof.
  intros Hnd. induction todo as [|g todo IH]; intros done st Hss Hes Hcs Htodo Hfresh Hsess.
  - exists (chartItems st). cbn [forEach]. unfold ret. rewrite app_nil_r, <- Hss.
    split; [by destruct st|]. intros g. by rewrite bool_decide_eq_false_2 by apply not_elem_of_nil.
  - cbn [forEach]. unfold bind at 1. unfold bind at 1. unfold get at 1.
    assert (g ∉ done) as Hg by (apply Hfresh; left).
    rewrite drawDayChart_eq; cycle 1.
    { assert (g ∈ map s_date_group ss0) as Hin by (apply Hsess; left).
      change (map ?f ss0) with (f <$> ss0) in Hin.
      apply list_elem_of_fmap in Hin as (s & -> & Hs).
      exists (drawn done s). split; [|by destruct (drawn_fields done s)].
      rewrite Hss. change (map ?f ss0) with (f <$> ss0).
      apply list_elem_of_fmap. by exists s. }
    { rewrite Hss, Hes, Hcs, day_rows_drawn by done. by apply day_rows_NoDup. }
    rewrite Hss, Hes, Hcs, day_rows_drawn by done.
    set (st1 := set_chartItems _ _).
    apply NoDup_cons in Htodo as [Hgtodo Htodo].
    destruct (IH (done ++ [g]) st1) as (charts' & Hrun & Hlook).
    + subst st1. cbn. rewrite map_map. apply map_ext. intros s.
      unfold drawn. destruct (drawn_fields done s) as [Hd _]. unfold drawn in Hd.
      destruct (decide (s_date_group s = g)) as [Heq|Hne].
      * rewrite (bool_decide_eq_false_2 (s_date_group s ∈ done)) by (by rewrite Heq).
        rewrite same_group_refl' by done.
        rewrite bool_decide_eq_true_2; [done|].
        rewrite elem_of_app, list_elem_of_singleton. by right.
      * case_bool_decide as Hd'.
        -- cbn. rewrite same_group_ne by done.
           rewrite bool_decide_eq_true_2; [done | apply elem_of_app; by left].
        -- rewrite same_group_ne by done.
           rewrite bool_decide_eq_false_2; [done|].
           rewrite elem_of_app, list_elem_of_singleton. tauto.
    + done.
    + done.
    + done.
    + intros g' Hg' [Hd|Hd%list_elem_of_singleton]%elem_of_app.
      * eapply Hfresh; [by right | done].
      * by subst.
    + intros g' Hg'. apply Hsess. by right.
    + exists charts'. rewrite Hrun. split.
      * subst st1. cbn. by rewrite <- app_assoc.
      * intros g'. rewrite Hlook. subst st1. cbn.
        destruct (decide (g' = g)) as [->|Hne].
        -- rewrite (bool_decide_eq_false_2 (g ∈ todo)) by done.
           rewrite (bool_decide_eq_true_2 (g ∈ g :: todo)) by left.
           by rewrite lookup_insert_eq.
        -- rewrite lookup_insert_ne by done.
           destruct (decide (g' ∈ todo)) as [Hin|Hin].
           ++ rewrite !bool_decide_eq_true_2; [done | by right | done].
           ++ rewrite !bool_decide_eq_false_2; [done | | done].
              intros [?|?]%elem_of_cons; done.
Qed.

Lemma drawn_nil (s : Session) : drawn [] s = s.
Proof. unfold drawn. rewrite bool_decide_eq_false_2; [done | apply not_elem_of_nil]. Qed.

(** With distinct identities in the store, [updateTable] returns: every
    session has its windows sorted and every day that has a session has
    its rows. *)
Lemma updateTable_eq (st : State) :
  NoDup (all_ids st) →
  ∃ charts',
    updateTable st =
      Done tt (set_chartItems charts' (set_sessions (map sorted_windows (sessions st)) st)) ∧
    ∀ g, charts' !! g =
         if bool_decide (g ∈ map s_date_group (sessions st))
         then Some (day_rows g (sessions st) (timeEntries st) (log st))
         else chartItems st !! g.
Proof.
  intros Hnd. unfold updateTable. unfold bind at 1. unfold get at 1.
  destruct (Set_add_fold (sessions st) [] (NoDup_nil_2)) as [Hnd' Hin].
  destruct (updateTable_loop (sessions st) (timeEntries st) (log st) Hnd
    (foldl (λ acc session, Set_add (s_date_group session) acc) [] (sessions st)) [] st)
    as (charts' & Hrun & Hlook); try done.
  - rewrite (map_ext _ id) by apply drawn_nil. by rewrite map_id.
  - intros g _. apply not_elem_of_nil.
  - intros g Hg. apply Hin in Hg as [Hg|Hg]; [by apply elem_of_nil in Hg | done].
  - exists charts'. rewrite Hrun. split.
    + f_equal. f_equal. f_equal. cbn [app]. apply map_ext_in. intros s Hs.
      unfold drawn. rewrite bool_decide_eq_true_2; [done|].
      apply Hin. right. change (map ?f ?l) with (f <$> l).
      apply list_elem_of_fmap. exists s. split; [done | by apply list_elem_of_In].
    + intros g. rewrite Hlook.
      destruct (decide (g ∈ map s_date_group (sessions st))) as [Hg|Hg].
      * rewrite !bool_decide_eq_true_2; [done | done | apply Hin; by right].
      * rewrite !bool_decide_eq_false_2; [done | done |].
        intros [H|H]%Hin; [by apply elem_of_nil in H | done].
Qed.

Lemma loaded_store_ids (data : Data) (st : State) :
  all_ids (loaded_store data st) =
  seq (idCounter st)
      (length (d_sessions data) + length (d_time_entries data) + length (d_log data)).
Proof.
  unfold all_ids, session_ids, entry_ids, commit_ids, loaded_store. cbn.
  unfold loaded_sessions, loaded_entries, loaded_log.
  rewrite !number_from_ids by done. rewrite !seq_app, <- app_assoc.
  by rewrite Nat.add_assoc.
Qed.

(** The [done] callback returns, from any state. *)
Lemma getSessions_done_spec (data : Data) (st : State) :
  ∃ charts',
    getSessions_done data st =
      Done tt (set_chartItems charts'
                 (set_sessions (map sorted_windows (loaded_sessions (idCounter st) data))
                    (loaded_store data st))) ∧
    ∀ g, charts' !! g =
         if bool_decide (g ∈ map rs_date_group (d_sessions data))
         then Some (day_rows g (loaded_sessions (idCounter st) data)
                      (loaded_entries (idCounter st) data) (loaded_log (idCounter st) data))
         else None.
Proof.
  rewrite getSessions_done_eq.
  destruct (updateTable_eq (loaded_store data st)) as (charts' & Hrun & Hlook).
  { rewrite loaded_store_ids. apply NoDup_seq. }
  exists charts'. split; [done|]. intros g. rewrite Hlook.
  cbn [loaded_store sessions timeEntries log chartItems].
  rewrite lookup_empty.
  assert (map s_date_group (loaded_sessions (idCounter st) data)
          = map rs_date_group (d_sessions data)) as Heq
    by (by apply number_from_map).
  repeat case_bool_decide; try done; rewrite Heq in *; done.
Qed.

(** ** Identities along a run *)

Lemma state_of_bind {A B : Type} (m : Handler A) (k : A → Handler B) (st : State) :
  state_of (bind m k st) =
  match m st with
  | Done a st' => state_of (k a st')
  | Thrown st' => st'
  end.
Proof. unfold bind. by destruct (m st). Qed.

Lemma ids_kept_same (st st' : State) :
  sessions st' = sessions st → timeEntries st' = timeEntries st → log st' = log st →
  idCounter st' = idCounter st → ids_kept st st'.
Proof.
  intros Hs He Hl Hc. unfold ids_kept, session_ids, commit_ids, entry_ids.
  rewrite Hs, He, Hl, Hc, Nat.sub_diag. simpl. by rewrite app_nil_r.
Qed.

Lemma ids_kept_trans (st1 st2 st3 : State) :
  ids_kept st1 st2 → ids_kept st2 st3 → ids_kept st1 st3.
Proof.
  intros (Hc1 & Hs1 & Hl1 & He1) (Hc2 & Hs2 & Hl2 & He2).
  unfold ids_kept. split; [lia|]. split; [congruence|]. split; [congruence|].
  rewrite He2, He1, <- app_assoc. f_equal.
  replace (idCounter st3 - idCounter st1)%nat
    with ((idCounter st2 - idCounter st1) + (idCounter st3 - idCounter st2))%nat by lia.
  rewrite seq_app. f_equal. f_equal. lia.
Qed.

Lemma createEntry_ids (dg : string) (raw : RawTimeEntry) (st : State) :
  ids_kept st (state_of (createEntry dg raw st)).
Proof.
  rewrite createEntry_eq. cbn zeta.
  assert (∀ charts', ids_kept st (set_chartItems charts'
    (set_timeEntries (timeEntries st ++ [created dg raw (idCounter st)])
       (set_idCounter (S (idCounter st)) st)))) as H.
  { intros charts'. unfold ids_kept, session_ids, commit_ids, entry_ids. cbn.
    split; [lia|]. split; [done|]. split; [done|].
    rewrite map_app. f_equal. by replace (S (idCounter st) - idCounter st)%nat with 1%nat by lia. }
  destruct (chartItems st !! dg) as [c|].
  - destruct (DataSet_has (idCounter st) c); cbn.
    + specialize (H (chartItems st)). by rewrite set_chartItems_id' in H.
    + apply H.
  - cbn. specialize (H (chartItems st)). by rewrite set_chartItems_id' in H.
Qed.

Lemma refreshEntry_ids (newEntry : RawTimeEntry) (st : State) :
  ids_kept st (state_of (refreshEntry newEntry st)).
Proof.
  destruct (refreshEntry_keeps newEntry st) as (Hs & Hl & Hc & _ & _ & _ & He & _).
  unfold ids_kept, session_ids, commit_ids, entry_ids.
  rewrite Hs, Hl, Hc, He, Nat.sub_diag. simpl. by rewrite app_nil_r.
Qed.

Lemma splitEntry_done_ids (date_str : string) (entry1 entry2 : RawTimeEntry) (st : State) :
  ids_kept st (state_of (splitEntry_done date_str entry1 entry2 st)).
Proof.
  unfold splitEntry_done. rewrite state_of_bind.
  pose proof (refreshEntry_ids entry1 st) as H1.
  destruct (refreshEntry entry1 st) as [[] st1|st1]; cbn [state_of] in *; [|done].
  eapply ids_kept_trans; [exact H1 | apply createEntry_ids].
Qed.

(** The handlers of the timeline and of the form touch the row collections
    and the page only. *)
Lemma description_change_state (st : State) :
  ∃ p, state_of (description_change st) = set_page p st.
Proof.
  unfold description_change. unfold_handler.
  destruct (Nat.ltb 0 (length (issues st))); [|exists (page st); by destruct st].
  destruct (head _) as [first|]; cbn; [|exists (page st); by destruct st].
  destruct (truthy (i_project first)); cbn; [by eexists | exists (page st); by destruct st].
Qed.

Lemma onMove_state (item : Row) (st : State) : state_of (onMove item st) = st.
Proof.
  unfold onMove. destruct (is_entry_row item); [|done]. unfold_handler.
  destruct (entry_of_row item st); [|done]. cbn.
  destruct (start item); [|done]. cbn. by destruct (end_ item).
Qed.

Lemma onRemove_state (item : Row) (st : State) : state_of (onRemove item st) = st.
Proof.
  unfold onRemove. destruct (is_entry_row item); [|done]. unfold_handler.
  by destruct (entry_of_row item st).
Qed.

Lemma Timeline_move_state (dg : string) (i : nat) (new_start new_end : Date) (st : State) :
  state_of (Timeline_move dg i new_start new_end st) = st ∨
  ∃ r c, find_row dg i st = Some r ∧ chartItems st !! dg = Some c ∧
    state_of (Timeline_move dg i new_start new_end st) =
    set_chartItems (<[dg := DataSet_put (moved new_start new_end r) c]> (chartItems st)) st.
Proof.
  remember (state_of (Timeline_move dg i new_start new_end st)) as st' eqn:Hst'.
  unfold Timeline_move in Hst'. unfold bind at 1, get at 1 in Hst'.
  destruct (find_row dg i st) as [r|] eqn:Hr; [|by left].
  destruct (chartItems st !! dg) as [c|] eqn:Hc; [|by left].
  rewrite state_of_bind in Hst'.
  pose proof (onMove_state (moved new_start new_end r) st) as Hm.
  destruct (onMove _ st) as [rq st1|st1]; cbn in Hm; subst st1; [|by left].
  right. exists r, c. by cbn in Hst'.
Qed.

Lemma Timeline_remove_state (dg : string) (i : nat) (st : State) :
  state_of (Timeline_remove dg i st) = st ∨
  ∃ item c, find_row dg i st = Some item ∧ chartItems st !! dg = Some c ∧
    state_of (Timeline_remove dg i st) =
    set_chartItems (<[dg := DataSet_remove (row_id item) c]> (chartItems st)) st.
Proof.
  remember (state_of (Timeline_remove dg i st)) as st' eqn:Hst'.
  unfold Timeline_remove in Hst'. unfold bind at 1, get at 1 in Hst'.
  destruct (find_row dg i st) as [r|] eqn:Hr; [|by left].
  destruct (chartItems st !! dg) as [c|] eqn:Hc; [|by left].
  rewrite state_of_bind in Hst'.
  pose proof (onRemove_state r st) as Hm.
  destruct (onRemove _ st) as [rq st1|st1]; cbn in Hm; subst st1; [|by left].
  right. exists r, c. by cbn in Hst'.
Qed.

Lemma getSessions_done_ids (data : Data) (st : State) :
  let st' := state_of (getSessions_done data st) in
  (idCounter st ≤ idCounter st')%nat ∧
  all_ids st' = seq (idCounter st) (idCounter st' - idCounter st).
Proof.
  destruct (getSessions_done_spec data st) as (charts' & -> & _). cbn.
  split; [lia|].
  pose proof (loaded_store_ids data st) as H.
  unfold all_ids, session_ids, entry_ids, commit_ids in *. cbn in *.
  rewrite map_map. rewrite (map_ext _ s_idcounter) by done. rewrite H.
  f_equal. lia.
Qed.

Theorem step_ids (ev : Event) (st : State) : ids_step ev st (step st ev).
Proof.
  unfold step. destruct ev as [data|session data|data|ds e1 e2|eid data|text|dg i ns ne|dg i];
    cbn [ids_step handle].
  - apply getSessions_done_ids.
  - apply createEntry_ids.
  - apply refreshEntry_ids.
  - apply splitEntry_done_ids.
  - by apply ids_kept_same.
  - rewrite state_of_bind. unfold modify.
    destruct (description_change_state
      (set_page (set_description_val text (page st)) st)) as (p & ->).
    by apply ids_kept_same.
  - rewrite state_of_bind.
    destruct (Timeline_move_state dg i ns ne st) as [H|(r & c & _ & _ & H)];
      destruct (Timeline_move dg i ns ne st) as [rq st1|st1]; cbn in *; subst st1;
      by apply ids_kept_same.
  - rewrite state_of_bind.
    destruct (Timeline_remove_state dg i st) as [H|(r & c & _ & _ & H)];
      destruct (Timeline_remove dg i st) as [rq st1|st1]; cbn in *; subst st1;
      by apply ids_kept_same.
Qed.

(** ** The invariants hold along every run *)

Lemma IdsInv_kept (st st' : State) : IdsInv st → ids_kept st st' → IdsInv st'.
Proof.
  intros [Hnd Hlt] (Hc & Hs & Hl & He).
  assert (all_ids st' ≡ₚ all_ids st ++ seq (idCounter st) (idCounter st' - idCounter st))
    as Hperm.
  { unfold all_ids. rewrite Hs, Hl, He, <- !app_assoc.
    do 2 f_equiv. apply Permutation_app_comm. }
  split.
  - rewrite Hperm. apply NoDup_app. split; [done|]. split; [|apply NoDup_seq].
    intros i Hi Hi'. rewrite Forall_forall in Hlt. apply Hlt in Hi.
    apply elem_of_seq in Hi'. lia.
  - rewrite Hperm. apply Forall_app. split.
    + eapply Forall_impl; [exact Hlt|]. intros i Hi. simpl in *. lia.
    + apply Forall_forall. intros i Hi%elem_of_seq. lia.
Qed.

Lemma IdsInv_step (ev : Event) (st : State) : IdsInv st → IdsInv (step st ev).
Proof.
  intros Hinv. pose proof (step_ids ev st) as H.
  destruct ev; cbn [ids_step] in H; try (by eapply IdsInv_kept).
  destruct H as [Hc Hall]. split; rewrite Hall.
  - apply NoDup_seq.
  - apply Forall_forall. intros i Hi%elem_of_seq. lia.
Qed.

Lemma ChartsInv_mono (st st' : State) :
  chartItems st' = chartItems st → sessions st' = sessions st →
  (idCounter st ≤ idCounter st')%nat → ChartsInv st → ChartsInv st'.
Proof.
  intros Hch Hs Hc [Hrows Hsess]. split.
  - intros g c Hg. rewrite Hch in Hg. eapply Forall_impl; [by eapply Hrows|].
    intros r Hr. simpl in *. lia.
  - intros s Hin. rewrite Hch. apply Hsess. by rewrite <- Hs.
Qed.

Lemma ChartsInv_insert (st : State) (dg : string) (c' : DataSet) :
  ChartsInv st → Forall (λ r, row_id r < idCounter st)%nat c' →
  ChartsInv (set_chartItems (<[dg := c']> (chartItems st)) st).
Proof.
  intros [Hrows Hsess] Hc'. split; cbn.
  - intros g c. destruct (decide (dg = g)) as [->|Hne].
    + rewrite lookup_insert_eq. by intros [= <-].
    + rewrite lookup_insert_ne by done. apply Hrows.
  - intros s Hs. destruct (decide (dg = s_date_group s)) as [->|Hne].
    + rewrite lookup_insert_eq. by eexists.
    + rewrite lookup_insert_ne by done. by apply Hsess.
Qed.

Lemma createEntry_Inv (dg : string) (raw : RawTimeEntry) (st : State) :
  Inv st → Inv (state_of (createEntry dg raw st)).
Proof.
  intros [Hids Hch]. split.
  { eapply IdsInv_kept; [done | apply createEntry_ids]. }
  rewrite createEntry_eq. cbn zeta.
  set (st1 := set_timeEntries _ _).
  assert (ChartsInv st1) as H1.
  { eapply ChartsInv_mono; [| | |exact Hch]; subst st1; cbn; [done | done | lia]. }
  destruct (chartItems st !! dg) as [c|] eqn:Hc; [|done].
  destruct (DataSet_has (idCounter st) c); [done|]. cbn [state_of].
  apply (ChartsInv_insert st1 dg (c ++ [makeRow_entry (created dg raw (idCounter st))]) H1).
  apply Forall_app. split.
  - destruct Hch as [Hrows _]. eapply Forall_impl; [by eapply Hrows|].
    intros r Hr. subst st1. cbn in *. lia.
  - apply Forall_singleton. subst st1. cbn. lia.
Qed.

Lemma apply_updates_ids (newEntry : RawTimeEntry) (ids : list nat) (c : DataSet) (i : nat) :
  i ∈ map row_id (apply_updates newEntry ids c) → i ∈ map row_id c ∨ i ∈ ids.
Proof.
  revert c. induction ids as [|j ids IH]; intros c Hi; [by left|].
  unfold apply_updates in *. cbn [foldl] in Hi.
  apply IH in Hi as [Hi|Hi]; [|right; by right].
  apply DataSet_update_ids in Hi as [Hi|Hi]; [by left|].
  right. cbn in Hi. subst. left.
Qed.

Lemma refreshEntry_Inv (newEntry : RawTimeEntry) (st : State) :
  Inv st → Inv (state_of (refreshEntry newEntry st)).
Proof.
  intros [Hids Hch]. split.
  { eapply IdsInv_kept; [done | apply refreshEntry_ids]. }
  destruct (refreshEntry_keeps newEntry st) as (Hs & _ & Hc & _).
  destruct (refreshEntry_spec newEntry st) as (n & _ & _ & _ & Hlook & _).
  cbn zeta in *. destruct Hch as [Hrows Hsess]. split.
  - intros g c' Hg. rewrite Hlook in Hg.
    destruct (chartItems st !! g) as [c|] eqn:Hgc; [|done]. cbn in Hg.
    injection Hg as <-. rewrite Hc.
    apply Forall_forall. intros r Hr.
    assert (row_id r ∈ map row_id (apply_updates newEntry
      (matching_ids newEntry g (take n (timeEntries st))) c)) as Hin.
    { change (map ?f ?l) with (f <$> l). apply list_elem_of_fmap. by exists r. }
    apply apply_updates_ids in Hin as [Hin|Hin].
    + change (map ?f ?l) with (f <$> l) in Hin.
      apply list_elem_of_fmap in Hin as (r0 & -> & Hr0).
      specialize (Hrows g c Hgc). rewrite Forall_forall in Hrows. by apply Hrows.
    + apply matching_ids_take, elem_of_matching_ids in Hin as (e & He & _ & _ & <-).
      destruct Hids as [_ Hlt]. rewrite Forall_forall in Hlt. apply Hlt.
      unfold all_ids, entry_ids. rewrite !elem_of_app. right. left.
      change (map ?f ?l) with (f <$> l). apply list_elem_of_fmap. by exists e.
  - intros s Hin. rewrite Hs in Hin. rewrite Hlook.
    destruct (Hsess s Hin) as [c ->]. by eexists.
Qed.

Lemma getSessions_done_Inv (data : Data) (st : State) :
  Inv (state_of (getSessions_done data st)).
Proof.
  pose proof (getSessions_done_ids data st) as [Hc Hall].
  destruct (getSessions_done_spec data st) as (charts' & Hrun & Hlook).
  rewrite Hrun in *. cbn [state_of] in *. split.
  - split; rewrite Hall.
    + apply NoDup_seq.
    + apply Forall_forall. intros i Hi%elem_of_seq. lia.
  - split.
    + intros g c Hg. cbn in Hg. rewrite Hlook in Hg.
      case_bool_decide; [|done]. injection Hg as <-.
      apply Forall_forall. intros r Hr.
      assert (row_id r ∈ seq (idCounter st)
        (length (d_sessions data) + length (d_time_entries data) + length (d_log data)))
        as Hin.
      { rewrite <- loaded_store_ids. unfold all_ids, session_ids, entry_ids, commit_ids.
        cbn [loaded_store sessions timeEntries log].
        eapply (sublist_subseteq (map row_id (day_rows g _ _ _))).
        - rewrite map_row_id_day_rows.
          repeat apply sublist_app; apply map_filter_sublist.
        - change (map ?f ?l) with (f <$> l). apply list_elem_of_fmap.
          exists r. split; [done | exact Hr]. }
      apply elem_of_seq in Hin. cbn. lia.
    + intros s Hs. cbn in Hs. cbn [chartItems set_chartItems]. rewrite Hlook.
      change (map ?f ?l) with (f <$> l) in Hs.
      apply list_elem_of_fmap in Hs as (s0 & -> & Hs0).
      rewrite bool_decide_eq_true_2; [by eexists|].
      unfold sorted_windows. cbn.
      unfold loaded_sessions in Hs0.
      rewrite <- (number_from_map (λ k raw, with_s_idcounter k (parseSession raw))
        s_date_group rs_date_group (idCounter st) (d_sessions data)) by done.
      change (map ?f ?l) with (f <$> l). apply list_elem_of_fmap. by exists s0.
Qed.

Lemma Inv_set_page (p : Page) (st : State) : Inv st → Inv (set_page p st).
Proof. by intros [[] []]. Qed.

Lemma Inv_insert (st : State) (dg : string) (c' : DataSet) :
  Inv st → Forall (λ r, row_id r < idCounter st)%nat c' →
  Inv (set_chartItems (<[dg := c']> (chartItems st)) st).
Proof. intros [Hids Hch] Hc'. split; [done | by apply ChartsInv_insert]. Qed.

Lemma find_row_elem (dg : string) (i : nat) (st : State) (r : Row) (c : DataSet) :
  find_row dg i st = Some r → chartItems st !! dg = Some c → r ∈ c ∧ row_id r = i.
Proof.
  unfold find_row. intros Hf Hc. rewrite Hc in Hf. cbn in Hf.
  destruct (List.filter _ c) as [|r' l] eqn:Hfl; [done|]. injection Hf as ->.
  assert (In r (List.filter (λ r, Nat.eqb (row_id r) i) c)) as Hin by (rewrite Hfl; left; done).
  apply filter_In in Hin as [Hin Heq]. split; [by apply list_elem_of_In | by apply Nat.eqb_eq].
Qed.

Theorem Inv_step (ev : Event) (st : State) : Inv st → Inv (step st ev).
Proof.
  intros Hinv. unfold step.
  destruct ev as [data|session data|data|ds e1 e2|eid data|text|dg i ns ne|dg i];
    cbn [handle].
  - apply getSessions_done_Inv.
  - by apply createEntry_Inv.
  - by apply refreshEntry_Inv.
  - unfold splitEntry_done. rewrite state_of_bind.
    pose proof (refreshEntry_Inv e1 st Hinv) as H1.
    destruct (refreshEntry e1 st) as [[] st1|st1]; cbn [state_of] in *; [|done].
    by apply createEntry_Inv.
  - by apply Inv_set_page.
  - rewrite state_of_bind. unfold modify.
    destruct (description_change_state
      (set_page (set_description_val text (page st)) st)) as (p & ->).
    by apply (Inv_set_page p st).
  - rewrite state_of_bind.
    assert (Inv (state_of (Timeline_move dg i ns ne st))) as H.
    { destruct (Timeline_move_state dg i ns ne st) as [->|(r & c & Hr & Hc & ->)]; [done|].
      apply Inv_insert; [done|].
      destruct (find_row_elem _ _ _ _ _ Hr Hc) as [Hin Hid].
      destruct Hinv as [_ [Hrows _]]. specialize (Hrows dg c Hc).
      rewrite Forall_forall in Hrows. unfold DataSet_put.
      apply Forall_forall. intros r' Hr'.
      change (map ?f ?l) with (f <$> l) in Hr'.
      apply list_elem_of_fmap in Hr' as (r0 & -> & Hr0).
      destruct (Nat.eqb (row_id r0) _); [cbn; by apply Hrows | by apply Hrows]. }
    by destruct (Timeline_move dg i ns ne st).
  - rewrite state_of_bind.
    assert (Inv (state_of (Timeline_remove dg i st))) as H.
    { destruct (Timeline_remove_state dg i st) as [->|(r & c & Hr & Hc & ->)]; [done|].
      apply Inv_insert; [done|].
      destruct Hinv as [_ [Hrows _]]. specialize (Hrows dg c Hc).
      rewrite Forall_forall in Hrows. unfold DataSet_remove.
      apply Forall_forall. intros r' Hr'.
      apply list_elem_of_In, filter_In in Hr' as [Hr' _].
      by apply Hrows, list_elem_of_In. }
    by destruct (Timeline_remove dg i st).
Qed.

Lemma initial_Inv : Inv initial_state.
Proof.
  split; split; cbn.
  - apply NoDup_nil_2.
  - apply Forall_nil_2.
  - intros g c H. by rewrite lookup_empty in H.
  - intros s H. by apply elem_of_nil in H.
Qed.

Lemma run_snoc (evs : list Event) (ev : Event) (st : State) :
  run (evs ++ [ev]) st = step (run evs st) ev.
Proof. unfold run. by rewrite foldl_app. Qed.

Lemma run_app (evs1 evs2 : list Event) (st : State) :
  run (evs1 ++ evs2) st = run evs2 (run evs1 st).
Proof. unfold run. by rewrite foldl_app. Qed.

Lemma run_Inv_from (evs : list Event) (st : State) : Inv st → Inv (run evs st).
Proof.
  revert st. induction evs as [|ev evs IH]; intros st H; [done|].
  cbn. apply IH. by apply Inv_step.
Qed.

(** Every state the page can reach is well formed. *)
Theorem run_Inv (evs : list Event) : Inv (run evs initial_state).
Proof. apply run_Inv_from, initial_Inv. Qed.

Lemma step_counter_mono (ev : Event) (st : State) :
  (idCounter st ≤ idCounter (step st ev))%nat.
Proof.
  pose proof (step_ids ev st) as H.
  destruct ev; cbn [ids_step] in H; by destruct H.
Qed.

Lemma run_counter_mono (evs : list Event) (st : State) :
  (idCounter st ≤ idCounter (run evs st))%nat.
Proof.
  revert st. induction evs as [|ev evs IH]; intros st; [done|]. cbn.
  etrans; [apply (step_counter_mono ev) | apply IH].
Qed.

(** * Statements of the specification *)

(** C2.  Along every sequence of loads and mutations, the local identities
    held in the store are pairwise distinct and below the counter; the event
    that follows leaves every entity that stays in the store the identity it
    has, and hands to each entity that enters the store (all of them on a
    load, the created entry otherwise) the next values of the counter, in
    increasing order; and no identity from the counter of the current state
    onwards occurs in any earlier state of the run, so none is ever handed
    out twice.  ([idCounter] is a JavaScript number; it is modelled as a
    natural number, which is exact below 2^53.) *)
Theorem idcounter_lifetime (evs : list Event) (ev : Event) :
  let st := run evs initial_state in
  let st' := step st ev in
  NoDup (all_ids st') ∧
  Forall (λ i, i < idCounter st')%nat (all_ids st') ∧
  (idCounter st ≤ idCounter st')%nat ∧
  match ev with
  | Loaded _ => all_ids st' = seq (idCounter st) (idCounter st' - idCounter st)
  | _ =>
      session_ids st' = session_ids st ∧
      commit_ids st' = commit_ids st ∧
      entry_ids st' = entry_ids st ++ seq (idCounter st) (idCounter st' - idCounter st)
  end ∧
  (∀ evs0 evs1 i, evs = evs0 ++ evs1 → (idCounter st ≤ i)%nat →
     i ∉ all_ids (run evs0 initial_state)).
Proof.
  intros st st'.
  destruct (Inv_step ev st (run_Inv evs)) as [[Hnd Hlt] _].
  split; [done|]. split; [done|].
  split; [apply step_counter_mono|]. split.
  - pose proof (step_ids ev st) as H. fold st' in H.
    destruct ev; cbn [ids_step] in H; unfold ids_kept in H; tauto.
  - intros evs0 evs1 i -> Hi Hin.
    destruct (run_Inv evs0) as [[_ Hlt0] _]. rewrite Forall_forall in Hlt0.
    apply Hlt0 in Hin. subst st. rewrite run_app in Hi.
    pose proof (run_counter_mono evs1 (run evs0 initial_state)). lia.
Qed.

(** C10, as amended.  A response whose id no local entry carries leaves the
    whole state as it was, and [refreshEntry] returns.  When the day of
    every local entry that carries the id has a row collection,
    [refreshEntry] returns, every such entry has its start, end and
    description overwritten from the response, every other entry is
    untouched, and each day's rows receive the update of each such entry of
    that day. *)
Theorem refreshEntry_no_match_or_all (newEntry : RawTimeEntry) (st : State) :
  ((∀ e, e ∈ timeEntries st → te_id e ≠ rt_id newEntry) →
   refreshEntry newEntry st = Done tt st) ∧
  ((∀ e, e ∈ timeEntries st → te_id e = rt_id newEntry →
         is_Some (chartItems st !! te_date_group e)) →
   let st' := state_of (refreshEntry newEntry st) in
   returned (refreshEntry newEntry st) = true ∧
   timeEntries st' = map (refresh_if newEntry) (timeEntries st) ∧
   (∀ e, te_id e = rt_id newEntry → refresh_if newEntry e = refreshed newEntry e) ∧
   (∀ e, te_id e ≠ rt_id newEntry → refresh_if newEntry e = e) ∧
   (∀ g, chartItems st' !! g =
         apply_updates newEntry (matching_ids newEntry g (timeEntries st))
           <$> (chartItems st !! g))).
Proof.
  split.
  - intros Hno. rewrite refreshEntry_eq, refresh_rest_no_match by done. by destruct st.
  - intros Hcharts st'. pose proof (refreshEntry_returns newEntry st Hcharts) as Hret.
    destruct (refreshEntry_spec newEntry st) as (n & Hn & _ & Hl & Hlook & Hok).
    cbn zeta in *. specialize (Hok Hret). subst n. fold st' in Hl, Hlook.
    rewrite firstn_all, drop_all, app_nil_r in Hl.
    rewrite firstn_all in Hlook.
    split; [done|]. split; [done|].
    split; [intros e He; unfold refresh_if; by rewrite decide_True|].
    split; [intros e He; unfold refresh_if; by rewrite decide_False|].
    done.
Qed.

(** C5, as amended.  Whatever [refreshEntry] does with a response, returned
    or thrown: the days that have a row collection stay the same; a row
    whose identity is not the local identity of an entry of that day
    carrying the response's id stays what and where it was; any other row
    is left as it was or overwritten, and is overwritten when
    [refreshEntry] returns.  An overwritten row keeps its identity, group,
    style class, type and editability, and takes its content and title
    from the response's description and its start and end from the
    response's times: the content changes with the description. *)
Theorem refreshEntry_rows (newEntry : RawTimeEntry) (st : State) :
  let st' := state_of (refreshEntry newEntry st) in
  (∀ g, is_Some (chartItems st' !! g) ↔ is_Some (chartItems st !! g)) ∧
  (∀ g c, chartItems st !! g = Some c →
     ∃ c', chartItems st' !! g = Some c' ∧
       ∀ k r, c !! k = Some r →
         (row_id r ∉ matching_ids newEntry g (timeEntries st) → c' !! k = Some r) ∧
         (c' !! k = Some r ∨ c' !! k = Some (refreshed_row newEntry r)) ∧
         (returned (refreshEntry newEntry st) = true →
          row_id r ∈ matching_ids newEntry g (timeEntries st) →
          c' !! k = Some (refreshed_row newEntry r))) ∧
  (∀ r, row_id (refreshed_row newEntry r) = row_id r ∧
        group (refreshed_row newEntry r) = group r ∧
        className (refreshed_row newEntry r) = className r ∧
        type_ (refreshed_row newEntry r) = type_ r ∧
        editable (refreshed_row newEntry r) = editable r ∧
        content (refreshed_row newEntry r) = rt_description newEntry ∧
        title (refreshed_row newEntry r) = rt_description newEntry ∧
        start (refreshed_row newEntry r) = Some (parseTime (rt_start_time newEntry)) ∧
        end_ (refreshed_row newEntry r) = Some (parseTime (rt_end_time newEntry))) ∧
  sessions st' = sessions st ∧ log st' = log st.
Proof.
  intros st'.
  destruct (refreshEntry_spec newEntry st) as (n & Hn & _ & _ & Hlook & Hok).
  destruct (refreshEntry_keeps newEntry st) as (Hs & Hl & _).
  cbn zeta in *. fold st' in Hlook, Hs, Hl.
  split; [|split; [|split; [done|done]]].
  - intros g. rewrite Hlook. by rewrite fmap_is_Some.
  - intros g c Hc. rewrite Hlook, Hc. cbn. eexists. split; [done|].
    intros k r Hk. rewrite (apply_updates_lookup _ _ _ _ _ Hk).
    split; [|split].
    + intros Hnot. rewrite bool_decide_eq_false_2; [done|].
      intros Hin. by apply Hnot, (matching_ids_take _ _ n).
    + case_bool_decide; [by right | by left].
    + intros Hret Hin. rewrite (Hok Hret), firstn_all.
      by rewrite bool_decide_eq_true_2.
Qed.

Lemma fresh_counter (st : State) :
  Inv st →
  (idCounter st ∉ all_ids st) ∧
  ∀ g c, chartItems st !! g = Some c → idCounter st ∉ map row_id c.
Proof.
  intros [[_ Hlt] [Hrows _]]. split.
  - intros Hin. rewrite Forall_forall in Hlt. apply Hlt in Hin. lia.
  - intros g c Hc Hin. specialize (Hrows g c Hc). rewrite Forall_forall in Hrows.
    change (map ?f ?l) with (f <$> l) in Hin.
    apply list_elem_of_fmap in Hin as (r & Heq & Hr). apply Hrows in Hr. lia.
Qed.

(** The export button on a selected session posts a create request for the
    span from the session's start to the end of the last selected item. *)
Lemma btn_export_click_session (session last : Session) (st : State) :
  global_selected st = Some (Sel_session session) →
  global_selected_last st = Some last →
  btn_export_click st =
  Done (Some (Req_export session (exportSession session (s_end_time last) st))) st.
Proof. intros H1 H2. unfold btn_export_click. unfold_handler. by rewrite H1, H2. Qed.


(** C4.  In any state the page can reach, exporting a session of the store
    posts a request without an id whose span runs from the session's start
    time to the end time of the last selected item, and the success
    callback returns: exactly one entry is pushed, with the value of the
    counter as its identity, an identity that no entity and no row has yet;
    exactly one row, the row of that entry, is appended to the row
    collection of the session's day, whose length grows by one; every other
    day's rows, the sessions and the commits stay as they were. *)
Theorem exportSession_creates_one_entry (evs : list Event) (session last : Session)
    (data : RawTimeEntry) :
  let st := run evs initial_state in
  session ∈ sessions st →
  let post := exportSession session (s_end_time last) st in
  let new := created (s_date_group session) data (idCounter st) in
  (ex_id post = None ∧
   ex_start_time post = getTime (s_start_time session) ∧
   ex_end_time post = getTime (s_end_time last)) ∧
  (∀ st0, global_selected st0 = Some (Sel_session session) →
          global_selected_last st0 = Some last →
          btn_export_click st0 =
          Done (Some (Req_export session (exportSession session (s_end_time last) st0))) st0) ∧
  ∃ c, chartItems st !! s_date_group session = Some c ∧
    exportSession_done session data st =
      Done tt
        (set_chartItems
           (<[s_date_group session := c ++ [makeRow_entry new]]> (chartItems st))
           (set_timeEntries (timeEntries st ++ [new])
              (set_idCounter (S (idCounter st)) st))) ∧
    length (c ++ [makeRow_entry new]) = S (length c) ∧
    te_idcounter new = idCounter st ∧
    row_id (makeRow_entry new) = idCounter st ∧
    (idCounter st ∉ all_ids st) ∧
    (∀ g c0, chartItems st !! g = Some c0 → idCounter st ∉ map row_id c0).
Proof.
  intros st Hsession post new.
  pose proof (run_Inv evs) as Hinv. fold st in Hinv.
  destruct (fresh_counter st Hinv) as [Hfresh Hrows].
  split; [done|]. split; [intros st0; apply btn_export_click_session|].
  destruct Hinv as [_ [_ Hsess]].
  destruct (Hsess session Hsession) as [c Hc]. exists c. split; [done|].
  split; [|split; [|split; [done|split; [done|split; [done|done]]]]].
  - unfold exportSession_done. rewrite createEntry_eq. cbn zeta. rewrite Hc.
    assert (DataSet_has (idCounter st) c = false) as ->; [|done].
    apply DataSet_has_false. by eapply Hrows.
  - rewrite length_app. cbn. lia.
Qed.


(** ** Where a load puts the rows *)

Lemma rows_with_NoDup (i : nat) (c : DataSet) :
  NoDup (map row_id c) →
  rows_with i c = if bool_decide (i ∈ map row_id c) then 1%nat else 0%nat.
Proof.
  unfold rows_with. induction c as [|r c IH]; intros Hnd.
  - cbn [List.filter length map]. by rewrite bool_decide_eq_false_2 by apply not_elem_of_nil.
  - cbn [List.filter map] in *. apply NoDup_cons in Hnd as [Hr Hnd].
    specialize (IH Hnd).
    destruct (Nat.eqb_spec (row_id r) i) as [Heq|Hne].
    + subst i. cbn [length]. rewrite IH.
      rewrite (bool_decide_eq_false_2 _ Hr).
      by rewrite bool_decide_eq_true_2 by left.
    + rewrite IH. destruct (decide (i ∈ map row_id c)) as [Hin|Hin].
      * rewrite !bool_decide_eq_true_2; [done | by right | done].
      * rewrite !bool_decide_eq_false_2; [done | | done].
        intros [?|?]%elem_of_cons; [congruence | done].
Qed.

Lemma NoDup_map_eq {A : Type} (f : A → nat) (l : list A) (x y : A) :
  NoDup (map f l) → x ∈ l → y ∈ l → f x = f y → x = y.
Proof.
  induction l as [|a l IH]; intros Hnd Hx Hy Hf.
  - by apply elem_of_nil in Hx.
  - cbn in Hnd. apply NoDup_cons in Hnd as [Ha Hnd].
    assert (∀ z, z ∈ l → f z ≠ f a) as Hother.
    { intros z Hz Heq. apply Ha. rewrite <- Heq.
      change (map ?g ?k) with (g <$> k). apply list_elem_of_fmap. by exists z. }
    apply elem_of_cons in Hx as [->|Hx]; apply elem_of_cons in Hy as [->|Hy].
    + done.
    + exfalso. by apply (Hother y Hy).
    + exfalso. by apply (Hother x Hx).
    + by apply IH.
Qed.

Lemma elem_of_map_filter {A : Type} (f : A → nat) (p : A → bool) (l : list A) (i : nat) :
  i ∈ map f (List.filter p l) ↔ ∃ x, x ∈ l ∧ p x = true ∧ f x = i.
Proof.
  change (map ?g ?k) with (g <$> k). rewrite list_elem_of_fmap. split.
  - intros (x & -> & Hx). apply list_elem_of_In, filter_In in Hx as [Hx Hp].
    exists x. split; [by apply list_elem_of_In | done].
  - intros (x & Hx & Hp & <-). exists x. split; [done|].
    apply list_elem_of_In, filter_In. split; [by apply list_elem_of_In | done].
Qed.

Lemma elem_of_map_1 {A : Type} (f : A → nat) (l : list A) (x : A) :
  x ∈ l → f x ∈ map f l.
Proof.
  intros Hx. change (map ?g ?k) with (g <$> k). apply list_elem_of_fmap. by exists x.
Qed.

Section DayRows.

Variables (ss : list Session) (es : list TimeEntry) (cs : list Commit).
Hypothesis Hnd : NoDup (map s_idcounter ss ++ map te_idcounter es ++ map c_idcounter cs).

Lemma ids_apart :
  NoDup (map s_idcounter ss) ∧ NoDup (map te_idcounter es) ∧ NoDup (map c_idcounter cs) ∧
  (∀ i, i ∈ map s_idcounter ss → (i ∉ map te_idcounter es) ∧ (i ∉ map c_idcounter cs)) ∧
  (∀ i, i ∈ map te_idcounter es → i ∉ map c_idcounter cs).
Proof.
  apply NoDup_app in Hnd as (H1 & H12 & H23).
  apply NoDup_app in H23 as (H2 & H23 & H3).
  split; [done|]. split; [done|]. split; [done|]. split; [|done].
  intros i Hi. specialize (H12 i Hi). rewrite elem_of_app in H12. tauto.
Qed.

Lemma in_day_rows_session (g : string) (s : Session) :
  s ∈ ss →
  s_idcounter s ∈ map row_id (day_rows g ss es cs) ↔ s_date_group s = g.
Proof.
  intros Hs. destruct ids_apart as (H1 & H2 & H3 & H12 & H23).
  rewrite map_row_id_day_rows, !elem_of_app, !elem_of_map_filter. split.
  - intros [(s' & Hs' & Hp & Hid)|[(e & He & _ & Hid)|(c & Hc & _ & Hid)]].
    + apply same_group_true in Hp.
      by rewrite <- (NoDup_map_eq s_idcounter ss s' s H1 Hs' Hs Hid).
    + exfalso. destruct (H12 (s_idcounter s)) as [H _]; [by apply elem_of_map_1|].
      apply H. rewrite <- Hid. by apply elem_of_map_1.
    + exfalso. destruct (H12 (s_idcounter s)) as [_ H]; [by apply elem_of_map_1|].
      apply H. rewrite <- Hid. by apply elem_of_map_1.
  - intros Hg. left. exists s. split; [done|]. split; [by apply same_group_true | done].
Qed.

Lemma in_day_rows_entry (g : string) (e : TimeEntry) :
  e ∈ es →
  te_idcounter e ∈ map row_id (day_rows g ss es cs) ↔ te_date_group e = g.
Proof.
  intros He. destruct ids_apart as (H1 & H2 & H3 & H12 & H23).
  rewrite map_row_id_day_rows, !elem_of_app, !elem_of_map_filter. split.
  - intros [(s & Hs & _ & Hid)|[(e' & He' & Hp & Hid)|(c & Hc & _ & Hid)]].
    + exfalso. destruct (H12 (s_idcounter s)) as [H _]; [by apply elem_of_map_1|].
      apply H. rewrite Hid. by apply elem_of_map_1.
    + apply same_group_true in Hp.
      by rewrite <- (NoDup_map_eq te_idcounter es e' e H2 He' He Hid).
    + exfalso. apply (H23 (te_idcounter e)); [by apply elem_of_map_1|].
      rewrite <- Hid. by apply elem_of_map_1.
  - intros Hg. right. left. exists e. split; [done|].
    split; [by apply same_group_true | done].
Qed.

Lemma in_day_rows_commit (g : string) (c : Commit) :
  c ∈ cs →
  c_idcounter c ∈ map row_id (day_rows g ss es cs) ↔ c_date_group c = g.
Proof.
  intros Hc. destruct ids_apart as (H1 & H2 & H3 & H12 & H23).
  rewrite map_row_id_day_rows, !elem_of_app, !elem_of_map_filter. split.
  - intros [(s & Hs & _ & Hid)|[(e & He & _ & Hid)|(c' & Hc' & Hp & Hid)]].
    + exfalso. destruct (H12 (s_idcounter s)) as [_ H]; [by apply elem_of_map_1|].
      apply H. rewrite Hid. by apply elem_of_map_1.
    + exfalso. apply (H23 (te_idcounter e)); [by apply elem_of_map_1|].
      rewrite Hid. by apply elem_of_map_1.
    + apply same_group_true in Hp.
      by rewrite <- (NoDup_map_eq c_idcounter cs c' c H3 Hc' Hc Hid).
  - intros Hg. right. right. exists c. split; [done|].
    split; [by apply same_group_true | done].
Qed.

End DayRows.

(** C1, as amended.  A load returns, from any state.  The days that get a
    row collection are exactly the date groups of the loaded sessions.
    Every loaded session has exactly one row, in the collection of its own
    day and in no other.  A loaded time entry or commit has exactly one
    row, in the collection of its own day, when some loaded session has
    that date group; when none has, it has no row in any collection. *)
Theorem load_places_by_session_day (data : Data) (st : State) :
  let r := getSessions_done data st in
  let st' := state_of r in
  returned r = true ∧
  (∀ g, is_Some (chartItems st' !! g) ↔ g ∈ map s_date_group (sessions st')) ∧
  (∀ s g, s ∈ sessions st' →
     rows_in_day st' g (s_idcounter s) =
     if bool_decide (g = s_date_group s) then 1%nat else 0%nat) ∧
  (∀ e g, e ∈ timeEntries st' →
     rows_in_day st' g (te_idcounter e) =
     if bool_decide (g = te_date_group e) && bool_decide (g ∈ map s_date_group (sessions st'))
     then 1%nat else 0%nat) ∧
  (∀ c g, c ∈ log st' →
     rows_in_day st' g (c_idcounter c) =
     if bool_decide (g = c_date_group c) && bool_decide (g ∈ map s_date_group (sessions st'))
     then 1%nat else 0%nat).
Proof.
  intros r st'. subst r st'.
  destruct (getSessions_done_spec data st) as (charts' & -> & Hlook).
  cbn [state_of returned sessions timeEntries log chartItems set_chartItems set_sessions
       loaded_store].
  set (ss := loaded_sessions (idCounter st) data) in *.
  set (es := loaded_entries (idCounter st) data) in *.
  set (cs := loaded_log (idCounter st) data) in *.
  assert (NoDup (map s_idcounter ss ++ map te_idcounter es ++ map c_idcounter cs)) as Hnd.
  { pose proof (loaded_store_ids data st) as H.
    unfold all_ids, session_ids, entry_ids, commit_ids in H. cbn in H.
    fold ss es cs in H. rewrite H. apply NoDup_seq. }
  assert (map s_date_group (map sorted_windows ss) = map rs_date_group (d_sessions data))
    as Hgroups.
  { rewrite map_map. rewrite (map_ext _ s_date_group) by done.
    by apply number_from_map. }
  assert (∀ g, g ∈ map rs_date_group (d_sessions data) ↔ ∃ s, s ∈ ss ∧ s_date_group s = g)
    as Hgroup_iff.
  { intros g. rewrite <- (number_from_map (λ k raw, with_s_idcounter k (parseSession raw))
      s_date_group rs_date_group (idCounter st) (d_sessions data)) by done.
    fold (loaded_sessions (idCounter st) data). fold ss.
    change (map ?f ?l) with (f <$> l). rewrite list_elem_of_fmap.
    split; intros (s & H1 & H2); exists s; done. }
  assert (∀ g i, rows_in_day
      (set_chartItems charts' (set_sessions (map sorted_windows ss) (loaded_store data st))) g i
    = if bool_decide (g ∈ map rs_date_group (d_sessions data))
      then (if bool_decide (i ∈ map row_id (day_rows g ss es cs)) then 1%nat else 0%nat)
      else 0%nat) as Hrows.
  { intros g i. unfold rows_in_day. cbn [chartItems set_chartItems]. rewrite Hlook.
    case_bool_decide; [|done]. apply rows_with_NoDup. by apply day_rows_NoDup. }
  split; [done|]. split; [|split; [|split]].
  - intros g. rewrite Hlook, Hgroups.
    case_bool_decide; split; intros H'; first [done | by eexists | by destruct H'].
  - intros s' g Hs'. rewrite Hrows.
    change (map ?f ?l) with (f <$> l) in Hs'.
    apply list_elem_of_fmap in Hs' as (s & -> & Hs).
    change (s_idcounter (sorted_windows s)) with (s_idcounter s).
    change (s_date_group (sorted_windows s)) with (s_date_group s).
    destruct (decide (g = s_date_group s)) as [->|Hne].
    + rewrite (bool_decide_eq_true_2 (s_date_group s = s_date_group s)) by done.
      rewrite bool_decide_eq_true_2 by (apply Hgroup_iff; by exists s).
      by rewrite bool_decide_eq_true_2 by (by apply in_day_rows_session).
    + rewrite (bool_decide_eq_false_2 (g = s_date_group s)) by done.
      case_bool_decide; [|done].
      rewrite bool_decide_eq_false_2; [done|].
      intros Hin. apply in_day_rows_session in Hin; [congruence | done | done].
  - intros e g He. rewrite Hrows, Hgroups.
    destruct (decide (g ∈ map rs_date_group (d_sessions data))) as [Hg|Hg].
    + rewrite !(bool_decide_eq_true_2 _ Hg), andb_true_r.
      destruct (decide (g = te_date_group e)) as [->|Hne].
      * rewrite (bool_decide_eq_true_2 (te_date_group e = te_date_group e)) by done.
        by rewrite bool_decide_eq_true_2 by (by apply in_day_rows_entry).
      * rewrite (bool_decide_eq_false_2 (g = te_date_group e)) by done.
        rewrite bool_decide_eq_false_2; [done|].
        intros Hin. apply in_day_rows_entry in Hin; [congruence | done | done].
    + by rewrite !(bool_decide_eq_false_2 _ Hg), andb_false_r.
  - intros c g Hc. rewrite Hrows, Hgroups.
    destruct (decide (g ∈ map rs_date_group (d_sessions data))) as [Hg|Hg].
    + rewrite !(bool_decide_eq_true_2 _ Hg), andb_true_r.
      destruct (decide (g = c_date_group c)) as [->|Hne].
      * rewrite (bool_decide_eq_true_2 (c_date_group c = c_date_group c)) by done.
        by rewrite bool_decide_eq_true_2 by (by apply in_day_rows_commit).
      * rewrite (bool_decide_eq_false_2 (g = c_date_group c)) by done.
        rewrite bool_decide_eq_false_2; [done|].
        intros Hin. apply in_day_rows_commit in Hin; [congruence | done | done].
    + by rewrite !(bool_decide_eq_false_2 _ Hg), andb_false_r.
Qed.

(** ** Removing a row, and the answer to a delete *)

Lemma Timeline_remove_entry (dg : string) (i : nat) (st : State) (item : Row)
    (c : DataSet) (entry : TimeEntry) :
  find_row dg i st = Some item → chartItems st !! dg = Some c →
  is_entry_row item = true → entry_of_row item st = Some entry →
  Timeline_remove dg i st =
  Done (Some (Req_delete (deleteEntry (te_id entry))))
       (set_chartItems (<[dg := DataSet_remove i c]> (chartItems st)) st).
Proof.
  intros Hf Hc Hrow Hentry.
  destruct (find_row_elem _ _ _ _ _ Hf Hc) as [_ Hid].
  unfold Timeline_remove. unfold bind at 1. unfold get at 1. rewrite Hf, Hc.
  unfold onRemove. rewrite Hrow. unfold_handler. rewrite Hentry. cbn. by rewrite Hid.
Qed.

Lemma elem_of_DataSet_remove (i : nat) (c : DataSet) (r : Row) :
  r ∈ DataSet_remove i c ↔ r ∈ c ∧ row_id r ≠ i.
Proof.
  unfold DataSet_remove. rewrite !list_elem_of_In, filter_In.
  rewrite negb_true_iff, Nat.eqb_neq. done.
Qed.

(** C6, as amended.  When the user removes the row of an entry that is in
    the store, the page posts a delete for the entry's remote id and
    confirms the intent, and the widget drops that row from its day's
    collection: every other row of the day stays, in the same order, and
    every other day's collection and all three entity arrays are left as
    they were, the entry included.  The answer to the delete only raises an
    alert: it changes no entity array, no row collection and not the
    counter.  No event other than a load takes an entity out of the store:
    the sessions and commits keep their identities, and the entries keep
    theirs in front of those added. *)
Theorem delete_leaves_the_entry (st : State) :
  (∀ dg i item c entry,
     find_row dg i st = Some item → chartItems st !! dg = Some c →
     is_entry_row item = true → entry_of_row item st = Some entry →
     let r := Timeline_remove dg i st in
     let st' := state_of r in
     r = Done (Some (Req_delete {| del_id := te_id entry |})) st' ∧
     chartItems st' !! dg = Some (DataSet_remove i c) ∧
     DataSet_remove i c = List.filter (λ r, negb (Nat.eqb (row_id r) i)) c ∧
     (∀ r, r ∈ DataSet_remove i c ↔ r ∈ c ∧ row_id r ≠ i) ∧
     (∀ g, g ≠ dg → chartItems st' !! g = chartItems st !! g) ∧
     sessions st' = sessions st ∧ timeEntries st' = timeEntries st ∧ log st' = log st) ∧
  (∀ entryId data,
     let r := deleteEntry_done entryId data st in
     let st' := state_of r in
     returned r = true ∧
     sessions st' = sessions st ∧ timeEntries st' = timeEntries st ∧ log st' = log st ∧
     chartItems st' = chartItems st ∧ idCounter st' = idCounter st ∧
     alerts (page st') =
       alerts (page st) ++ ["deleted entry " +:+ pretty entryId +:+ ": " +:+ data]) ∧
  (∀ ev,
     match ev with
     | Loaded _ => True
     | _ =>
         session_ids (step st ev) = session_ids st ∧
         commit_ids (step st ev) = commit_ids st ∧
         ∃ added, entry_ids (step st ev) = entry_ids st ++ added
     end).
Proof.
  split; [|split].
  - intros dg i item c entry Hf Hc Hrow Hentry r st'. subst st' r.
    rewrite (Timeline_remove_entry dg i st item c entry) by done.
    cbn [state_of chartItems set_chartItems sessions timeEntries log].
    split; [done|]. split; [by rewrite lookup_insert_eq|]. split; [done|].
    split; [apply elem_of_DataSet_remove|].
    split; [|done]. intros g Hg. by rewrite lookup_insert_ne.
  - intros entryId data r st'. by subst r st'.
  - intros ev. pose proof (step_ids ev st) as H.
    destruct ev; cbn [ids_step] in H; try done;
      destruct H as (_ & Hs & Hl & He); (split; [done|]); (split; [done|]); by eexists.
Qed.

(** ** What a load keeps *)

(** A load replaces the sessions, the entries, the commits and the
    projects; the new issues are pushed behind the old ones. *)
Lemma getSessions_done_collections (data : Data) (st : State) :
  let st' := state_of (getSessions_done data st) in
  sessions st' = map sorted_windows (loaded_sessions (idCounter st) data) ∧
  timeEntries st' = loaded_entries (idCounter st) data ∧
  log st' = loaded_log (idCounter st) data ∧
  projects st' = d_projects data ∧
  issues st' = issues st ++ d_issues data.
Proof. by destruct (getSessions_done_spec data st) as (charts' & -> & _). Qed.

(** ** The description field *)

Lemma description_change_no_issues (st : State) :
  issues st = [] → description_change st = Done tt st.
Proof. intros H. unfold description_change. unfold_handler. by rewrite H. Qed.

(** With issues known and none of their keys in the text, the handler
    dereferences [undefined]. *)
Lemma description_change_no_match (st : State) :
  issues st ≠ [] →
  (∀ issue, issue ∈ issues st →
            String_indexOf (description_val (page st)) (key issue) = -1) →
  description_change st = Thrown st.
Proof.
  intros Hne Hno. unfold description_change. unfold_handler.
  destruct (issues st) as [|i0 l] eqn:Hi; [done|]. cbn [length Nat.ltb Nat.leb].
  assert (List.filter (λ issue, bool_decide
    (String_indexOf (description_val (page st)) (key issue) > -1)) (i0 :: l) = []) as ->; [|done].
  assert (∀ k : list Issue, (∀ issue, issue ∈ k →
      String_indexOf (description_val (page st)) (key issue) = -1) →
    List.filter (λ issue, bool_decide
      (String_indexOf (description_val (page st)) (key issue) > -1)) k = []) as Hgen.
  { induction k as [|x k IH]; intros Hk; [done|]. cbn.
    rewrite bool_decide_eq_false_2 by (rewrite Hk by left; lia).
    apply IH. intros issue Hin. apply Hk. by right. }
  by apply Hgen.
Qed.

(** With a key in the text, the project of the first issue whose key
    occurs goes to the selector, when it is truthy. *)
Lemma description_change_first_match (st : State) (first : Issue) (rest : list Issue) :
  List.filter (λ issue, bool_decide
    (String_indexOf (description_val (page st)) (key issue) > -1)) (issues st)
  = first :: rest →
  description_change st =
  if truthy (i_project first)
  then Done tt (set_page (set_project_val (i_project first) (page st)) st)
  else Done tt st.
Proof.
  intros Hf. unfold description_change. unfold_handler. rewrite Hf.
  destruct (issues st) as [|i0 l]; [done|]. cbn.
  by destruct (truthy (i_project first)).
Qed.

(** ** makeRow *)

Lemma makeRow_entry_same (e : TimeEntry) :
  makeRow (EEntry e) "entry" = Some (makeRow_entry e, EEntry e).
Proof. done. Qed.

Lemma makeRow_commit_same (c : Commit) :
  makeRow (ECommit c) "commit" = Some (makeRow_commit c, ECommit c).
Proof. done. Qed.

Lemma makeRow_session_sorts (s : Session) :
  makeRow (ESession s) "session" =
  Some (fst (makeRow_session s), ESession (sorted_windows s)).
Proof. done. Qed.

Lemma wcmp_total (a b : Window) : ¬ (wcmp a b ≤ 0) → wcmp b a ≤ 0.
Proof. unfold wcmp. repeat case_decide; lia. Qed.

Lemma sort_insert_Sorted {A : Type} (cmp : A → A → Z) (x : A) (l : list A) :
  (∀ a b, ¬ (cmp a b ≤ 0) → cmp b a ≤ 0) →
  Sorted (λ a b, cmp a b ≤ 0) l → Sorted (λ a b, cmp a b ≤ 0) (sort_insert cmp x l).
Proof.
  intros Htot. induction l as [|y l IH]; intros Hs; cbn.
  - by repeat constructor.
  - apply Sorted_inv in Hs as [Hs Hhd]. case_decide as Hc.
    + constructor; [by constructor | by constructor].
    + constructor; [by apply IH|].
      destruct l as [|z l]; cbn.
      * constructor. by apply Htot.
      * apply HdRel_inv in Hhd. case_decide; constructor; [by apply Htot | done].
Qed.

Lemma Array_sort_Sorted {A : Type} (cmp : A → A → Z) (l : list A) :
  (∀ a b, ¬ (cmp a b ≤ 0) → cmp b a ≤ 0) →
  Sorted (λ a b, cmp a b ≤ 0) (Array_sort cmp l).
Proof.
  intros Htot. induction l as [|x l IH]; cbn; [constructor|].
  by apply sort_insert_Sorted.
Qed.

Lemma Array_sort_of_Sorted {A : Type} (cmp : A → A → Z) (l : list A) :
  Sorted (λ a b, cmp a b ≤ 0) l → Array_sort cmp l = l.
Proof.
  induction l as [|x l IH]; intros Hs; [done|]. cbn.
  apply Sorted_inv in Hs as [Hs Hhd]. fold (Array_sort cmp l). rewrite IH by done.
  destruct l as [|y l]; [done|]. cbn. apply HdRel_inv in Hhd. by rewrite decide_True.
Qed.

(** Sorting an array that [sort] has sorted leaves it as it is. *)
Lemma Array_sort_idemp (l : list Window) :
  Array_sort wcmp (Array_sort wcmp l) = Array_sort wcmp l.
Proof. apply Array_sort_of_Sorted, Array_sort_Sorted, wcmp_total. Qed.

(** A second call on the session the first call left yields the same row
    and leaves that session as it is. *)
Lemma makeRow_session_again (s : Session) :
  makeRow_session (sorted_windows s) = (fst (makeRow_session s), sorted_windows s).
Proof.
  unfold sorted_windows, makeRow_session.
  cbn [fst snd s_extra_data windows category s_idcounter s_start_time s_end_time
       s_date_group s_exported].
  by rewrite Array_sort_idemp.
Qed.

(** In every state the page can reach, the local identities in the store
    are pairwise distinct and below the counter, every row carries an
    identity below the counter, and the day of every session has a row
    collection. *)
Theorem reachable_store_well_formed (evs : list Event) :
  let st := run evs initial_state in
  NoDup (all_ids st) ∧
  Forall (λ i, i < idCounter st)%nat (all_ids st) ∧
  (∀ g c, chartItems st !! g = Some c → Forall (λ r, row_id r < idCounter st)%nat c) ∧
  (∀ s, s ∈ sessions st → is_Some (chartItems st !! s_date_group s)).
Proof. intros st. by destruct (run_Inv evs) as [[? ?] [? ?]]. Qed.

(** ** Rows stay distinct and on the day of their entity *)

Lemma map_filter_map_same {A : Type} (idc : A → nat) (p : A → bool) (f : A → A)
    (l : list A) :
  (∀ x, p (f x) = p x) → (∀ x, idc (f x) = idc x) →
  map idc (List.filter p (map f l)) = map idc (List.filter p l).
Proof.
  intros Hp Hi. induction l as [|x l IH]; [done|]. cbn. rewrite Hp.
  destruct (p x); cbn; [by rewrite Hi, IH | done].
Qed.

Lemma owner_on_day_iff (st : State) (g : string) (i : nat) :
  owner_on_day st g i ↔
  i ∈ map s_idcounter (List.filter (λ s, same_group g (s_date_group s)) (sessions st)) ∨
  i ∈ map te_idcounter (List.filter (λ s, same_group g (te_date_group s)) (timeEntries st)) ∨
  i ∈ map c_idcounter (List.filter (λ s, same_group g (c_date_group s)) (log st)).
Proof. unfold owner_on_day. by rewrite map_row_id_day_rows, !elem_of_app. Qed.

Lemma owner_on_day_same (st st' : State) (g : string) (i : nat) :
  sessions st' = sessions st → log st' = log st →
  (∀ j, j ∈ map te_idcounter
              (List.filter (λ s, same_group g (te_date_group s)) (timeEntries st)) →
        j ∈ map te_idcounter
              (List.filter (λ s, same_group g (te_date_group s)) (timeEntries st'))) →
  owner_on_day st g i → owner_on_day st' g i.
Proof.
  intros Hs Hl He. rewrite !owner_on_day_iff, Hs, Hl. intros [H|[H|H]]; auto.
Qed.

Lemma DataSet_update_row_ids (u : RowUpdate) (c : DataSet) :
  map row_id (DataSet_update u c) =
  map row_id c ++ (if DataSet_has (u_id u) c then [] else [u_id u]).
Proof.
  rewrite DataSet_update_map, map_app, map_map. f_equal.
  - apply map_ext. intros r. by destruct (Nat.eqb (row_id r) (u_id u)).
  - by destruct (DataSet_has (u_id u) c).
Qed.

Lemma DataSet_update_NoDup (u : RowUpdate) (c : DataSet) :
  NoDup (map row_id c) → NoDup (map row_id (DataSet_update u c)).
Proof.
  intros Hnd. rewrite DataSet_update_row_ids.
  destruct (DataSet_has (u_id u) c) eqn:Hhas; [by rewrite app_nil_r|].
  apply DataSet_has_false in Hhas.
  apply NoDup_app. split; [done|]. split; [|apply NoDup_singleton].
  intros i Hi ->%list_elem_of_singleton. done.
Qed.

Lemma apply_updates_NoDup (newEntry : RawTimeEntry) (ids : list nat) (c : DataSet) :
  NoDup (map row_id c) → NoDup (map row_id (apply_updates newEntry ids c)).
Proof.
  revert c. induction ids as [|i ids IH]; intros c Hnd; [done|].
  unfold apply_updates in *. cbn [foldl]. by apply IH, DataSet_update_NoDup.
Qed.

Lemma DataSet_put_row_ids (item : Row) (c : DataSet) :
  map row_id (DataSet_put item c) = map row_id c.
Proof.
  unfold DataSet_put. rewrite map_map. apply map_ext. intros r.
  destruct (Nat.eqb_spec (row_id r) (row_id item)); done.
Qed.

Lemma RowsInv_set_page (p : Page) (st : State) : RowsInv st → RowsInv (set_page p st).
Proof. done. Qed.

Lemma createEntry_RowsInv (dg : string) (raw : RawTimeEntry) (st : State) :
  RowsInv st → RowsInv (state_of (createEntry dg raw st)).
Proof.
  intros Hinv. rewrite createEntry_eq. cbn zeta.
  set (new := created dg raw (idCounter st)).
  set (st1 := set_timeEntries _ _).
  assert (∀ g i, owner_on_day st g i → owner_on_day st1 g i) as Hmono.
  { intros g i. apply owner_on_day_same; [done | done|].
    intros j Hj. subst st1. cbn. rewrite List.filter_app, map_app, elem_of_app. by left. }
  assert (RowsInv st1) as H1.
  { intros g c Hc. destruct (Hinv g c Hc) as [Hnd Hown]. split; [done|].
    intros r Hr. by apply Hmono, Hown. }
  destruct (chartItems st !! dg) as [c|] eqn:Hc; [|done].
  destruct (DataSet_has (idCounter st) c) eqn:Hhas; [done|]. cbn [state_of].
  intros g c'. cbn [chartItems set_chartItems].
  destruct (decide (dg = g)) as [<-|Hne].
  - rewrite lookup_insert_eq. intros [= <-].
    destruct (Hinv dg c Hc) as [Hnd Hown]. split.
    + rewrite map_app. apply NoDup_app. split; [done|].
      split; [|apply NoDup_singleton].
      intros i Hi ->%list_elem_of_singleton.
      by apply DataSet_has_false in Hhas.
    + intros r [Hr| ->%list_elem_of_singleton]%elem_of_app.
      * apply (owner_on_day_same st1); [done | done | done |]. by apply Hmono, Hown.
      * apply owner_on_day_iff. right. left. cbn.
        rewrite List.filter_app, map_app, elem_of_app. right.
        cbn. subst new. cbn. rewrite same_group_refl. cbn. left.
  - rewrite lookup_insert_ne by done. intros Hc'.
    destruct (H1 g c' Hc') as [Hnd Hown]. split; [done|].
    intros r Hr. apply (owner_on_day_same st1); [done | done | done |]. by apply Hown.
Qed.

Lemma refresh_if_fields (newEntry : RawTimeEntry) (e : TimeEntry) :
  te_idcounter (refresh_if newEntry e) = te_idcounter e ∧
  te_date_group (refresh_if newEntry e) = te_date_group e ∧
  te_id (refresh_if newEntry e) = te_id e.
Proof. unfold refresh_if. by case_decide. Qed.

Lemma refreshEntry_day_ids (newEntry : RawTimeEntry) (st : State) (g : string) :
  map te_idcounter (List.filter (λ s, same_group g (te_date_group s))
                      (timeEntries (state_of (refreshEntry newEntry st)))) =
  map te_idcounter (List.filter (λ s, same_group g (te_date_group s)) (timeEntries st)).
Proof.
  destruct (refreshEntry_spec newEntry st) as (n & _ & _ & Hl & _). cbn zeta in Hl.
  rewrite Hl, List.filter_app, map_app.
  rewrite (map_filter_map_same te_idcounter _ (refresh_if newEntry)).
  - by rewrite <- map_app, <- List.filter_app, take_drop.
  - intros e. by destruct (refresh_if_fields newEntry e) as (_ & -> & _).
  - intros e. by destruct (refresh_if_fields newEntry e) as (-> & _).
Qed.

Lemma refreshEntry_RowsInv (newEntry : RawTimeEntry) (st : State) :
  RowsInv st → RowsInv (state_of (refreshEntry newEntry st)).
Proof.
  intros Hinv.
  destruct (refreshEntry_keeps newEntry st) as (Hs & Hl & _).
  destruct (refreshEntry_spec newEntry st) as (n & _ & _ & _ & Hlook & _).
  cbn zeta in *.
  intros g c' Hg. rewrite Hlook in Hg.
  destruct (chartItems st !! g) as [c|] eqn:Hgc; [|done]. cbn in Hg. injection Hg as <-.
  destruct (Hinv g c Hgc) as [Hnd Hown]. split; [by apply apply_updates_NoDup|].
  intros r Hr.
  assert (row_id r ∈ map row_id (apply_updates newEntry
    (matching_ids newEntry g (take n (timeEntries st))) c)) as Hin
    by (by apply elem_of_map_1).
  apply owner_on_day_iff. rewrite Hs, Hl, refreshEntry_day_ids.
  apply apply_updates_ids in Hin as [Hin|Hin].
  - apply owner_on_day_iff.
    change (map ?f ?l) with (f <$> l) in Hin.
    apply list_elem_of_fmap in Hin as (r0 & -> & Hr0). by apply Hown.
  - right. left.
    apply matching_ids_take, elem_of_matching_ids in Hin as (e & He & _ & Hdg & <-).
    apply elem_of_map_filter. exists e. split; [done|].
    split; [by apply same_group_true | done].
Qed.

Lemma getSessions_done_RowsInv (data : Data) (st : State) :
  RowsInv (state_of (getSessions_done data st)).
Proof.
  destruct (getSessions_done_spec data st) as (charts' & -> & Hlook).
  cbn [state_of]. intros g c. cbn [chartItems set_chartItems]. rewrite Hlook.
  case_bool_decide; [|done]. intros [= <-]. split.
  - apply day_rows_NoDup. pose proof (loaded_store_ids data st) as Hids.
    unfold all_ids, session_ids, entry_ids, commit_ids in Hids. cbn in Hids.
    rewrite Hids. apply NoDup_seq.
  - intros r Hr. unfold owner_on_day.
    cbn [sessions timeEntries log set_chartItems set_sessions loaded_store].
    rewrite map_row_id_day_rows.
    rewrite (map_filter_map_same s_idcounter _ sorted_windows) by done.
    rewrite <- map_row_id_day_rows. by apply elem_of_map_1.
Qed.

Theorem RowsInv_step (ev : Event) (st : State) : RowsInv st → RowsInv (step st ev).
Proof.
  intros Hinv. unfold step.
  destruct ev as [data|session data|data|ds e1 e2|eid data|text|dg i ns ne|dg i];
    cbn [handle].
  - apply getSessions_done_RowsInv.
  - by apply createEntry_RowsInv.
  - by apply refreshEntry_RowsInv.
  - unfold splitEntry_done. rewrite state_of_bind.
    pose proof (refreshEntry_RowsInv e1 st Hinv) as H1.
    destruct (refreshEntry e1 st) as [[] st1|st1]; cbn [state_of] in *; [|done].
    by apply createEntry_RowsInv.
  - by apply RowsInv_set_page.
  - rewrite state_of_bind. unfold modify.
    destruct (description_change_state
      (set_page (set_description_val text (page st)) st)) as (p & ->).
    by apply (RowsInv_set_page p st).
  - rewrite state_of_bind.
    assert (RowsInv (state_of (Timeline_move dg i ns ne st))) as H.
    { destruct (Timeline_move_state dg i ns ne st) as [->|(r & c & Hr & Hc & ->)]; [done|].
      intros g c'. cbn [chartItems set_chartItems].
      destruct (decide (dg = g)) as [<-|Hne].
      - rewrite lookup_insert_eq. intros [= <-]. rewrite DataSet_put_row_ids.
        destruct (Hinv dg c Hc) as [Hnd Hown]. split; [done|].
        intros r' Hr'. apply (elem_of_map_1 row_id) in Hr'.
        rewrite DataSet_put_row_ids in Hr'.
        change (map ?f ?l) with (f <$> l) in Hr'.
        apply list_elem_of_fmap in Hr' as (r0 & -> & Hr0). by apply Hown.
      - rewrite lookup_insert_ne by done. apply Hinv. }
    by destruct (Timeline_move dg i ns ne st).
  - rewrite state_of_bind.
    assert (RowsInv (state_of (Timeline_remove dg i st))) as H.
    { destruct (Timeline_remove_state dg i st) as [->|(r & c & Hr & Hc & ->)]; [done|].
      intros g c'. cbn [chartItems set_chartItems].
      destruct (decide (dg = g)) as [<-|Hne].
      - rewrite lookup_insert_eq. intros [= <-].
        destruct (Hinv dg c Hc) as [Hnd Hown]. split.
        + eapply sublist_NoDup; [exact Hnd|]. apply map_filter_sublist.
        + intros r' [Hr' _]%elem_of_DataSet_remove. by apply Hown.
      - rewrite lookup_insert_ne by done. apply Hinv. }
    by destruct (Timeline_remove dg i st).
Qed.

Lemma run_RowsInv (evs : list Event) : RowsInv (run evs initial_state).
Proof.
  assert (∀ st, RowsInv st → RowsInv (run evs st)) as H.
  { induction evs as [|ev evs IH]; intros st Hst; [done|].
    cbn. apply IH. by apply RowsInv_step. }
  apply H. intros g c Hc. cbn in Hc. by rewrite lookup_empty in Hc.
Qed.

(** In every state the page can reach, the rows of a day's collection have
    pairwise distinct identities, and each row carries the identity of a
    session, an entry or a commit that is in the store and whose date group
    is that day: no row outlives its entity's array or sits on another
    day. *)
Theorem rows_distinct_and_on_their_day (evs : list Event) :
  let st := run evs initial_state in
  (∀ g c, chartItems st !! g = Some c → NoDup (map row_id c)) ∧
  (∀ g c r, chartItems st !! g = Some c → r ∈ c →
     (∃ s, s ∈ sessions st ∧ s_date_group s = g ∧ s_idcounter s = row_id r) ∨
     (∃ e, e ∈ timeEntries st ∧ te_date_group e = g ∧ te_idcounter e = row_id r) ∨
     (∃ c0, c0 ∈ log st ∧ c_date_group c0 = g ∧ c_idcounter c0 = row_id r)).
Proof.
  intros st. pose proof (run_RowsInv evs) as Hinv. fold st in Hinv. split.
  - intros g c Hc. by destruct (Hinv g c Hc).
  - intros g c r Hc Hr. destruct (Hinv g c Hc) as [_ Hown].
    apply Hown, owner_on_day_iff in Hr.
    rewrite !elem_of_map_filter in Hr.
    destruct Hr as [(s & ? & ?%same_group_true & ?)|[(e & ? & ?%same_group_true & ?)|
      (c0 & ? & ?%same_group_true & ?)]]; [left|right; left|right; right]; eauto.
Qed.

(** ** A response that arrives twice, or after its row is gone *)

Lemma refreshed_if_in_id (newEntry : RawTimeEntry) (ids : list nat) (r : Row) :
  row_id (refreshed_if_in newEntry ids r) = row_id r.
Proof. unfold refreshed_if_in. by case_bool_decide. Qed.

Lemma refreshed_if_in_cons (newEntry : RawTimeEntry) (i : nat) (ids : list nat) (r : Row) :
  refreshed_if_in newEntry ids
    (if Nat.eqb (row_id r) i then apply_update (response_update newEntry i) r else r)
  = refreshed_if_in newEntry (i :: ids) r.
Proof.
  unfold refreshed_if_in.
  destruct (Nat.eqb_spec (row_id r) i) as [Heq|Hne]; cbn.
  - rewrite (bool_decide_eq_true_2 (row_id r ∈ i :: ids)) by (rewrite Heq; left).
    by case_bool_decide.
  - destruct (decide (row_id r ∈ ids)) as [Hin|Hin].
    + rewrite !bool_decide_eq_true_2; [done | by right | done].
    + rewrite !bool_decide_eq_false_2; [done | | done].
      intros [?|?]%elem_of_cons; done.
Qed.

(** The updates for [ids] overwrite the rows that carry one of the
    identities, in place, and append a bare row for each identity that had
    no row. *)
Lemma apply_updates_shape (newEntry : RawTimeEntry) (ids : list nat) (c : DataSet) :
  ∃ extra,
    apply_updates newEntry ids c = map (refreshed_if_in newEntry ids) c ++ extra ∧
    Forall (λ r, r = bare_row newEntry (row_id r) ∧ row_id r ∈ ids ∧
                 row_id r ∉ map row_id c) extra.
Proof.
  revert c. induction ids as [|i ids IH]; intros c.
  - exists []. split; [|done]. cbn. rewrite app_nil_r.
    rewrite (map_ext _ id); [by rewrite map_id|].
    intros r. unfold refreshed_if_in.
    by rewrite bool_decide_eq_false_2 by apply not_elem_of_nil.
  - unfold apply_updates in *. cbn [foldl].
    destruct (IH (DataSet_update (response_update newEntry i) c)) as (extra & Heq & Hex).
    rewrite Heq, DataSet_update_map, map_app, map_map, <- app_assoc.
    rewrite (map_ext _ (refreshed_if_in newEntry (i :: ids)))
      by (intros r; apply refreshed_if_in_cons).
    eexists. split; [done|]. apply Forall_app. split.
    + cbn [u_id response_update].
      destruct (DataSet_has i c) eqn:Hhas; [done|]. apply DataSet_has_false in Hhas.
      cbn. apply Forall_singleton. unfold refreshed_if_in. cbn.
      split; [by case_bool_decide|]. split; [|by case_bool_decide].
      case_bool_decide; cbn; left.
    + eapply Forall_impl; [exact Hex|]. cbn. intros r (H1 & H2 & H3).
      split; [done|]. split; [by right|].
      intros Hin. apply H3. rewrite DataSet_update_row_ids, elem_of_app. by left.
Qed.

Lemma apply_updates_covers (newEntry : RawTimeEntry) (ids : list nat) (c : DataSet) (i : nat) :
  i ∈ ids → i ∈ map row_id (apply_updates newEntry ids c).
Proof.
  revert c. induction ids as [|j ids IH]; intros c Hi; [by apply elem_of_nil in Hi|].
  unfold apply_updates in *. cbn [foldl].
  apply elem_of_cons in Hi as [->|Hi]; [|by apply IH].
  assert (j ∈ map row_id (DataSet_update (response_update newEntry j) c)) as Hj.
  { rewrite DataSet_update_row_ids, elem_of_app. cbn.
    destruct (DataSet_has j c) eqn:Hhas; [left; by apply DataSet_has_true | right; left]. }
  revert Hj. generalize (DataSet_update (response_update newEntry j) c). clear.
  induction ids as [|k ids IH]; intros c Hj; [done|]. cbn [foldl]. apply IH.
  rewrite DataSet_update_row_ids, elem_of_app. by left.
Qed.

(** Once every identity has its row, the updates add nothing. *)
Lemma apply_updates_again (newEntry : RawTimeEntry) (ids : list nat) (c : DataSet) :
  apply_updates newEntry ids (apply_updates newEntry ids c) = apply_updates newEntry ids c.
Proof.
  destruct (apply_updates_shape newEntry ids (apply_updates newEntry ids c))
    as (extra2 & Heq2 & Hex2).
  destruct extra2 as [|r extra2].
  - rewrite Heq2, app_nil_r.
    destruct (apply_updates_shape newEntry ids c) as (extra & -> & Hex).
    rewrite map_app, map_map. f_equal.
    + apply map_ext. intros r. unfold refreshed_if_in.
      destruct (decide (row_id r ∈ ids)) as [Hin|Hin].
      * rewrite (bool_decide_eq_true_2 _ Hin).
        by rewrite bool_decide_eq_true_2.
      * rewrite (bool_decide_eq_false_2 _ Hin).
        by rewrite bool_decide_eq_false_2.
    + rewrite <- (map_id extra) at 2. apply map_ext_in. intros r Hr.
      rewrite Forall_forall in Hex. destruct (Hex r) as (Hbare & Hin & _);
        [by apply list_elem_of_In|].
      unfold refreshed_if_in. rewrite bool_decide_eq_true_2 by done.
      by rewrite Hbare at 1 2.
  - exfalso. apply Forall_cons in Hex2 as [(_ & Hin & Hnot) _].
    by apply Hnot, apply_updates_covers.
Qed.

Lemma refresh_rest_ok_inv (newEntry : RawTimeEntry) (l l' : list TimeEntry)
    (charts charts' : gmap string DataSet) :
  refresh_rest newEntry charts l = (l', charts', true) →
  ∀ e, e ∈ l → te_id e = rt_id newEntry → is_Some (charts !! te_date_group e).
Proof.
  revert charts l' charts'. induction l as [|x l IH]; intros charts l' charts' Hrest e He Hid.
  - by apply elem_of_nil in He.
  - cbn in Hrest. destruct (decide (te_id x = rt_id newEntry)) as [Hx|Hx].
    + destruct (charts !! te_date_group x) as [cx|] eqn:Hcx; [|done].
      destruct (refresh_rest newEntry _ l) as [[l'' ch''] ok] eqn:Hr.
      injection Hrest as _ _ ->.
      apply elem_of_cons in He as [->|He]; [by eexists|].
      destruct (IH _ _ _ Hr e He Hid) as [c Hc].
      destruct (decide (te_date_group x = te_date_group e)) as [Heq|Hne].
      * rewrite <- Heq. by eexists.
      * rewrite lookup_insert_ne in Hc by done. by eexists.
    + destruct (refresh_rest newEntry charts l) as [[l'' ch''] ok] eqn:Hr.
      injection Hrest as _ _ ->.
      apply elem_of_cons in He as [->|He]; [done|]. by eapply IH.
Qed.

Lemma matching_ids_refreshed (newEntry : RawTimeEntry) (g : string) (l : list TimeEntry) :
  matching_ids newEntry g (map (refresh_if newEntry) l) = matching_ids newEntry g l.
Proof.
  unfold matching_ids. apply map_filter_map_same.
  - intros e. by destruct (refresh_if_fields newEntry e) as (_ & -> & ->).
  - intros e. by destruct (refresh_if_fields newEntry e) as (-> & _).
Qed.

Lemma refresh_if_idemp (newEntry : RawTimeEntry) (e : TimeEntry) :
  refresh_if newEntry (refresh_if newEntry e) = refresh_if newEntry e.
Proof. unfold refresh_if. repeat case_decide; done. Qed.

(** When [refreshEntry] has returned on a response, the same response once
    more changes nothing: the handler returns and leaves the state as it
    found it. *)
Theorem refreshEntry_twice (newEntry : RawTimeEntry) (st : State) :
  returned (refreshEntry newEntry st) = true →
  refreshEntry newEntry (state_of (refreshEntry newEntry st)) =
  Done tt (state_of (refreshEntry newEntry st)).
Proof.
  intros Hret.
  destruct (refreshEntry_spec newEntry st) as (n & _ & Hst & Hl & Hlook & Hok).
  cbn zeta in *. specialize (Hok Hret). subst n.
  rewrite firstn_all, drop_all, app_nil_r in Hl. rewrite firstn_all in Hlook.
  set (st1 := state_of (refreshEntry newEntry st)) in *.
  rewrite refreshEntry_eq.
  assert (∀ e, e ∈ timeEntries st1 → te_id e = rt_id newEntry →
               is_Some (chartItems st1 !! te_date_group e)) as Hcharts.
  { intros e He Hid. rewrite Hl in He.
    change (map ?f ?l) with (f <$> l) in He.
    apply list_elem_of_fmap in He as (e0 & -> & He0).
    destruct (refresh_if_fields newEntry e0) as (_ & Hdg & Hid0).
    rewrite Hdg, Hid0 in *. clear Hdg Hid0.
    assert (is_Some (chartItems st !! te_date_group e0)) as [c Hc].
    { rewrite refreshEntry_eq in Hret.
      destruct (refresh_rest newEntry (chartItems st) (timeEntries st))
        as [[l' charts'] ok] eqn:Hrest.
      destruct ok; [|done]. by eapply refresh_rest_ok_inv. }
    rewrite Hlook, Hc. by eexists. }
  pose proof (refresh_rest_ok newEntry (timeEntries st1) (chartItems st1) Hcharts) as Hok1.
  destruct (refresh_rest_spec newEntry (timeEntries st1) (chartItems st1))
    as (m & Hm & Hspec).
  destruct (refresh_rest newEntry (chartItems st1) (timeEntries st1)) as [[l' charts'] ok].
  cbn in Hok1. subst ok. destruct Hspec as (Hl' & Hlook' & Hm'). specialize (Hm' eq_refl).
  subst m. rewrite firstn_all, drop_all, app_nil_r in Hl'. rewrite firstn_all in Hlook'.
  assert (l' = timeEntries st1) as ->.
  { rewrite Hl', Hl, map_map. apply map_ext. intros e. apply refresh_if_idemp. }
  assert (charts' = chartItems st1) as ->.
  { apply map_eq. intros g. rewrite Hlook', Hl, matching_ids_refreshed, Hlook.
    destruct (chartItems st !! g) as [c|]; [|done]. cbn.
    by rewrite apply_updates_again. }
  by rewrite set_timeEntries_id, set_chartItems_id.
Qed.

(** For a response that [refreshEntry] takes to the end, a matching entry
    whose row is no longer in its day's collection (the user removed it)
    gets a row again, and that row has only the properties [update] was
    given: the identity, and the title, content, start and end of the
    response, without group, style class, type or editability. *)
Theorem late_response_readds_bare_row (newEntry : RawTimeEntry) (st : State)
    (e : TimeEntry) (c : DataSet) :
  returned (refreshEntry newEntry st) = true →
  e ∈ timeEntries st → te_id e = rt_id newEntry →
  chartItems st !! te_date_group e = Some c →
  te_idcounter e ∉ map row_id c →
  ∃ c', chartItems (state_of (refreshEntry newEntry st)) !! te_date_group e = Some c' ∧
        (length c < length c')%nat ∧
        bare_row newEntry (te_idcounter e) ∈ c' ∧
        group (bare_row newEntry (te_idcounter e)) = None ∧
        className (bare_row newEntry (te_idcounter e)) = None ∧
        editable (bare_row newEntry (te_idcounter e)) = None ∧
        content (bare_row newEntry (te_idcounter e)) = rt_description newEntry.
Proof.
  intros Hret He Hid Hc Hnot.
  destruct (refreshEntry_spec newEntry st) as (n & _ & _ & _ & Hlook & Hok).
  cbn zeta in *. specialize (Hok Hret). subst n. rewrite firstn_all in Hlook.
  rewrite Hlook, Hc. cbn. eexists. split; [done|].
  set (ids := matching_ids newEntry (te_date_group e) (timeEntries st)).
  assert (te_idcounter e ∈ ids) as Hin.
  { apply elem_of_matching_ids. by exists e. }
  pose proof (apply_updates_covers newEntry ids c _ Hin) as Hcov.
  destruct (apply_updates_shape newEntry ids c) as (extra & Heq & Hex).
  rewrite Heq in *. rewrite map_app, map_map, elem_of_app in Hcov.
  destruct Hcov as [Hcov|Hcov].
  { exfalso. apply Hnot.
    rewrite (map_ext _ row_id) in Hcov by (intros r; apply refreshed_if_in_id). done. }
  change (map ?f ?l) with (f <$> l) in Hcov.
  apply list_elem_of_fmap in Hcov as (r & Hr & Hrin).
  rewrite Forall_forall in Hex. destruct (Hex r Hrin) as (Hbare & _ & _).
  rewrite <- Hr in Hbare.
  split; [|split; [|done]].
  - rewrite length_app, length_map. destruct extra; [by apply elem_of_nil in Hrin|]. cbn. lia.
  - apply elem_of_app. right. by rewrite <- Hbare.
Qed.

(** ** createEntry for a day without rows *)

Lemma rows_with_fresh (n : nat) (c : DataSet) :
  Forall (λ r, row_id r < n)%nat c → rows_with n c = 0%nat.
Proof.
  unfold rows_with. induction 1 as [|r c Hr Hc IH]; [done|]. cbn.
  destruct (Nat.eqb_spec (row_id r) n); [lia | done].
Qed.

(** In any state the page can reach, [createEntry] for a date group that
    has no row collection throws, and by then the entry is in the store
    and the counter has moved on: the entry holds an identity and has no
    row in any collection; the row collections are as they were. *)
Theorem createEntry_without_day (evs : list Event) (dg : string) (raw : RawTimeEntry) :
  let st := run evs initial_state in
  chartItems st !! dg = None →
  let new := created dg raw (idCounter st) in
  let st' := state_of (createEntry dg raw st) in
  createEntry dg raw st =
    Thrown (set_timeEntries (timeEntries st ++ [new]) (set_idCounter (S (idCounter st)) st)) ∧
  chartItems st' = chartItems st ∧
  (∀ g, rows_in_day st' g (te_idcounter new) = 0%nat).
Proof.
  intros st Hnone new st'. subst st'. rewrite createEntry_eq. cbn zeta. rewrite Hnone.
  split; [done|]. split; [done|]. intros g. unfold rows_in_day. cbn.
  destruct (chartItems st !! g) as [c|] eqn:Hc; [|done].
  apply rows_with_fresh. destruct (run_Inv evs) as [_ [Hrows _]]. by eapply Hrows.
Qed.

(** ** The export button on an entry *)

(** With an entry selected, the export button posts a request that carries
    the entry's remote id, and the reconciliation of any answer to it hands
    out no identity and adds no entity: the entries keep their number and
    their identities, the sessions and commits are untouched. *)
Theorem export_of_entry_is_update (st : State) (item : TimeEntry) (data : RawTimeEntry) :
  global_selected st = Some (Sel_entry item) →
  let post := updateEntry (te_id item) (te_date_group item) st in
  let st' := state_of (updateEntry_done data st) in
  btn_export_click st = Done (Some (Req_update post)) st ∧
  ex_id post = Some (te_id item) ∧
  idCounter st' = idCounter st ∧
  entry_ids st' = entry_ids st ∧
  length (timeEntries st') = length (timeEntries st) ∧
  sessions st' = sessions st ∧ log st' = log st.
Proof.
  intros Hsel post st'. split.
  { unfold btn_export_click. unfold_handler. by rewrite Hsel. }
  split; [done|]. subst st'. unfold updateEntry_done.
  destruct (refreshEntry_keeps data st) as (Hs & Hl & Hc & _ & _ & _ & He & _).
  split; [done|]. split; [done|]. split; [|done].
  apply (f_equal length) in He. by rewrite !length_map in He.
Qed.

(** ** Intents on the timeline *)

Lemma is_entry_row_moved (ns ne : Date) (r : Row) :
  is_entry_row (moved ns ne r) = is_entry_row r.
Proof. done. Qed.

(** For a row that is not in the group "entry", a move or remove intent
    posts nothing and is confirmed all the same: the widget drops the row,
    or writes it back with the dragged span, and the store is untouched. *)
Theorem intents_on_other_rows (dg : string) (i : nat) (st : State) (item : Row)
    (c : DataSet) :
  find_row dg i st = Some item → chartItems st !! dg = Some c →
  is_entry_row item = false →
  Timeline_remove dg i st =
    Done None (set_chartItems (<[dg := DataSet_remove i c]> (chartItems st)) st) ∧
  (∀ ns ne, Timeline_move dg i ns ne st =
     Done None (set_chartItems (<[dg := DataSet_put (moved ns ne item) c]> (chartItems st)) st)).
Proof.
  intros Hf Hc Hrow. destruct (find_row_elem _ _ _ _ _ Hf Hc) as [_ Hid]. split.
  - unfold Timeline_remove. unfold bind at 1. unfold get at 1. rewrite Hf, Hc.
    unfold onRemove. rewrite Hrow. unfold_handler. by rewrite Hid.
  - intros ns ne. unfold Timeline_move. unfold bind at 1. unfold get at 1. rewrite Hf, Hc.
    unfold onMove. rewrite is_entry_row_moved, Hrow. by unfold_handler.
Qed.

Lemma entry_of_row_moved (ns ne : Date) (r : Row) (st : State) :
  entry_of_row (moved ns ne r) st = entry_of_row r st.
Proof. done. Qed.

(** Dragging the row of an entry that is in the store posts an update with
    the entry's remote id, the dragged span and the text of the description
    field, and no project; the widget writes the dragged span to the row at
    once, every other row staying as it was, while the entry in the store
    keeps its times until an answer arrives. *)
Theorem move_is_optimistic (dg : string) (i : nat) (ns ne : Date) (st : State)
    (r : Row) (c : DataSet) (entry : TimeEntry) (old_end : Date) :
  find_row dg i st = Some r → chartItems st !! dg = Some c →
  is_entry_row r = true → entry_of_row r st = Some entry → end_ r = Some old_end →
  let res := Timeline_move dg i ns ne st in
  res = Done (Some (Req_update
                {| ex_id := Some (te_id entry);
                   ex_start_time := getTime ns;
                   ex_end_time := getTime ne;
                   ex_name := description_val (page st);
                   ex_project := None |}))
             (set_chartItems (<[dg := DataSet_put (moved ns ne r) c]> (chartItems st)) st) ∧
  timeEntries (state_of res) = timeEntries st ∧
  (∀ k r0, c !! k = Some r0 →
     DataSet_put (moved ns ne r) c !! k =
     Some (if Nat.eqb (row_id r0) i then moved ns ne r else r0)) ∧
  start (moved ns ne r) = Some ns ∧ end_ (moved ns ne r) = Some ne.
Proof.
  intros Hf Hc Hrow Hentry Hend res.
  destruct (find_row_elem _ _ _ _ _ Hf Hc) as [_ Hid].
  assert (res = Done (Some (Req_update
                {| ex_id := Some (te_id entry);
                   ex_start_time := getTime ns;
                   ex_end_time := getTime ne;
                   ex_name := description_val (page st);
                   ex_project := None |}))
             (set_chartItems (<[dg := DataSet_put (moved ns ne r) c]> (chartItems st)) st))
    as Hres.
  { subst res. unfold Timeline_move. unfold bind at 1. unfold get at 1. rewrite Hf, Hc.
    unfold onMove. rewrite is_entry_row_moved, Hrow. unfold_handler.
    rewrite entry_of_row_moved, Hentry. cbn. by rewrite Hend. }
  split; [done|]. rewrite Hres. split; [done|]. split; [|by cbn; rewrite Hend].
  intros k r0 Hk. unfold DataSet_put.
  change (map ?f ?l) with (f <$> l). rewrite list_lookup_fmap, Hk. cbn. by rewrite Hid.
Qed.

(** ** What a load leaves on the page *)

(** A load of data whose project and issue texts hold no markup resets
    neither the counter, the selection nor the form: the counter moves on
    by the number of loaded sessions, entries and commits; the two
    selection globals, the description field and the alerts keep their
    values; the project selector and the issue list keep their options and
    gain one per loaded project and per loaded issue.  The project that is
    selected stays selected; when none is selected and a project is
    loaded, the first option of the selector becomes the selected one, and
    a load without projects leaves the selector as it is. *)
Theorem load_keeps_selection_and_options (data : Data) (st : State) :
  verbatim_options data = true →
  let st' := state_of (getSessions_done data st) in
  let added :=
    map (λ project, (p_id project, p_client_name project +:+ " - " +:+ p_name project))
      (d_projects data) in
  idCounter st' = (idCounter st + length (d_sessions data)
                   + length (d_time_entries data) + length (d_log data))%nat ∧
  global_selected st' = global_selected st ∧
  global_selected_last st' = global_selected_last st ∧
  description_val (page st') = description_val (page st) ∧
  alerts (page st') = alerts (page st) ∧
  project_options (page st') = project_options (page st) ++ added ∧
  issue_options (page st') =
    issue_options (page st) ++
    map (λ issue, key issue +:+ " " +:+ summary issue) (d_issues data) ∧
  (∀ v, project_val (page st) = Some v → project_val (page st') = Some v) ∧
  (project_val (page st) = None → d_projects data ≠ [] →
   project_val (page st') = fst <$> head (project_options (page st) ++ added)) ∧
  (d_projects data = [] → project_val (page st') = project_val (page st)).
Proof.
  intros _ st' added. subst st' added.
  destruct (getSessions_done_spec data st) as (charts' & -> & _).
  cbn [state_of set_chartItems set_sessions loaded_store idCounter global_selected
       global_selected_last page loaded_page description_val alerts project_options
       issue_options project_val].
  repeat (split; [done|]). split; [|split].
  - intros v ->. by destruct (d_projects data).
  - intros -> Hne. by destruct (d_projects data).
  - by intros ->.
Qed.

(** ** The first issue whose key occurs decides *)

(** When the key of a known issue occurs in the description and the key of
    no issue loaded before it does, the handler returns and that issue
    decides alone, whatever the issues loaded after it are.  When its
    project is absent or 0 the state is left as it is.  Otherwise the
    options of the selector stay, and the project becomes the selected
    value when the selector has an option for it; when it has none, no
    option is selected afterwards. *)
Theorem description_first_match_decides (st : State) (before after : list Issue)
    (first : Issue) :
  issues st = before ++ first :: after →
  Forall (λ issue, ¬ String_indexOf (description_val (page st)) (key issue) > -1) before →
  String_indexOf (description_val (page st)) (key first) > -1 →
  let r := description_change st in
  returned r = true ∧
  (truthy (i_project first) = false → state_of r = st) ∧
  (∀ n, i_project first = Some n → n ≠ 0 →
     project_options (page (state_of r)) = project_options (page st) ∧
     (n ∈ map fst (project_options (page st)) → project_val (page (state_of r)) = Some n) ∧
     (n ∉ map fst (project_options (page st)) → project_val (page (state_of r)) = None)).
Proof.
  intros Hi Hbefore Hfirst r.
  assert (r = if truthy (i_project first)
              then Done tt (set_page (set_project_val (i_project first) (page st)) st)
              else Done tt st) as ->.
  { apply (description_change_first_match st first
             (List.filter (λ issue, bool_decide
                (String_indexOf (description_val (page st)) (key issue) > -1)) after)).
    rewrite Hi, List.filter_app. cbn [List.filter]. rewrite bool_decide_eq_true_2 by done.
    replace (List.filter _ before) with (@nil Issue); [done|].
    symmetry. clear Hi. induction Hbefore as [|i l Hi Hl IH]; [done|].
    cbn [List.filter]. by rewrite bool_decide_eq_false_2. }
  split; [by destruct (truthy _)|]. split; [by intros ->|].
  intros n Hn Hn0. rewrite Hn.
  assert (truthy (Some n) = true) as ->.
  { cbn. by apply negb_true_iff, Z.eqb_neq. }
  cbn [state_of page set_page set_project_val project_options project_val].
  split; [done|]. split; intros Hopt.
  - by rewrite bool_decide_eq_true_2.
  - by rewrite bool_decide_eq_false_2.
Qed.

(** ** From the loaded data to the request *)

Lemma number_from_lookup {A B : Type} (f : nat → A → B) (n k : nat) (l : list A) :
  number_from f n l !! k = f (n + k)%nat <$> l !! k.
Proof.
  revert n k. induction l as [|x l IH]; intros n [|k]; cbn; try done.
  - by rewrite Nat.add_0_r.
  - rewrite IH. by replace (S n + k)%nat with (n + S k)%nat by lia.
Qed.

Lemma TimeClip_in_range (n : Z) :
  Z.abs n ≤ 8640000000000000 → getTime (TimeClip n) = Some n.
Proof. intros H. unfold TimeClip. by rewrite decide_True. Qed.

(** The sessions of the store come in the order of the loaded data, and a
    session loaded with numeric times within the range of a date is
    exported with exactly those times: the create request for the [k]-th
    loaded session carries the start and end milliseconds the service
    sent. *)
Theorem loaded_session_exports_its_times (data : Data) (st : State) (k : nat)
    (raw : RawSession) (n m : Z) :
  d_sessions data !! k = Some raw →
  rs_start_time raw = JsNum n → rs_end_time raw = JsNum m →
  Z.abs n ≤ 8640000000000000 → Z.abs m ≤ 8640000000000000 →
  let st' := state_of (getSessions_done data st) in
  ∃ s, sessions st' !! k = Some s ∧
       s_idcounter s = (idCounter st + k)%nat ∧
       s_date_group s = rs_date_group raw ∧
       ex_id (exportSession s (s_end_time s) st') = None ∧
       ex_start_time (exportSession s (s_end_time s) st') = Some n ∧
       ex_end_time (exportSession s (s_end_time s) st') = Some m.
Proof.
  intros Hk Hn Hm Hnr Hmr st'. subst st'.
  destruct (getSessions_done_spec data st) as (charts' & -> & _).
  cbn [state_of sessions set_chartItems set_sessions].
  change (map ?f ?l) with (f <$> l). rewrite list_lookup_fmap.
  unfold loaded_sessions. rewrite number_from_lookup, Hk. cbn [fmap option_fmap option_map].
  eexists. split; [done|]. cbn. unfold parseTime, new_Date. rewrite Hn, Hm.
  by rewrite !TimeClip_in_range.
Qed.

End WithDateParse.

(** * The statements on the sample data *)

(** C1, counterexample.  After a load of the sample data the entry of
    2018-05-03, a day with no session, is in the store and has no row in
    any day's collection. *)
Lemma entry_on_a_day_without_session_has_no_row :
  ∃ e, e ∈ timeEntries (run no_parse [Loaded sample_data] initial_state) ∧
       te_date_group e = "2018-05-03" ∧
       ∀ g, rows_in_day (run no_parse [Loaded sample_data] initial_state) g
              (te_idcounter e) = 0%nat.
Proof.
  exists (with_te_idcounter 2 (parseTimeEntry no_parse sample_entry_next_day)).
  split; [vm_compute; apply list_elem_of_further, list_elem_of_here|].
  split; [done|]. intros g. unfold rows_in_day.
  assert (∃ c, chartItems (run no_parse [Loaded sample_data] initial_state)
               = {["2018-05-02" := c]} ∧ rows_with 2 c = 0%nat) as (c & -> & Hc).
  { eexists. split; vm_compute; reflexivity. }
  cbn [te_idcounter with_te_idcounter].
  destruct (decide (g = "2018-05-02")) as [->|Hne].
  - by rewrite lookup_singleton_eq.
  - by rewrite lookup_singleton_ne.
Qed.



(** C4, witness: the sample session is exported after a load of the sample
    data. *)
Lemma exportSession_creates_one_entry_witness :
  stored_session ∈ sessions (run no_parse [Loaded sample_data] initial_state) ∧
  ∃ c, chartItems (run no_parse [Loaded sample_data] initial_state) !! "2018-05-02" = Some c ∧
       returned (exportSession_done no_parse stored_session sample_created
                   (run no_parse [Loaded sample_data] initial_state)) = true ∧
       length (c ++ [makeRow_entry (created no_parse "2018-05-02" sample_created 4)])
       = S (length c).
Proof.
  assert (stored_session ∈ sessions (run no_parse [Loaded sample_data] initial_state)) as H
    by (vm_compute; apply list_elem_of_here).
  split; [exact H|].
  destruct (exportSession_creates_one_entry no_parse [Loaded sample_data] stored_session
              stored_session sample_created H) as (_ & _ & c & Hc & Hrun & Hlen & _).
  exists c. split; [exact Hc|]. split; [by rewrite Hrun | exact Hlen].
Defined.

(** C5, counterexample.  The entry "standup" is moved; the service answers
    with the description "retro"; the content of the entry's row changes
    from "standup" to "retro". *)
Lemma refreshEntry_changes_content :
  (find_row "2018-05-02" 1 (run no_parse [Loaded sample_data] initial_state) ≫= content
   = Some "standup") ∧
  (find_row "2018-05-02" 1
     (run no_parse [Loaded sample_data; Update_done sample_response] initial_state) ≫= content
   = Some "retro").
Proof. split; vm_compute; reflexivity. Qed.

(** C6, counterexample.  The row of the entry with remote id 7 is removed
    and the service confirms the delete: the row is gone, the alert is
    raised, and the entry is still in the store. *)
Lemma deleted_entry_stays_in_store :
  let st' := run no_parse
    [Loaded sample_data; Row_removed "2018-05-02" 1; Delete_done 7 "ok"] initial_state in
  find_row "2018-05-02" 1 st' = None ∧
  alerts (page st') = ["deleted entry 7: ok"] ∧
  stored_entry ∈ timeEntries st'.
Proof.
  cbv zeta. split; [vm_compute; reflexivity|]. split; [vm_compute; reflexivity|].
  vm_compute. apply list_elem_of_here.
Qed.

(** C7, evaluated.  The sample data is loaded twice: the
    sessions, entries and commits of the first load are gone, and the issue
    of the first load is still there, in front of the issue of the
    second. *)
Lemma reload_keeps_old_issues :
  let st' := run no_parse [Loaded sample_data; Loaded sample_data] initial_state in
  issues st' = [sample_issue; sample_issue] ∧
  length (sessions st') = 1%nat ∧ length (timeEntries st') = 2%nat ∧
  length (log st') = 1%nat ∧ all_ids st' = [4; 5; 6; 7]%nat.
Proof. cbv zeta. repeat split; vm_compute; reflexivity. Qed.

(** C8, evaluated.  With the issue TT-1 known, typing a
    description that contains no issue key makes the handler throw; the
    selector keeps its value.  Typing one that contains the key makes the
    handler return. *)
Lemma description_change_throws_without_match :
  let st := run no_parse [Loaded sample_data] initial_state in
  returned (handle no_parse (Description_typed "standup notes") st) = false ∧
  project_val (page (step no_parse st (Description_typed "standup notes")))
    = project_val (page st) ∧
  returned (handle no_parse (Description_typed "TT-1 standup") st) = true.
Proof. cbv zeta. repeat split; vm_compute; reflexivity. Qed.

(** C9, evaluated.  [makeRow] on a session whose windows last 60,
    300 and 120 seconds returns the row and leaves the session with its
    windows in the order 300, 120, 60. *)
Lemma makeRow_session_reorders_windows :
  map w_time (windows (s_extra_data unsorted_session)) = [60; 300; 120] ∧
  ∃ r obj', makeRow (ESession unsorted_session) "session" = Some (r, ESession obj') ∧
            map w_time (windows (s_extra_data obj')) = [300; 120; 60] ∧
            title r = Some "300s - terminal<br />120s - browser<br />60s - editor".
Proof.
  split; [reflexivity|]. eexists _, _. split; [reflexivity|].
  split; vm_compute; reflexivity.
Qed.

(** C10, counterexample.  Two loaded entries carry the remote id 7; the
    first is on a day without a session.  [refreshEntry] on a response with
    id 7 refreshes the first, throws at its missing row collection, and
    leaves the second as it was, with its old end time and description. *)
Lemma refreshEntry_stops_at_missing_day :
  let st := run no_parse [Loaded sample_data_twins] initial_state in
  let r := refreshEntry no_parse sample_response st in
  returned r = false ∧
  map te_id (timeEntries st) = [7; 7] ∧ rt_id sample_response = 7 ∧
  timeEntries (state_of r) !! 1%nat = timeEntries st !! 1%nat ∧
  map te_description (timeEntries (state_of r)) = [Some "retro"; Some "standup"].
Proof. cbv zeta. repeat split; vm_compute; reflexivity. Qed.

(** C6, witness: the row of the sample entry is removed after a load of
    the sample data; the entries of the store are the same afterwards. *)
Lemma delete_leaves_the_entry_witness :
  find_row "2018-05-02" 1 (run no_parse [Loaded sample_data] initial_state)
    = Some (makeRow_entry stored_entry) ∧
  entry_of_row (makeRow_entry stored_entry) (run no_parse [Loaded sample_data] initial_state)
    = Some stored_entry ∧
  timeEntries (state_of (Timeline_remove "2018-05-02" 1
                           (run no_parse [Loaded sample_data] initial_state)))
    = timeEntries (run no_parse [Loaded sample_data] initial_state).
Proof.
  assert (find_row "2018-05-02" 1 (run no_parse [Loaded sample_data] initial_state)
          = Some (makeRow_entry stored_entry)) as Hf by (vm_compute; reflexivity).
  assert (entry_of_row (makeRow_entry stored_entry)
            (run no_parse [Loaded sample_data] initial_state) = Some stored_entry) as He
    by (vm_compute; reflexivity).
  assert (∃ c, chartItems (run no_parse [Loaded sample_data] initial_state) !! "2018-05-02"
               = Some c) as [c Hc] by (eexists; vm_compute; reflexivity).
  split; [exact Hf|]. split; [exact He|].
  destruct (proj1 (delete_leaves_the_entry no_parse
                     (run no_parse [Loaded sample_data] initial_state))
              "2018-05-02" 1%nat (makeRow_entry stored_entry) c stored_entry
              Hf Hc eq_refl He) as (_ & _ & _ & _ & _ & _ & Hentries & _).
  exact Hentries.
Defined.

(** C10, witness: after a load of the sample data the only entry with
    remote id 7 is on the session's day; [refreshEntry] returns and the
    entry takes the description of the response. *)
Lemma refreshEntry_no_match_or_all_witness :
  (∀ e, e ∈ timeEntries (run no_parse [Loaded sample_data] initial_state) →
        te_id e = rt_id sample_response →
        is_Some (chartItems (run no_parse [Loaded sample_data] initial_state)
                   !! te_date_group e)) ∧
  returned (refreshEntry no_parse sample_response
              (run no_parse [Loaded sample_data] initial_state)) = true ∧
  map te_description
    (timeEntries (state_of (refreshEntry no_parse sample_response
                              (run no_parse [Loaded sample_data] initial_state))))
  = [Some "retro"; Some "review"].
Proof.
  assert (∀ e, e ∈ timeEntries (run no_parse [Loaded sample_data] initial_state) →
               te_id e = rt_id sample_response →
               is_Some (chartItems (run no_parse [Loaded sample_data] initial_state)
                          !! te_date_group e)) as H.
  { intros e He Hid.
    assert (timeEntries (run no_parse [Loaded sample_data] initial_state)
            = [stored_entry;
               with_te_idcounter 2 (parseTimeEntry no_parse sample_entry_next_day)])
      as Hl by (vm_compute; reflexivity).
    rewrite Hl in He. apply elem_of_cons in He as [->|He].
    - eexists. vm_compute. reflexivity.
    - apply list_elem_of_singleton in He. subst e. vm_compute in Hid. discriminate Hid. }
  split; [exact H|].
  destruct (proj2 (refreshEntry_no_match_or_all no_parse sample_response
                     (run no_parse [Loaded sample_data] initial_state)) H)
    as (Hret & Hl & _).
  split; [exact Hret|]. rewrite Hl. vm_compute. reflexivity.
Defined.

(** ** Further runs on the sample data *)

(** The answer for the sample entry, reconciled twice after a load. *)
Lemma refreshEntry_twice_witness :
  returned (refreshEntry no_parse sample_response (run no_parse [Loaded sample_data] initial_state)) = true ∧
  refreshEntry no_parse sample_response
    (state_of (refreshEntry no_parse sample_response (run no_parse [Loaded sample_data] initial_state)))
  = Done tt (state_of (refreshEntry no_parse sample_response (run no_parse [Loaded sample_data] initial_state))).
Proof.
  assert (returned (refreshEntry no_parse sample_response (run no_parse [Loaded sample_data] initial_state)) = true) as H
    by (vm_compute; reflexivity).
  split; [exact H|]. exact (refreshEntry_twice no_parse sample_response (run no_parse [Loaded sample_data] initial_state) H).
Defined.

(** The row of the sample entry is removed on the timeline, and then the
    answer for the entry arrives: the day has a row with identity 1
    again, without a group. *)
Lemma late_response_readds_bare_row_witness :
  find_row "2018-05-02" 1
    (run no_parse [Loaded sample_data; Row_removed "2018-05-02" 1] initial_state) = None ∧
  ∃ c', chartItems (state_of (refreshEntry no_parse sample_response
          (run no_parse [Loaded sample_data; Row_removed "2018-05-02" 1] initial_state)))
          !! "2018-05-02" = Some c' ∧
        bare_row no_parse sample_response 1 ∈ c' ∧
        group (bare_row no_parse sample_response 1) = None.
Proof.
  split; [vm_compute; reflexivity|].
  destruct (late_response_readds_bare_row no_parse sample_response
              (run no_parse [Loaded sample_data; Row_removed "2018-05-02" 1] initial_state)
              stored_entry
              (default [] (chartItems
                 (run no_parse [Loaded sample_data; Row_removed "2018-05-02" 1] initial_state)
                 !! "2018-05-02")))
    as (c' & Hc' & _ & Hin & Hg & _).
  - vm_compute. reflexivity.
  - vm_compute. apply list_elem_of_here.
  - reflexivity.
  - vm_compute. reflexivity.
  - apply (bool_decide_eq_false_1 (te_idcounter stored_entry ∈ _)). vm_compute. reflexivity.
  - exists c'. split; [exact Hc'|]. split; [exact Hin | exact Hg].
Defined.

(** After a load of the sample data, an entry is created for a day that
    has no row collection. *)
Lemma createEntry_without_day_witness :
  chartItems (run no_parse [Loaded sample_data] initial_state) !! "2018-05-04" = None ∧
  returned (createEntry no_parse "2018-05-04" sample_created (run no_parse [Loaded sample_data] initial_state)) = false ∧
  idCounter (state_of (createEntry no_parse "2018-05-04" sample_created (run no_parse [Loaded sample_data] initial_state))) = 5%nat ∧
  rows_in_day (state_of (createEntry no_parse "2018-05-04" sample_created (run no_parse [Loaded sample_data] initial_state)))
    "2018-05-02" 4 = 0%nat.
Proof.
  assert (chartItems (run no_parse [Loaded sample_data] initial_state) !! "2018-05-04" = None) as H by (vm_compute; reflexivity).
  split; [exact H|].
  destruct (createEntry_without_day no_parse [Loaded sample_data] "2018-05-04"
              sample_created H) as (Heq & _ & Hrows).
  split; [by rewrite Heq|]. split; [by rewrite Heq|]. exact (Hrows "2018-05-02").
Defined.

(** The sample entry is selected after a load, and the export button is
    pressed. *)
Lemma export_of_entry_is_update_witness :
  global_selected (set_selection (Some (Sel_entry stored_entry)) None (run no_parse [Loaded sample_data] initial_state))
    = Some (Sel_entry stored_entry) ∧
  btn_export_click no_parse (set_selection (Some (Sel_entry stored_entry)) None (run no_parse [Loaded sample_data] initial_state))
    = Done (Some (Req_update
              (updateEntry no_parse 7 "2018-05-02"
                 (set_selection (Some (Sel_entry stored_entry)) None (run no_parse [Loaded sample_data] initial_state)))))
           (set_selection (Some (Sel_entry stored_entry)) None (run no_parse [Loaded sample_data] initial_state)) ∧
  idCounter (state_of (updateEntry_done no_parse sample_response
               (set_selection (Some (Sel_entry stored_entry)) None (run no_parse [Loaded sample_data] initial_state)))) = 4%nat.
Proof.
  split; [reflexivity|].
  destruct (export_of_entry_is_update no_parse
              (set_selection (Some (Sel_entry stored_entry)) None (run no_parse [Loaded sample_data] initial_state))
              stored_entry sample_response eq_refl) as (Hclick & _ & Hn & _).
  split; [exact Hclick | exact Hn].
Defined.

(** The row of the sample session is removed, or dragged, after a load. *)
Lemma intents_on_other_rows_witness :
  find_row "2018-05-02" 0 (run no_parse [Loaded sample_data] initial_state) = Some (fst (makeRow_session stored_session)) ∧
  is_entry_row (fst (makeRow_session stored_session)) = false ∧
  returned (Timeline_remove "2018-05-02" 0 (run no_parse [Loaded sample_data] initial_state)) = true ∧
  find_row "2018-05-02" 0 (state_of (Timeline_remove "2018-05-02" 0 (run no_parse [Loaded sample_data] initial_state))) = None.
Proof.
  assert (find_row "2018-05-02" 0 (run no_parse [Loaded sample_data] initial_state) = Some (fst (makeRow_session stored_session))) as Hf
    by (vm_compute; reflexivity).
  assert (chartItems (run no_parse [Loaded sample_data] initial_state) !! "2018-05-02" = Some (default [] (chartItems (run no_parse [Loaded sample_data] initial_state) !! "2018-05-02")))
    as Hc by (vm_compute; reflexivity).
  split; [exact Hf|]. split; [reflexivity|].
  destruct (intents_on_other_rows "2018-05-02" 0 (run no_parse [Loaded sample_data] initial_state) (fst (makeRow_session stored_session))
              (default [] (chartItems (run no_parse [Loaded sample_data] initial_state) !! "2018-05-02")) Hf Hc eq_refl) as [Hrm _].
  rewrite Hrm. split; [reflexivity | vm_compute; reflexivity].
Defined.

(** The row of the sample entry is dragged by one hour after a load. *)
Lemma move_is_optimistic_witness :
  find_row "2018-05-02" 1 (run no_parse [Loaded sample_data] initial_state) = Some (makeRow_entry stored_entry) ∧
  entry_of_row (makeRow_entry stored_entry) (run no_parse [Loaded sample_data] initial_state) = Some stored_entry ∧
  timeEntries (state_of (Timeline_move "2018-05-02" 1
                           (Date_ms 1525251600000) (Date_ms 1525258800000) (run no_parse [Loaded sample_data] initial_state)))
    = timeEntries (run no_parse [Loaded sample_data] initial_state) ∧
  (start <$> find_row "2018-05-02" 1
      (state_of (Timeline_move "2018-05-02" 1
                   (Date_ms 1525251600000) (Date_ms 1525258800000) (run no_parse [Loaded sample_data] initial_state))))
    = Some (Some (Date_ms 1525251600000)).
Proof.
  assert (find_row "2018-05-02" 1 (run no_parse [Loaded sample_data] initial_state) = Some (makeRow_entry stored_entry)) as Hf
    by (vm_compute; reflexivity).
  assert (entry_of_row (makeRow_entry stored_entry) (run no_parse [Loaded sample_data] initial_state) = Some stored_entry) as He
    by (vm_compute; reflexivity).
  assert (chartItems (run no_parse [Loaded sample_data] initial_state) !! "2018-05-02" = Some (default [] (chartItems (run no_parse [Loaded sample_data] initial_state) !! "2018-05-02")))
    as Hc by (vm_compute; reflexivity).
  split; [exact Hf|]. split; [exact He|].
  destruct (move_is_optimistic "2018-05-02" 1
              (Date_ms 1525251600000) (Date_ms 1525258800000) (run no_parse [Loaded sample_data] initial_state)
              (makeRow_entry stored_entry) (default [] (chartItems (run no_parse [Loaded sample_data] initial_state) !! "2018-05-02"))
              stored_entry (Date_ms 1525255200000) Hf Hc eq_refl He eq_refl)
    as (Hres & Hentries & _).
  split; [exact Hentries|]. rewrite Hres. vm_compute. reflexivity.
Defined.

(** The sample data is loaded with its two projects, which selects the
    first of them; then a description that holds the key of the sample
    issue selects the issue's project. *)
Lemma description_first_match_decides_witness :
  String_indexOf "TT-1 timeline" (key sample_issue) > -1 ∧
  project_val (page (run no_parse [Loaded sample_data_projects] initial_state)) = Some 3 ∧
  project_val (page (state_of (description_change
     (set_page (set_description_val "TT-1 timeline" (page (run no_parse [Loaded sample_data_projects] initial_state))) (run no_parse [Loaded sample_data_projects] initial_state))))) = Some 5.
Proof.
  assert (String_indexOf "TT-1 timeline" (key sample_issue) > -1) as H
    by (vm_compute; reflexivity).
  split; [exact H|]. split; [vm_compute; reflexivity|].
  destruct (description_first_match_decides
              (set_page (set_description_val "TT-1 timeline" (page (run no_parse [Loaded sample_data_projects] initial_state))) (run no_parse [Loaded sample_data_projects] initial_state))
              [] [] sample_issue) as (_ & _ & Hsel).
  - vm_compute. reflexivity.
  - constructor.
  - exact H.
  - destruct (Hsel 5 eq_refl ltac:(lia)) as (_ & Hin & _).
    apply Hin. refine (bool_decide_unpack _ _). vm_compute. exact I.
Defined.

(** The sample data with its projects is loaded on the page as it
    starts: the first project becomes the selected one. *)
Lemma load_keeps_selection_and_options_witness :
  verbatim_options sample_data_projects = true ∧
  idCounter (state_of (getSessions_done no_parse sample_data_projects initial_state)) = 4%nat ∧
  project_val (page (state_of (getSessions_done no_parse sample_data_projects initial_state)))
    = Some 3.
Proof.
  assert (verbatim_options sample_data_projects = true) as H by (vm_compute; reflexivity).
  split; [exact H|].
  destruct (load_keeps_selection_and_options no_parse sample_data_projects initial_state H)
    as (Hn & _ & _ & _ & _ & _ & _ & _ & Hsel & _).
  split; [exact Hn|]. rewrite Hsel; [reflexivity | reflexivity | discriminate].
Defined.

(** The sample session is loaded and exported. *)
Lemma loaded_session_exports_its_times_witness :
  d_sessions sample_data !! 0%nat = Some sample_session ∧
  ∃ s, sessions (run no_parse [Loaded sample_data] initial_state) !! 0%nat = Some s ∧
       ex_start_time (exportSession s (s_end_time s) (run no_parse [Loaded sample_data] initial_state)) = Some 1525248000000 ∧
       ex_end_time (exportSession s (s_end_time s) (run no_parse [Loaded sample_data] initial_state)) = Some 1525251600000.
Proof.
  split; [reflexivity|].
  destruct (loaded_session_exports_its_times no_parse sample_data initial_state 0
              sample_session 1525248000000 1525251600000
              eq_refl eq_refl eq_refl ltac:(lia) ltac:(lia))
    as (s & Hs & _ & _ & _ & Hstart & Hend).
  exists s. split; [exact Hs|]. split; [exact Hstart | exact Hend].
Defined.

(** * The time of day shown in the form *)

Lemma append_inj_length (s1 s2 t1 t2 : string) :
  String.length s1 = String.length s2 → s1 +:+ t1 = s2 +:+ t2 → s1 = s2 ∧ t1 = t2.
Proof.
  revert s2. induction s1 as [|c s1 IH]; intros [|c' s2] Hlen Heq; cbn in *; try done.
  injection Heq as -> Heq. injection Hlen as Hlen.
  destruct (IH s2 Hlen Heq) as [-> ->]. done.
Qed.

Lemma length_append (s t : string) :
  String.length (s +:+ t) = (String.length s + String.length t)%nat.
Proof. induction s as [|c s IH]; simpl; [done | by f_equal]. Qed.

(** The sixty texts for 0..59, checked one by one. *)
Lemma two_digits_checked :
  forallb (λ i,
    Nat.eqb (String.length (ToString (format_two_digits (Some (Z.of_nat i))))) 2 &&
    forallb (λ j,
      implb (String.eqb (ToString (format_two_digits (Some (Z.of_nat i))))
                        (ToString (format_two_digits (Some (Z.of_nat j)))))
            (Nat.eqb i j)) (seq 0 60)) (seq 0 60) = true.
Proof. vm_compute. reflexivity. Qed.

Lemma two_digits_length (n : Z) :
  0 ≤ n < 60 → String.length (ToString (format_two_digits (Some n))) = 2%nat.
Proof.
  intros Hn. pose proof two_digits_checked as H. rewrite forallb_forall in H.
  specialize (H (Z.to_nat n) ltac:(apply in_seq; lia)).
  rewrite Z2Nat.id in H by lia.
  apply andb_true_iff in H as [H _]. by apply Nat.eqb_eq.
Qed.

Lemma two_digits_inj (n m : Z) :
  0 ≤ n < 60 → 0 ≤ m < 60 →
  ToString (format_two_digits (Some n)) = ToString (format_two_digits (Some m)) → n = m.
Proof.
  intros Hn Hm Heq. pose proof two_digits_checked as H. rewrite forallb_forall in H.
  specialize (H (Z.to_nat n) ltac:(apply in_seq; lia)).
  rewrite Z2Nat.id in H by lia.
  apply andb_true_iff in H as [_ H].
  rewrite forallb_forall in H. specialize (H (Z.to_nat m) ltac:(apply in_seq; lia)).
  rewrite Z2Nat.id in H by lia. rewrite Heq, String.eqb_refl in H. cbn in H.
  apply Nat.eqb_eq in H. lia.
Qed.

Lemma clock_parts (q : Z) :
  0 ≤ (q / 3600) mod 24 < 24 ∧ 0 ≤ (q / 60) mod 60 < 60 ∧ 0 ≤ q mod 60 < 60 ∧
  q mod 86400 = 3600 * ((q / 3600) mod 24) + 60 * ((q / 60) mod 60) + q mod 60.
Proof. Z.div_mod_to_equations. lia. Qed.

Section LocalTimeProperties.

Variable LocalTZA : Z → Z.

Lemma clock_of_time (t : Z) :
  let q := LocalTime LocalTZA t / 1000 in
  HourFromTime (LocalTime LocalTZA t) = (q / 3600) mod 24 ∧
  MinFromTime (LocalTime LocalTZA t) = (q / 60) mod 60 ∧
  SecFromTime (LocalTime LocalTZA t) = q mod 60.
Proof.
  intros q. unfold HourFromTime, MinFromTime, SecFromTime. subst q.
  rewrite !Z.div_div by lia. done.
Qed.

(** For a valid date [dateToTimestr] yields eight characters, two digits
    for each of the local hour, minute and second with a colon after the
    second and the fifth character, and two dates get the same text exactly
    when they fall on the same second of the local day.  For Invalid Date
    every part is NaN. *)
Theorem dateToTimestr_clock (t : Z) :
  let s := dateToTimestr LocalTZA (Date_ms t) in
  String.length s = 8%nat ∧
  String.get 2 s = Some ":"%char ∧ String.get 5 s = Some ":"%char ∧
  (∀ t', dateToTimestr LocalTZA (Date_ms t') = s ↔
         second_of_day LocalTZA t' = second_of_day LocalTZA t) ∧
  dateToTimestr LocalTZA Invalid_Date = "NaN:NaN:NaN".
Proof.
  assert (∀ u, ∃ h m s,
    (0 ≤ h < 24 ∧ 0 ≤ m < 60 ∧ 0 ≤ s < 60) ∧
    second_of_day LocalTZA u = 3600 * h + 60 * m + s ∧
    dateToTimestr LocalTZA (Date_ms u) =
      ToString (format_two_digits (Some h)) +:+ ":" +:+
      ToString (format_two_digits (Some m)) +:+ ":" +:+
      ToString (format_two_digits (Some s))) as Hparts.
  { intros u. destruct (clock_of_time u) as (Hh & Hm & Hs). cbn zeta in *.
    destruct (clock_parts (LocalTime LocalTZA u / 1000)) as (H1 & H2 & H3 & H4).
    eexists _, _, _. split; [exact (conj H1 (conj H2 H3))|]. split; [exact H4|].
    unfold dateToTimestr, getHours, getMinutes, getSeconds. by rewrite Hh, Hm, Hs. }
  intros s. subst s.
  destruct (Hparts t) as (h & m & s & (Hh & Hm & Hs) & Hsod & ->).
  pose proof (two_digits_length h ltac:(lia)) as Lh.
  pose proof (two_digits_length m Hm) as Lm.
  pose proof (two_digits_length s Hs) as Ls.
  split; [|split; [|split; [|split; [|reflexivity]]]].
  - rewrite !length_append, Lh, Lm, Ls. done.
  - destruct (ToString (format_two_digits (Some h))) as [|c1 [|c2 [|? ?]]]; done.
  - destruct (ToString (format_two_digits (Some h))) as [|c1 [|c2 [|? ?]]]; try done.
    destruct (ToString (format_two_digits (Some m))) as [|c3 [|c4 [|? ?]]]; done.
  - intros t'. destruct (Hparts t') as (h' & m' & s' & (Hh' & Hm' & Hs') & Hsod' & ->).
    rewrite Hsod, Hsod'. split.
    + intros Heq.
      apply append_inj_length in Heq as [E1 Heq];
        [|by rewrite Lh, (two_digits_length h') by lia].
      apply (append_inj_length ":" ":") in Heq as [_ Heq]; [|done].
      apply append_inj_length in Heq as [E2 Heq];
        [|by rewrite Lm, (two_digits_length m') by lia].
      apply (append_inj_length ":" ":") in Heq as [_ E3]; [|done].
      apply two_digits_inj in E1; [|lia|lia].
      apply two_digits_inj in E2; [|lia|lia].
      apply two_digits_inj in E3; [|lia|lia]. lia.
    + intros Heq. assert (h' = h ∧ m' = m ∧ s' = s) as (-> & -> & ->) by lia. done.
Qed.

End LocalTimeProperties.

(** * The tooltip of a session *)

Lemma sort_insert_Permutation {A : Type} (cmp : A → A → Z) (x : A) (l : list A) :
  sort_insert cmp x l ≡ₚ x :: l.
Proof.
  induction l as [|y l IH]; cbn; [done|]. case_decide; [done|].
  rewrite IH. apply Permutation_swap.
Qed.

Lemma Array_sort_Permutation {A : Type} (cmp : A → A → Z) (l : list A) :
  Array_sort cmp l ≡ₚ l.
Proof.
  induction l as [|x l IH]; cbn; [done|].
  fold (Array_sort cmp l). by rewrite sort_insert_Permutation, IH.
Qed.

Lemma Sorted_weaken {A : Type} (R1 R2 : A → A → Prop) (l : list A) :
  (∀ a b, R1 a b → R2 a b) → Sorted R1 l → Sorted R2 l.
Proof.
  intros HR. induction 1 as [|x l Hs IH Hhd]; constructor; [done|].
  destruct Hhd; constructor. by apply HR.
Qed.

Lemma wcmp_le (a b : Window) : wcmp a b ≤ 0 ↔ w_time b ≤ w_time a.
Proof. unfold wcmp. repeat case_decide; lia. Qed.

(** [wcmp] is a consistent comparator: swapping its arguments negates it,
    and it is 0 exactly on equal durations. *)
Lemma wcmp_consistent (a b : Window) :
  wcmp a b = - wcmp b a ∧ (wcmp a b = 0 ↔ w_time a = w_time b).
Proof. unfold wcmp. repeat case_decide; lia. Qed.

(** The title of a session's row lists the windows [makeRow] keeps after
    sorting, at most ten of them; together with the windows it leaves out
    they are the session's windows, each as often as it was recorded; the
    listed ones come in order of non-increasing duration, and none of them
    is shorter than a window that is left out. *)
Theorem session_title_longest_windows (s : Session) :
  let sorted := Array_sort wcmp (windows (s_extra_data s)) in
  let shown := take 10 sorted in
  let hidden := drop 10 sorted in
  title (fst (makeRow_session s)) =
    Some (Array_join "<br />" (map window_line shown)) ∧
  shown ++ hidden ≡ₚ windows (s_extra_data s) ∧
  length shown = Nat.min 10 (length (windows (s_extra_data s))) ∧
  StronglySorted (λ a b, w_time b ≤ w_time a) shown ∧
  (∀ w w', w ∈ shown → w' ∈ hidden → w_time w' ≤ w_time w).
Proof.
  intros sorted shown hidden.
  assert (StronglySorted (λ a b, w_time b ≤ w_time a) (shown ++ hidden)) as Hss.
  { subst shown hidden. rewrite take_drop.
    apply Sorted.Sorted_StronglySorted; [intros a b c ? ?; lia|].
    eapply Sorted_weaken; [|apply (Array_sort_Sorted wcmp), wcmp_total].
    intros a b. apply wcmp_le. }
  split; [done|]. split; [|split; [|split]].
  - subst shown hidden. rewrite take_drop. apply Array_sort_Permutation.
  - subst shown. rewrite length_take. subst sorted.
    by rewrite (Permutation_length (Array_sort_Permutation wcmp _)).
  - by eapply StronglySorted_app_1_l.
  - intros w w' Hw Hw'.
    exact (StronglySorted_app_1_elem_of (λ a b : Window, w_time b ≤ w_time a)
             shown hidden w w' Hss Hw Hw').
Qed.
